(** * text_clustering: the ClusterClassifier pipeline

    A shallow embedding of [src/text_clustering.py].  The classifier object
    is a record that the methods thread through a state-and-exception monad;
    the embedding model, the nearest-neighbour index, the projection and
    clustering algorithms, the random generator and the text-generation
    service are collaborators the pipeline calls, gathered in the class
    [Externals].  Python strings are lists of characters (code points below
    256), Python integers are [Z], list positions are [nat], and Python
    dictionaries are association lists in insertion order. *)

From Stdlib Require Import Ascii String.
From Stdlib Require Import List ZArith Lia Bool Arith Sorted.
From Stdlib Require Decimal DecimalString DecimalPos DecimalZ.
Import ListNotations.

Set Implicit Arguments.
Local Open Scope Z_scope.

(** ** Python values *)

Module Py.

Definition str := list ascii.

(** A string literal. *)
Definition lit (s : string) : str := list_ascii_of_string s.

Definition nl : ascii := "010"%char.

(** The exceptions the pipeline can raise. *)
Inductive exn :=
| TypeError
| ValueError
| IndexError
| KeyError
| AttributeError
| UnboundLocalError
| FileNotFoundError
| RuntimeError.

Inductive result (A : Type) :=
| Ok (a : A)
| Raise (e : exn).
Arguments Ok {A} a.
Arguments Raise {A} e.

Definition rbind {A B} (r : result A) (k : A -> result B) : result B :=
  match r with
  | Ok a => k a
  | Raise e => Raise e
  end.

(** A list comprehension whose element expression can raise. *)
Fixpoint map_r {A B} (f : A -> result B) (l : list A) : result (list B) :=
  match l with
  | [] => Ok []
  | a :: l' =>
      rbind (f a) (fun b => rbind (map_r f l') (fun bs => Ok (b :: bs)))
  end.

Definition str_eqb (a b : str) : bool :=
  if list_eq_dec ascii_dec a b then true else false.

(** [c.isspace()] on code points below 256. *)
Definition isspace (c : ascii) : bool :=
  let n := N_of_ascii c in
  ((9 <=? n) && (n <=? 13) || (28 <=? n) && (n <=? 32)
   || (n =? 133) || (n =? 160))%N.

Fixpoint lstrip (s : str) : str :=
  match s with
  | [] => []
  | c :: s' => if isspace c then lstrip s' else s
  end.

Definition rstrip (s : str) : str := rev (lstrip (rev s)).

(** [s.strip()] *)
Definition strip (s : str) : str := rstrip (lstrip s).

Fixpoint startswith (p s : str) : bool :=
  match p, s with
  | [], _ => true
  | _ :: _, [] => false
  | a :: p', b :: s' => Ascii.eqb a b && startswith p' s'
  end.

(** [s.split(sep)] for a non-empty separator: the pieces between the
    occurrences of [sep], scanned left to right without overlap.  [skip]
    counts the characters of a matched separator still to be passed over
    and [acc] holds the current piece, reversed. *)
Fixpoint split_scan (sep s : str) (skip : nat) (acc : str) : list str :=
  match s with
  | [] => [rev acc]
  | c :: s' =>
      match skip with
      | S k => split_scan sep s' k acc
      | O =>
          if startswith sep s
          then rev acc :: split_scan sep s' (Nat.pred (length sep)) []
          else split_scan sep s' O (c :: acc)
      end
  end.

Definition split (sep s : str) : list str := split_scan sep s O [].

(** [sep.join(parts)] *)
Fixpoint join (sep : str) (parts : list str) : str :=
  match parts with
  | [] => []
  | [p] => p
  | p :: rest => p ++ sep ++ join sep rest
  end.

(** [l[i]] for a position counted from the start. *)
Definition item {A} (l : list A) (i : nat) : result A :=
  match nth_error l i with
  | Some a => Ok a
  | None => Raise IndexError
  end.

(** [l[i]] for a Python integer: negative positions count from the end. *)
Definition index {A} (l : list A) (i : Z) : result A :=
  let n := Z.of_nat (length l) in
  if (0 <=? i) && (i <? n) then item l (Z.to_nat i)
  else if (- n <=? i) && (i <? 0) then item l (Z.to_nat (n + i))
  else Raise IndexError.

(** [s[:stop]] *)
Definition slice_to {A} (l : list A) (stop : Z) : list A :=
  if 0 <=? stop then firstn (Z.to_nat stop) l
  else firstn (length l - Z.to_nat (- stop)) l.

(** [str(n)] for an integer. *)
Definition str_of_int (z : Z) : str :=
  list_ascii_of_string (DecimalString.NilZero.string_of_int (Z.to_int z)).

Definition is_digit (c : ascii) : bool :=
  let n := N_of_ascii c in ((48 <=? n) && (n <=? 57))%N.

(** The digits of an integer literal with the underscores that [int]
    allows between two digits taken out; [None] where one is misplaced.
    [prev] tells whether the character before was a digit. *)
Fixpoint drop_underscores (s : str) (prev : bool) : option str :=
  match s with
  | [] => if prev then Some [] else None
  | c :: s' =>
      if is_digit c then option_map (cons c) (drop_underscores s' true)
      else if Ascii.eqb c "_"%char
           then if prev then
                  match s' with
                  | d :: _ => if is_digit d then drop_underscores s' false
                              else None
                  | [] => None
                  end
                else None
           else None
  end.

Definition int_of_digits (s : str) : result Z :=
  match drop_underscores s false with
  | Some ds =>
      match DecimalString.NilEmpty.uint_of_string (string_of_list_ascii ds) with
      | Some u => Ok (Z.of_uint u)
      | None => Raise ValueError
      end
  | None => Raise ValueError
  end.

(** [int(s)] for a string: surrounding whitespace, an optional sign and
    decimal digits. *)
Definition int_of_str (s : str) : result Z :=
  match strip s with
  | c :: r =>
      if Ascii.eqb c "-"%char then
        match int_of_digits r with
        | Ok z => Ok (- z)
        | Raise e => Raise e
        end
      else if Ascii.eqb c "+"%char then int_of_digits r
      else int_of_digits (c :: r)
  | [] => Raise ValueError
  end.

(** An attribute that [__init__] does not create: absent, [None], or a
    value. *)
Inductive attr (A : Type) :=
| Unset
| PyNone
| Val (a : A).
Arguments Unset {A}.
Arguments PyNone {A}.
Arguments Val {A} a.

(** A dictionary key that is an integer or a string. *)
Inductive key :=
| KInt (z : Z)
| KStr (s : str).

Definition key_eqb (a b : key) : bool :=
  match a, b with
  | KInt x, KInt y => x =? y
  | KStr x, KStr y => str_eqb x y
  | _, _ => false
  end.

(** A format string, held as the literal text and the replacement fields
    that [str.format] reads it as. *)
Inductive piece :=
| Text (s : str)
| Field (name : str).

Definition template := list piece.

(** Python dictionaries: association lists in insertion order, no key
    twice. *)
Section Dict.
Variables (K V : Type) (eqb : K -> K -> bool).

Fixpoint dict_get (d : list (K * V)) (k : K) : option V :=
  match d with
  | [] => None
  | (k', v) :: r => if eqb k' k then Some v else dict_get r k
  end.

(** [d[k] = v]: a present key keeps its place. *)
Fixpoint dict_set (d : list (K * V)) (k : K) (v : V) : list (K * V) :=
  match d with
  | [] => [(k, v)]
  | (k', v') :: r =>
      if eqb k' k then (k', v) :: r else (k', v') :: dict_set r k v
  end.

Fixpoint dict_remove (d : list (K * V)) (k : K) : list (K * V) :=
  match d with
  | [] => []
  | (k', v') :: r => if eqb k' k then r else (k', v') :: dict_remove r k
  end.

(** [d.pop(k)] *)
Definition dict_pop (d : list (K * V)) (k : K) : result (V * list (K * V)) :=
  match dict_get d k with
  | Some v => Ok (v, dict_remove d k)
  | None => Raise KeyError
  end.

Definition dict_keys (d : list (K * V)) : list K := map fst d.

(** The dictionary built from a sequence of pairs. *)
Definition dict_of_pairs (l : list (K * V)) : list (K * V) :=
  fold_left (fun d kv => dict_set d (fst kv) (snd kv)) l [].
End Dict.

(** [template.format(...)] with the keyword arguments [kwargs]. *)
Fixpoint format (t : template) (kwargs : list (str * str)) : result str :=
  match t with
  | [] => Ok []
  | Text s :: t' =>
      match format t' kwargs with
      | Ok r => Ok (s ++ r)
      | Raise e => Raise e
      end
  | Field name :: t' =>
      match dict_get str_eqb kwargs name with
      | Some v =>
          match format t' kwargs with
          | Ok r => Ok (v ++ r)
          | Raise e => Raise e
          end
      | None => Raise KeyError
      end
  end.

(** [enumerate(l)], counting from [i]. *)
Fixpoint enumerate_from {A} (i : nat) (l : list A) : list (nat * A) :=
  match l with
  | [] => []
  | a :: l' => (i, a) :: enumerate_from (S i) l'
  end.

Definition enumerate {A} (l : list A) : list (nat * A) := enumerate_from O l.

(** [range(n)] *)
Definition range (n : Z) : list Z := map Z.of_nat (seq 0 (Z.to_nat n)).

(** [Counter(l)]: the number of occurrences of each element, keyed in
    order of first occurrence. *)
Definition Counter (l : list Z) : list (Z * nat) :=
  fold_left
    (fun d x =>
       dict_set Z.eqb d x
         (match dict_get Z.eqb d x with Some n => S n | None => 1%nat end))
    l [].

(** [max(d.items(), key=itemgetter(1))]: the first entry among those of
    the largest count. *)
Fixpoint max_by_count (best : Z * nat) (d : list (Z * nat)) : Z * nat :=
  match d with
  | [] => best
  | e :: r =>
      if (snd best <? snd e)%nat then max_by_count e r
      else max_by_count best r
  end.

(** [c.most_common(1)] *)
Definition most_common_1 (c : list (Z * nat)) : list (Z * nat) :=
  match c with
  | [] => []
  | e :: r => [max_by_count e r]
  end.

(** [len(set(l))] *)
Definition len_set (l : list Z) : nat := length (nodup Z.eq_dec l).

End Py.

Notation "'let?' x ':=' c 'in' k" := (Py.rbind c (fun x => k))
  (at level 10, x pattern, c at level 100, k at level 200).

(** ** The collaborators

    What the pipeline delegates: the sentence-embedding model, the faiss
    index, the projection and clustering algorithms of scikit-learn, umap
    and hdbscan, numpy's mean and random generator, and the hosted
    text-generation client.  [text_generation k request] is the answer to
    the request made after [k] earlier calls; [entropy k] is the [k]-th raw
    draw of the random generator. *)
Class Externals := {
  Float : Type;
  Index : Type;
  Mapper : Type;
  ArgValue : Type;
  np_mean : list Float -> Float;
  encode : option (list Py.str) -> list (list Float);
  IndexFlatL2_add : list (list Float) -> Index;
  index_search : Index -> list (list Float) -> Z -> list (list Z);
  PCA_fit_transform :
    list (Py.str * ArgValue) -> list (list Float) ->
    list (list Float) * Mapper;
  UMAP_fit :
    list (Py.str * ArgValue) -> list (list Float) ->
    list (list Float) * Mapper;
  TruncatedSVD_fit_transform :
    list (Py.str * ArgValue) -> list (list Float) ->
    list (list Float) * Mapper;
  DBSCAN_fit : list (Py.str * ArgValue) -> list (list Float) -> list Z;
  HDBSCAN_fit : list (Py.str * ArgValue) -> list (list Float) -> list Z;
  KMeans_fit : list (Py.str * ArgValue) -> list (list Float) -> list Z;
  OPTICS_fit : list (Py.str * ArgValue) -> list (list Float) -> list Z;
  entropy : nat -> nat;
  text_generation : nat -> Py.str -> Py.str
}.

(** The calls made to the collaborators, in order. *)
Inductive event :=
| Encode (texts : option (list Py.str))
| BuildIndex
| Project (algorithm : Py.str)
| Cluster (algorithm : Py.str)
| Search (top_k : Z)
| Generate (request : Py.str).

(** ** The classifier *)

Section Classifier.
Context {X : Externals}.

Definition Args := list (Py.str * ArgValue).

Definition DEFAULT_INSTRUCTION : Py.str :=
  Py.lit "Use three words total (comma separated)to describe general topics in above texts. Under no circumstances use enumeration. Example format: Tree, Cat, Fireman".

Definition DEFAULT_TEMPLATE : Py.template :=
  [Py.Text (Py.lit "<s>[INST]"); Py.Field (Py.lit "examples");
   Py.Text [Py.nl; Py.nl]; Py.Field (Py.lit "instruction");
   Py.Text (Py.lit "[/INST]")].

(** The noise label of the clustering algorithms. *)
Definition noise_label : Z := -1.

(** The attributes of a classifier that the pipeline reads or writes.  The
    settings of the embedding model and of the text-generation client
    ([embed_model_name], [embed_device], [embed_batch_size],
    [embed_max_seq_length], [summary_model], [summary_model_token]) only
    configure the collaborators. *)
Record ClusterClassifier := {
  batch_size : Z;
  projection_algorithm : Py.str;
  projection_args : Args;
  clustering_algorithm : Py.str;
  clustering_args : Args;
  summary_create : bool;
  topic_mode : Py.str;
  summary_n_examples : Z;
  summary_chunk_size : Z;
  summary_template : Py.template;
  summary_instruction : Py.str;
  embeddings : option (list (list Float));
  faiss_index : option Index;
  cluster_labels : option (list Z);
  texts : option (list Py.str);
  projections : option (list (list Float));
  mapper : option Mapper;
  id2cluster : option (list (nat * Z));
  label2docs : option (list (Z * list nat));
  cluster_centers : option (list (Z * (Float * Float)));
  cluster_summaries : Py.attr (list (Py.key * Py.str))
}.

Definition set_batch_size (v : Z) (s : ClusterClassifier) :=
  Build_ClusterClassifier v (projection_algorithm s) (projection_args s)
    (clustering_algorithm s) (clustering_args s) (summary_create s)
    (topic_mode s) (summary_n_examples s) (summary_chunk_size s)
    (summary_template s) (summary_instruction s) (embeddings s)
    (faiss_index s) (cluster_labels s) (texts s) (projections s) (mapper s)
    (id2cluster s) (label2docs s) (cluster_centers s) (cluster_summaries s).

Definition set_projection_algorithm (v : Py.str) (s : ClusterClassifier) :=
  Build_ClusterClassifier (batch_size s) v (projection_args s)
    (clustering_algorithm s) (clustering_args s) (summary_create s)
    (topic_mode s) (summary_n_examples s) (summary_chunk_size s)
    (summary_template s) (summary_instruction s) (embeddings s)
    (faiss_index s) (cluster_labels s) (texts s) (projections s) (mapper s)
    (id2cluster s) (label2docs s) (cluster_centers s) (cluster_summaries s).

Definition set_projection_args (v : Args) (s : ClusterClassifier) :=
  Build_ClusterClassifier (batch_size s) (projection_algorithm s) v
    (clustering_algorithm s) (clustering_args s) (summary_create s)
    (topic_mode s) (summary_n_examples s) (summary_chunk_size s)
    (summary_template s) (summary_instruction s) (embeddings s)
    (faiss_index s) (cluster_labels s) (texts s) (projections s) (mapper s)
    (id2cluster s) (label2docs s) (cluster_centers s) (cluster_summaries s).

Definition set_clustering_algorithm (v : Py.str) (s : ClusterClassifier) :=
  Build_ClusterClassifier (batch_size s) (projection_algorithm s)
    (projection_args s) v (clustering_args s) (summary_create s)
    (topic_mode s) (summary_n_examples s) (summary_chunk_size s)
    (summary_template s) (summary_instruction s) (embeddings s)
    (faiss_index s) (cluster_labels s) (texts s) (projections s) (mapper s)
    (id2cluster s) (label2docs s) (cluster_centers s) (cluster_summaries s).

Definition set_clustering_args (v : Args) (s : ClusterClassifier) :=
  Build_ClusterClassifier (batch_size s) (projection_algorithm s)
    (projection_args s) (clustering_algorithm s) v (summary_create s)
    (topic_mode s) (summary_n_examples s) (summary_chunk_size s)
    (summary_template s) (summary_instruction s) (embeddings s)
    (faiss_index s) (cluster_labels s) (texts s) (projections s) (mapper s)
    (id2cluster s) (label2docs s) (cluster_centers s) (cluster_summaries s).

Definition set_embeddings (v : option (list (list Float))) (s : ClusterClassifier) :=
  Build_ClusterClassifier (batch_size s) (projection_algorithm s)
    (projection_args s) (clustering_algorithm s) (clustering_args s)
    (summary_create s) (topic_mode s) (summary_n_examples s)
    (summary_chunk_size s) (summary_template s) (summary_instruction s) v
    (faiss_index s) (cluster_labels s) (texts s) (projections s) (mapper s)
    (id2cluster s) (label2docs s) (cluster_centers s) (cluster_summaries s).

Definition set_faiss_index (v : option Index) (s : ClusterClassifier) :=
  Build_ClusterClassifier (batch_size s) (projection_algorithm s)
    (projection_args s) (clustering_algorithm s) (clustering_args s)
    (summary_create s) (topic_mode s) (summary_n_examples s)
    (summary_chunk_size s) (summary_template s) (summary_instruction s)
    (embeddings s) v (cluster_labels s) (texts s) (projections s)
    (mapper s) (id2cluster s) (label2docs s) (cluster_centers s)
    (cluster_summaries s).

Definition set_cluster_labels (v : option (list Z)) (s : ClusterClassifier) :=
  Build_ClusterClassifier (batch_size s) (projection_algorithm s)
    (projection_args s) (clustering_algorithm s) (clustering_args s)
    (summary_create s) (topic_mode s) (summary_n_examples s)
    (summary_chunk_size s) (summary_template s) (summary_instruction s)
    (embeddings s) (faiss_index s) v (texts s) (projections s) (mapper s)
    (id2cluster s) (label2docs s) (cluster_centers s) (cluster_summaries s).

Definition set_texts (v : option (list Py.str)) (s : ClusterClassifier) :=
  Build_ClusterClassifier (batch_size s) (projection_algorithm s)
    (projection_args s) (clustering_algorithm s) (clustering_args s)
    (summary_create s) (topic_mode s) (summary_n_examples s)
    (summary_chunk_size s) (summary_template s) (summary_instruction s)
    (embeddings s) (faiss_index s) (cluster_labels s) v (projections s)
    (mapper s) (id2cluster s) (label2docs s) (cluster_centers s)
    (cluster_summaries s).

Definition set_projections (v : option (list (list Float))) (s : ClusterClassifier) :=
  Build_ClusterClassifier (batch_size s) (projection_algorithm s)
    (projection_args s) (clustering_algorithm s) (clustering_args s)
    (summary_create s) (topic_mode s) (summary_n_examples s)
    (summary_chunk_size s) (summary_template s) (summary_instruction s)
    (embeddings s) (faiss_index s) (cluster_labels s) (texts s) v
    (mapper s) (id2cluster s) (label2docs s) (cluster_centers s)
    (cluster_summaries s).

Definition set_mapper (v : option Mapper) (s : ClusterClassifier) :=
  Build_ClusterClassifier (batch_size s) (projection_algorithm s)
    (projection_args s) (clustering_algorithm s) (clustering_args s)
    (summary_create s) (topic_mode s) (summary_n_examples s)
    (summary_chunk_size s) (summary_template s) (summary_instruction s)
    (embeddings s) (faiss_index s) (cluster_labels s) (texts s)
    (projections s) v (id2cluster s) (label2docs s) (cluster_centers s)
    (cluster_summaries s).

Definition set_id2cluster (v : option (list (nat * Z))) (s : ClusterClassifier) :=
  Build_ClusterClassifier (batch_size s) (projection_algorithm s)
    (projection_args s) (clustering_algorithm s) (clustering_args s)
    (summary_create s) (topic_mode s) (summary_n_examples s)
    (summary_chunk_size s) (summary_template s) (summary_instruction s)
    (embeddings s) (faiss_index s) (cluster_labels s) (texts s)
    (projections s) (mapper s) v (label2docs s) (cluster_centers s)
    (cluster_summaries s).

Definition set_label2docs (v : option (list (Z * list nat))) (s : ClusterClassifier) :=
  Build_ClusterClassifier (batch_size s) (projection_algorithm s)
    (projection_args s) (clustering_algorithm s) (clustering_args s)
    (summary_create s) (topic_mode s) (summary_n_examples s)
    (summary_chunk_size s) (summary_template s) (summary_instruction s)
    (embeddings s) (faiss_index s) (cluster_labels s) (texts s)
    (projections s) (mapper s) (id2cluster s) v (cluster_centers s)
    (cluster_summaries s).

Definition set_cluster_centers (v : option (list (Z * (Float * Float)))) (s : ClusterClassifier) :=
  Build_ClusterClassifier (batch_size s) (projection_algorithm s)
    (projection_args s) (clustering_algorithm s) (clustering_args s)
    (summary_create s) (topic_mode s) (summary_n_examples s)
    (summary_chunk_size s) (summary_template s) (summary_instruction s)
    (embeddings s) (faiss_index s) (cluster_labels s) (texts s)
    (projections s) (mapper s) (id2cluster s) (label2docs s) v
    (cluster_summaries s).

Definition set_cluster_summaries (v : Py.attr (list (Py.key * Py.str))) (s : ClusterClassifier) :=
  Build_ClusterClassifier (batch_size s) (projection_algorithm s)
    (projection_args s) (clustering_algorithm s) (clustering_args s)
    (summary_create s) (topic_mode s) (summary_n_examples s)
    (summary_chunk_size s) (summary_template s) (summary_instruction s)
    (embeddings s) (faiss_index s) (cluster_labels s) (texts s)
    (projections s) (mapper s) (id2cluster s) (label2docs s)
    (cluster_centers s) v.

(** The arguments of [__init__]. *)
Record init_args := {
  arg_batch_size : Z;
  arg_projection_algorithm : Py.str;
  arg_projection_args : Args;
  arg_clustering_algorithm : Py.str;
  arg_clustering_args : Args;
  arg_summary_create : bool;
  arg_topic_mode : Py.str;
  arg_summary_n_examples : Z;
  arg_summary_chunk_size : Z;
  arg_summary_template : option Py.template;
  arg_summary_instruction : option Py.str
}.

Definition default_args : init_args :=
  {| arg_batch_size := 1;
     arg_projection_algorithm := Py.lit "umap";
     arg_projection_args := [];
     arg_clustering_algorithm := Py.lit "dbscan";
     arg_clustering_args := [];
     arg_summary_create := true;
     arg_topic_mode := Py.lit "multiple_topics";
     arg_summary_n_examples := 10;
     arg_summary_chunk_size := 420;
     arg_summary_template := None;
     arg_summary_instruction := None |}.

Definition projection_algorithms : list Py.str :=
  [Py.lit "pca"; Py.lit "tsvd"; Py.lit "umap"].

Definition clustering_algorithms : list Py.str :=
  [Py.lit "dbscan"; Py.lit "hdbscan"; Py.lit "optics"; Py.lit "kmeans"].

(** [x in l] *)
Definition contains (l : list Py.str) (x : Py.str) : bool :=
  existsb (Py.str_eqb x) l.

(** The attributes [__init__] assigns. *)
Definition new_classifier (a : init_args) : ClusterClassifier :=
  {| batch_size := arg_batch_size a;
     projection_algorithm := arg_projection_algorithm a;
     projection_args := arg_projection_args a;
     clustering_algorithm := arg_clustering_algorithm a;
     clustering_args := arg_clustering_args a;
     summary_create := arg_summary_create a;
     topic_mode := arg_topic_mode a;
     summary_n_examples := arg_summary_n_examples a;
     summary_chunk_size := arg_summary_chunk_size a;
     summary_template :=
       match arg_summary_template a with
       | None => DEFAULT_TEMPLATE
       | Some t => t
       end;
     summary_instruction :=
       match arg_summary_instruction a with
       | None => DEFAULT_INSTRUCTION
       | Some i => i
       end;
     embeddings := None;
     faiss_index := None;
     cluster_labels := None;
     texts := None;
     projections := None;
     mapper := None;
     id2cluster := None;
     label2docs := None;
     cluster_centers := None;
     cluster_summaries := Py.Unset |}.

(** [ClusterClassifier.__init__] *)
Definition __init__ (a : init_args) : Py.result ClusterClassifier :=
  if negb (contains projection_algorithms (arg_projection_algorithm a))
  then Py.Raise Py.ValueError
  else if negb (contains clustering_algorithms (arg_clustering_algorithm a))
  then Py.Raise Py.ValueError
  else Py.Ok (new_classifier a).

(** *** The state of a run: the object, the calls made so far, and the
    number of random draws consumed. *)
Record machine := {
  self : ClusterClassifier;
  calls : list event;
  drawn : nat
}.

Definition M (A : Type) := machine -> machine * Py.result A.

Definition ret {A} (a : A) : M A := fun m => (m, Py.Ok a).

Definition raise {A} (e : Py.exn) : M A := fun m => (m, Py.Raise e).

Definition bind {A B} (c : M A) (k : A -> M B) : M B :=
  fun m =>
    match c m with
    | (m', Py.Ok a) => k a m'
    | (m', Py.Raise e) => (m', Py.Raise e)
    end.

Definition lift {A} (r : Py.result A) : M A := fun m => (m, r).

Definition read : M ClusterClassifier := fun m => (m, Py.Ok (self m)).

Definition assign (f : ClusterClassifier -> ClusterClassifier) : M unit :=
  fun m =>
    ({| self := f (self m); calls := calls m; drawn := drawn m |}, Py.Ok tt).

Definition call (e : event) : M unit :=
  fun m =>
    ({| self := self m; calls := calls m ++ [e]; drawn := drawn m |},
     Py.Ok tt).

Definition count_calls : M nat := fun m => (m, Py.Ok (length (calls m))).

Notation "x <- c ;; k" := (bind c (fun x => k))
  (at level 61, c at next level, right associativity).
Notation "c ;;; k" := (bind c (fun _ => k))
  (at level 61, right associativity).

Definition when (b : bool) (c : M unit) : M unit := if b then c else ret tt.

(** A loop that carries a local variable. *)
Fixpoint fold_m {A B} (l : list A) (body : B -> A -> M B) (b : B) : M B :=
  match l with
  | [] => ret b
  | a :: l' => b' <- body b a ;; fold_m l' body b'
  end.

(** *** Truth values: [a or b] *)

Definition or_int (a : option Z) (b : Z) : Z :=
  match a with
  | Some z => if z =? 0 then b else z
  | None => b
  end.

Definition or_str (a : option Py.str) (b : Py.str) : Py.str :=
  match a with
  | Some (c :: r) => c :: r
  | _ => b
  end.

Definition or_args (a : option Args) (b : Args) : Args :=
  match a with
  | Some (kv :: r) => kv :: r
  | _ => b
  end.

Definition or_texts (a b : option (list Py.str)) : option (list Py.str) :=
  match a with
  | Some (t :: r) => Some (t :: r)
  | _ => b
  end.

(** *** Post-processing of a response *)

(** [try: e except IndexError: None] *)
Definition except_IndexError {A} (r : Py.result A) : Py.result (option A) :=
  match r with
  | Py.Ok a => Py.Ok (Some a)
  | Py.Raise Py.IndexError => Py.Ok None
  | Py.Raise e => Py.Raise e
  end.

(** [f"{x}"] for a string or [None]. *)
Definition show_optional (x : option Py.str) : Py.str :=
  match x with
  | Some t => t
  | None => Py.lit "None"
  end.

(** [ClusterClassifier._postprocess_response] *)
Definition _postprocess_response (s : ClusterClassifier) (response : Py.str)
  : Py.result Py.str :=
  if Py.str_eqb (topic_mode s) (Py.lit "multiple_topics") then
    let? line := Py.item (Py.split [Py.nl] response) 0 in
    let? sentence := Py.item (Py.split (Py.lit ".") line) 0 in
    let? summary := Py.item (Py.split (Py.lit "(") sentence) 0 in
    Py.Ok
      (Py.join (Py.lit ",")
         (filter (fun txt => (0 <? length txt)%nat)
            (Py.split (Py.lit ",") (Py.strip summary))))
  else if Py.str_eqb (topic_mode s) (Py.lit "single_topic") then
    let? first_line := Py.item (Py.split [Py.nl] response) 0 in
    let? topic :=
      except_IndexError
        (let? a := Py.item (Py.split (Py.lit "Topic:") first_line) 1 in
         let? b := Py.item (Py.split (Py.lit "(") a) 0 in
         let? c := Py.item (Py.split (Py.lit ",") b) 0 in
         Py.Ok (Py.strip c)) in
    let? score :=
      except_IndexError
        (let? a :=
           Py.item
             (Py.split (Py.lit "Educational value rating:") first_line) 1 in
         let? b := Py.item (Py.split (Py.lit ".") (Py.strip a)) 0 in
         Py.Ok (Py.strip b)) in
    Py.Ok
      (show_optional topic ++ Py.lit ". Educational score: "
       ++ show_optional score)
  else Py.Raise Py.ValueError.

(** *** Batching *)

(** What a parameter of [batch_and_join] can be bound to. *)
Inductive value :=
| VNone
| VInt (z : Z)
| VList (l : list Py.str)
| VClassifier.

Definition value_of_texts (t : option (list Py.str)) : value :=
  match t with
  | Some l => VList l
  | None => VNone
  end.

(** The slices [texts[i:i + n]] for [i] in [range(0, len(texts), n)],
    [n] positive, each joined with new lines. *)
Fixpoint batches (fuel n : nat) (texts : list Py.str) : list Py.str :=
  match fuel, texts with
  | S f, _ :: _ =>
      Py.join [Py.nl] (firstn n texts) :: batches f n (skipn n texts)
  | _, _ => []
  end.

(** [batch_and_join(texts, n)]: the function as declared, with its two
    parameters.  [len(texts)] needs a list, and the step of the range a
    non-zero integer. *)
Definition batch_and_join (texts n : value) : Py.result (list Py.str) :=
  match texts with
  | VList ts =>
      match n with
      | VInt k =>
          if k =? 0 then Py.Raise Py.ValueError
          else if k <? 0 then Py.Ok []
          else Py.Ok (batches (length ts) (Z.to_nat k) ts)
      | _ => Py.Raise Py.TypeError
      end
  | _ => Py.Raise Py.TypeError
  end.

(** *** Embedding, index, projection *)

(** [ClusterClassifier.embed].  [self.embed_model] and
    [self.embed_batch_size] are set in [__init__] and by no method after
    it; they are taken as the one [encode] of the collaborators, so that
    every classifier here has the same embedding model. *)
Definition embed (texts : option (list Py.str)) : M (list (list Float)) :=
  call (Encode texts) ;;; ret (encode texts).

(** [ClusterClassifier.build_faiss_index] *)
Definition build_faiss_index (embeddings : list (list Float)) : M Index :=
  call BuildIndex ;;; ret (IndexFlatL2_add embeddings).

(** [ClusterClassifier.project]: [None] when no branch returns. *)
Definition project (embeddings : list (list Float)) (algorithm : Py.str)
  (args : Args) : M (option (list (list Float) * Mapper)) :=
  s <- read ;;
  assign (set_projection_algorithm
            (or_str (Some algorithm) (projection_algorithm s))) ;;;
  if Py.str_eqb algorithm (Py.lit "pca") then
    call (Project algorithm) ;;;
    ret (Some (PCA_fit_transform args embeddings))
  else if Py.str_eqb algorithm (Py.lit "umap") then
    call (Project algorithm) ;;;
    ret (Some (UMAP_fit args embeddings))
  else if Py.str_eqb algorithm (Py.lit "tsvd") then
    call (Project algorithm) ;;;
    ret (Some (TruncatedSVD_fit_transform args embeddings))
  else ret None.

(** *** Cluster bookkeeping *)

(** [self.projections[doc, col]] *)
Definition projections_item (p : option (list (list Float))) (doc col : nat)
  : Py.result Float :=
  match p with
  | None => Py.Raise Py.TypeError
  | Some rows => let? row := Py.item rows doc in Py.item row col
  end.

(** [d[label]] on a [defaultdict(list)], read without storing. *)
Definition docs_of (d : list (Z * list nat)) (label : Z) : list nat :=
  match Py.dict_get Z.eqb d label with
  | Some docs => docs
  | None => []
  end.

(** [label2docs[label].append(i)] *)
Definition file_doc (d : list (Z * list nat)) (il : nat * Z)
  : list (Z * list nat) :=
  Py.dict_set Z.eqb d (snd il) (docs_of d (snd il) ++ [fst il]).

(** The loop [for i, label in enumerate(labels):
    label2docs[label].append(i)] on an empty [defaultdict(list)]. *)
Definition group_docs (labels : list Z) : list (Z * list nat) :=
  fold_left file_doc (Py.enumerate labels) [].

(** The loop that fills [cluster_centers], one label at a time; it stops
    at the first failing read of a projection and keeps what it has
    stored. *)
Fixpoint centers_loop (p : option (list (list Float)))
  (d : list (Z * list nat)) (labels : list Z)
  (centers : list (Z * (Float * Float)))
  : list (Z * (Float * Float)) * Py.result unit :=
  match labels with
  | [] => (centers, Py.Ok tt)
  | label :: rest =>
      match
        (let? xs := Py.map_r (fun doc => projections_item p doc 0)
                      (docs_of d label) in
         let? ys := Py.map_r (fun doc => projections_item p doc 1)
                      (docs_of d label) in
         Py.Ok (np_mean xs, np_mean ys))
      with
      | Py.Ok xy => centers_loop p d rest (Py.dict_set Z.eqb centers label xy)
      | Py.Raise e => (centers, Py.Raise e)
      end
  end.

(** The statements shared by [store_cluster_info] (lines 254-265) and
    [load] (lines 372-383): [id2cluster], [label2docs] and
    [cluster_centers] from [cluster_labels] and [projections]. *)
Definition index_clusters : M unit :=
  s <- read ;;
  match cluster_labels s with
  | None => raise Py.TypeError
  | Some labels =>
      assign (set_id2cluster
                (Some (Py.dict_of_pairs Nat.eqb (Py.enumerate labels)))) ;;;
      assign (set_label2docs (Some (group_docs labels))) ;;;
      let looped :=
        centers_loop (projections s) (group_docs labels)
          (Py.dict_keys (group_docs labels)) [] in
      assign (set_cluster_centers (Some (fst looped))) ;;;
      lift (snd looped)
  end.

(** [ClusterClassifier.store_cluster_info] *)
Definition store_cluster_info (labels : list Z) : M unit :=
  assign (set_cluster_labels (Some labels)) ;;;
  index_clusters.

(** [ClusterClassifier.cluster] *)
Definition cluster (embeddings : list (list Float)) (algorithm : Py.str)
  (args : Args) : M unit :=
  clustering <-
    (if Py.str_eqb algorithm (Py.lit "dbscan") then
       call (Cluster algorithm) ;;; ret (Some (DBSCAN_fit args embeddings))
     else ret None) ;;
  clustering <-
    (if Py.str_eqb algorithm (Py.lit "hdbscan") then
       call (Cluster algorithm) ;;; ret (Some (HDBSCAN_fit args embeddings))
     else if Py.str_eqb algorithm (Py.lit "kmeans") then
       call (Cluster algorithm) ;;; ret (Some (KMeans_fit args embeddings))
     else if Py.str_eqb algorithm (Py.lit "optics") then
       call (Cluster algorithm) ;;; ret (Some (OPTICS_fit args embeddings))
     else ret clustering) ;;
  match clustering with
  | Some labels => store_cluster_info labels
  | None => raise Py.UnboundLocalError
  end.

(** *** Summaries *)

(** [self.label2docs[label]]: a missing label is stored with an empty
    list. *)
Definition label2docs_getitem (label : Z) : M (list nat) :=
  s <- read ;;
  match label2docs s with
  | None => raise Py.TypeError
  | Some d =>
      match Py.dict_get Z.eqb d label with
      | Some docs => ret docs
      | None =>
          assign (set_label2docs (Some (Py.dict_set Z.eqb d label []))) ;;;
          ret []
      end
  end.

(** [np.random.choice(a, size)]: [size] draws from [a], with
    replacement. *)
Definition random_choice (a : list nat) (size : Z) : M (list nat) :=
  if size <? 0 then raise Py.ValueError
  else if (length a =? 0)%nat && (0 <? size) then raise Py.ValueError
  else
    fun m =>
      ({| self := self m; calls := calls m;
          drawn := (drawn m + Z.to_nat size)%nat |},
       Py.Ok
         (map (fun j => nth (entropy (drawn m + j) mod length a) a O)
            (seq 0 (Z.to_nat size)))).

(** [texts[_id]] *)
Definition texts_item (texts : option (list Py.str)) (_id : nat)
  : Py.result Py.str :=
  match texts with
  | None => Py.Raise Py.TypeError
  | Some ts => Py.item ts _id
  end.

(** [f"Example {i+1}:\n{text}"] *)
Definition example (i : nat) (text : Py.str) : Py.str :=
  Py.lit "Example " ++ Py.str_of_int (Z.of_nat i + 1) ++ Py.lit ":"
  ++ [Py.nl] ++ text.

(** The list of examples of a request. *)
Definition example_texts (texts : option (list Py.str)) (chunk_size : Z)
  (ids : list nat) : Py.result (list Py.str) :=
  Py.map_r
    (fun i_id =>
       let? text := texts_item texts (snd i_id) in
       Py.Ok (example (fst i_id) (Py.slice_to text chunk_size)))
    (Py.enumerate ids).

(** The body of the loop of [summarize]. *)
Definition summarize_label (texts : option (list Py.str))
  (cluster_summaries : list (Py.key * Py.str)) (label : Z)
  : M (list (Py.key * Py.str)) :=
  s <- read ;;
  docs <- label2docs_getitem label ;;
  ids <- random_choice docs (summary_n_examples s) ;;
  examples <- lift (example_texts texts (summary_chunk_size s) ids) ;;
  request <-
    lift (Py.format (summary_template s)
            [(Py.lit "examples", Py.join [Py.nl; Py.nl] examples);
             (Py.lit "instruction", summary_instruction s)]) ;;
  k <- count_calls ;;
  call (Generate request) ;;;
  summary <- lift (_postprocess_response s (text_generation k request)) ;;
  ret (Py.dict_set Py.key_eqb cluster_summaries (Py.KInt label) summary).

(** [ClusterClassifier.summarize] *)
Definition summarize (texts : option (list Py.str)) (labels : option (list Z))
  : M (list (Py.key * Py.str)) :=
  match labels with
  | None => raise Py.TypeError
  | Some ls =>
      let unique_labels := Z.of_nat (Py.len_set ls) - 1 in
      fold_m (Py.range unique_labels) (summarize_label texts)
        [(Py.KInt noise_label, Py.lit "None")]
  end.

(** *** fit and infer *)

(** [o] where the pipeline has just made it other than [None]. *)
Definition the {A} (o : option A) : M A :=
  match o with
  | Some a => ret a
  | None => raise Py.TypeError
  end.

(** [ClusterClassifier.fit] *)
Definition fit (texts_arg : option (list Py.str)) (batch_size_arg : option Z)
  (projection_algorithm_arg : option Py.str)
  (projection_args_arg : option Args)
  (clustering_algorithm_arg : option Py.str)
  (clustering_args_arg : option Args)
  : M (option (list (list Float)) * option (list Z)
       * Py.attr (list (Py.key * Py.str))) :=
  s <- read ;;
  when (match batch_size_arg with
        | Some b => negb (b =? batch_size s)
        | None => false
        end)
    (assign (set_embeddings None) ;;; assign (set_projections None)) ;;;
  assign (fun s => set_batch_size (or_int batch_size_arg (batch_size s)) s) ;;;
  assign (fun s => set_texts (or_texts texts_arg (texts s)) s) ;;;
  assign (fun s => set_projection_algorithm
                     (or_str projection_algorithm_arg
                        (projection_algorithm s)) s) ;;;
  assign (fun s => set_projection_args
                     (or_args projection_args_arg (projection_args s)) s) ;;;
  assign (fun s => set_clustering_algorithm
                     (or_str clustering_algorithm_arg
                        (clustering_algorithm s)) s) ;;;
  assign (fun s => set_clustering_args
                     (or_args clustering_args_arg (clustering_args s)) s) ;;;
  match batch_size_arg with
  | None => raise Py.TypeError
  | Some b =>
      when (1 <? b)
        (s <- read ;;
         batched <- lift (batch_and_join VClassifier
                            (value_of_texts (texts s))) ;;
         assign (set_texts (Some batched)))
  end ;;;
  s <- read ;;
  match embeddings s with
  | None => e <- embed texts_arg ;; assign (set_embeddings (Some e))
  | Some _ => ret tt
  end ;;;
  s <- read ;;
  match faiss_index s with
  | Some _ => ret tt
  | None =>
      e <- the (embeddings s) ;;
      index <- build_faiss_index e ;;
      assign (set_faiss_index (Some index))
  end ;;;
  s <- read ;;
  match projections s with
  | None =>
      e <- the (embeddings s) ;;
      projected <-
        project e (projection_algorithm s) (projection_args s) ;;
      match projected with
      | Some pm =>
          assign (set_projections (Some (fst pm))) ;;;
          assign (set_mapper (Some (snd pm)))
      | None => raise Py.TypeError
      end
  | Some _ => ret tt
  end ;;;
  s <- read ;;
  p <- the (projections s) ;;
  cluster p (clustering_algorithm s) (clustering_args s) ;;;
  s <- read ;;
  (if summary_create s then
     summaries <- summarize (texts s) (cluster_labels s) ;;
     assign (set_cluster_summaries (Py.Val summaries))
   else assign (set_cluster_summaries Py.PyNone)) ;;;
  s <- read ;;
  ret (embeddings s, cluster_labels s, cluster_summaries s).

(** [ClusterClassifier.infer] *)
Definition infer (texts_arg : list Py.str) (top_k : Z)
  : M (list Z * list (list Float)) :=
  embeddings <- embed (Some texts_arg) ;;
  s <- read ;;
  match faiss_index s with
  | None => raise Py.AttributeError
  | Some index =>
      call (Search top_k) ;;;
      let neighbours := index_search index embeddings top_k in
      inferred_labels <-
        lift
          (Py.map_r
             (fun i =>
                let? row := Py.item neighbours i in
                let? labels :=
                  Py.map_r
                    (fun doc =>
                       match cluster_labels s with
                       | None => Py.Raise Py.TypeError
                       | Some cl => Py.index cl doc
                       end) row in
                let? top := Py.item (Py.most_common_1 (Py.Counter labels)) 0 in
                Py.Ok (fst top))
             (seq 0 (length embeddings))) ;;
      ret (inferred_labels, embeddings)
  end.

(** *** Persistence *)

(** The files of a saved classifier.  An [.npy] file holds an array or a
    pickled [None]; the summaries file holds a JSON object, its keys
    strings. *)
Record folder_files := {
  embeddings_npy : option (option (list (list Float)));
  faiss_index_file : option Index;
  projections_npy : option (option (list (list Float)));
  cluster_labels_npy : option (option (list Z));
  texts_json : option (option (list Py.str));
  mistral_prompt_txt : option Py.str;
  cluster_summaries_json : option (list (Py.str * Py.str))
}.

(** The folders that exist, by path. *)
Definition filesystem := Py.str -> option folder_files.

Definition empty_folder : folder_files :=
  {| embeddings_npy := None; faiss_index_file := None;
     projections_npy := None; cluster_labels_npy := None;
     texts_json := None; mistral_prompt_txt := None;
     cluster_summaries_json := None |}.

Definition write_folder (fs : filesystem) (folder : Py.str)
  (files : folder_files) : filesystem :=
  fun path => if Py.str_eqb path folder then Some files else fs path.

(** The key of a JSON object written for a dictionary key. *)
Definition json_key (k : Py.key) : Py.str :=
  match k with
  | Py.KInt z => Py.str_of_int z
  | Py.KStr t => t
  end.

(** [ClusterClassifier.save] *)
Definition save (folder : Py.str) (s : ClusterClassifier) (fs : filesystem)
  : filesystem * Py.result unit :=
  let dir := match fs folder with Some d => d | None => empty_folder end in
  let dir1 :=
    {| embeddings_npy := Some (embeddings s);
       faiss_index_file := faiss_index_file dir;
       projections_npy := projections_npy dir;
       cluster_labels_npy := cluster_labels_npy dir;
       texts_json := texts_json dir;
       mistral_prompt_txt := mistral_prompt_txt dir;
       cluster_summaries_json := cluster_summaries_json dir |} in
  match faiss_index s with
  | None => (write_folder fs folder dir1, Py.Raise Py.TypeError)
  | Some index =>
      let dir2 :=
        {| embeddings_npy := embeddings_npy dir1;
           faiss_index_file := Some index;
           projections_npy := Some (projections s);
           cluster_labels_npy := Some (cluster_labels s);
           texts_json := Some (texts s);
           mistral_prompt_txt := Some DEFAULT_INSTRUCTION;
           cluster_summaries_json := cluster_summaries_json dir1 |} in
      match cluster_summaries s with
      | Py.Unset => (write_folder fs folder dir2, Py.Raise Py.AttributeError)
      | Py.PyNone => (write_folder fs folder dir2, Py.Ok tt)
      | Py.Val d =>
          (write_folder fs folder
             {| embeddings_npy := embeddings_npy dir2;
                faiss_index_file := faiss_index_file dir2;
                projections_npy := projections_npy dir2;
                cluster_labels_npy := cluster_labels_npy dir2;
                texts_json := texts_json dir2;
                mistral_prompt_txt := mistral_prompt_txt dir2;
                cluster_summaries_json :=
                  Some (map (fun kv => (json_key (fst kv), snd kv)) d) |},
           Py.Ok tt)
      end
  end.

(** [np.load] of a file opened for reading. *)
Definition np_load {A} (file : option (option A)) : Py.result A :=
  match file with
  | None => Py.Raise Py.FileNotFoundError
  | Some None => Py.Raise Py.ValueError
  | Some (Some a) => Py.Ok a
  end.

(** The loop [for key in keys: d[int(key)] = d.pop(key)]: the value is
    popped before the key is converted. *)
Fixpoint rekey_loop (keys : list Py.str) (d : list (Py.key * Py.str))
  : list (Py.key * Py.str) * Py.result unit :=
  match keys with
  | [] => (d, Py.Ok tt)
  | key :: rest =>
      match Py.dict_pop Py.key_eqb d (Py.KStr key) with
      | Py.Raise e => (d, Py.Raise e)
      | Py.Ok (v, d') =>
          match Py.int_of_str key with
          | Py.Raise e => (d', Py.Raise e)
          | Py.Ok z => rekey_loop rest (Py.dict_set Py.key_eqb d' (Py.KInt z) v)
          end
      end
  end.

(** The keys of a loaded dictionary that are strings, in order. *)
Definition str_keys (d : list (Py.key * Py.str)) : list Py.str :=
  flat_map (fun kv => match fst kv with
                      | Py.KStr t => [t]
                      | Py.KInt _ => []
                      end) d.

(** [ClusterClassifier.load] *)
Definition load (fs : filesystem) (folder : Py.str) : M unit :=
  match fs folder with
  | None => raise Py.ValueError
  | Some dir =>
      e <- lift (np_load (embeddings_npy dir)) ;;
      assign (set_embeddings (Some e)) ;;;
      match faiss_index_file dir with
      | None => raise Py.RuntimeError
      | Some index => assign (set_faiss_index (Some index))
      end ;;;
      p <- lift (np_load (projections_npy dir)) ;;
      assign (set_projections (Some p)) ;;;
      l <- lift (np_load (cluster_labels_npy dir)) ;;
      assign (set_cluster_labels (Some l)) ;;;
      match texts_json dir with
      | None => raise Py.FileNotFoundError
      | Some t => assign (set_texts t)
      end ;;;
      match cluster_summaries_json dir with
      | None => ret tt
      | Some pairs =>
          let d :=
            Py.dict_of_pairs Py.key_eqb
              (map (fun kv => (Py.KStr (fst kv), snd kv)) pairs) in
          let looped := rekey_loop (str_keys d) d in
          assign (set_cluster_summaries (Py.Val (fst looped))) ;;;
          lift (snd looped)
      end ;;;
      index_clusters
  end.

End Classifier.

(** ** The topic of a response, in the words of the specification

    "The first line of the response, truncated at the first period and at
    the first opening parenthesis, stripped, and with empty comma-separated
    segments removed." *)
Module Wording.

(** What comes before the first [c]; all of [s] when it has none. *)
Fixpoint before (c : ascii) (s : Py.str) : Py.str :=
  match s with
  | [] => []
  | x :: r => if Ascii.eqb x c then [] else x :: before c r
  end.

Definition first_line (response : Py.str) : Py.str := before Py.nl response.

(** The segments that the occurrences of [c] separate. *)
Fixpoint segments (c : ascii) (s : Py.str) : list Py.str :=
  match s with
  | [] => [[]]
  | x :: r =>
      if Ascii.eqb x c then [] :: segments c r
      else
        match segments c r with
        | h :: t => (x :: h) :: t
        | [] => [[x]]
        end
  end.

Definition is_empty (seg : Py.str) : bool :=
  match seg with
  | [] => true
  | _ :: _ => false
  end.

Definition topic_of_response (response : Py.str) : Py.str :=
  let truncated :=
    before "("%char (before "."%char (first_line response)) in
  Py.join [","%char]
    (filter (fun seg => negb (is_empty seg))
       (segments ","%char (Py.strip truncated))).

End Wording.

(** ** A small instance of the collaborators

    Embeddings are points with integer coordinates: a text is embedded as
    its length and the code of its first character.  The index stores the
    points and searches them by squared distance, filling the positions it
    cannot serve with [-1]; the projections keep the first two coordinates;
    the clustering algorithms cut the first coordinate into bands. *)
Module Toy.

Definition sq_dist (a b : list Z) : Z :=
  fold_left Z.add (map (fun xy => (fst xy - snd xy) * (fst xy - snd xy))
                     (combine a b)) 0.

Fixpoint insert_by_dist (e : Z * Z) (l : list (Z * Z)) : list (Z * Z) :=
  match l with
  | [] => [e]
  | h :: t => if snd e <? snd h then e :: l else h :: insert_by_dist e t
  end.

Definition by_dist (l : list (Z * Z)) : list (Z * Z) :=
  fold_right insert_by_dist [] l.

Definition nearest (stored : list (list Z)) (k : nat) (q : list Z) : list Z :=
  let ranked :=
    by_dist (map (fun iv => (Z.of_nat (fst iv), sq_dist q (snd iv)))
               (Py.enumerate stored)) in
  firstn k (map fst ranked ++ repeat (-1) k).

Definition first_char (t : Py.str) : Z :=
  match t with
  | c :: _ => Z.of_N (N_of_ascii c)
  | [] => 0
  end.

Definition band (noise : bool) (row : list Z) : Z :=
  match row with
  | x :: _ =>
      if noise && (x <? 3) then -1 else if x <? 8 then 0 else 1
  | [] => if noise then -1 else 0
  end.

#[export] Instance externals : Externals :=
  {| Float := Z;
     Index := list (list Z);
     Mapper := unit;
     ArgValue := Z;
     np_mean := fun l => fold_left Z.add l 0 / Z.of_nat (length l);
     encode := fun texts =>
       match texts with
       | Some ts => map (fun t => [Z.of_nat (length t); first_char t]) ts
       | None => []
       end;
     IndexFlatL2_add := fun e => e;
     index_search := fun index queries k =>
       map (nearest index (Z.to_nat k)) queries;
     PCA_fit_transform := fun _ e => (map (firstn 2) e, tt);
     UMAP_fit := fun _ e => (map (firstn 2) e, tt);
     TruncatedSVD_fit_transform := fun _ e => (map (firstn 2) e, tt);
     DBSCAN_fit := fun _ p => map (band true) p;
     HDBSCAN_fit := fun _ p => map (band true) p;
     KMeans_fit := fun _ p => map (band false) p;
     OPTICS_fit := fun _ p => map (band true) p;
     entropy := fun k => k;
     text_generation := fun k request =>
       Py.lit "Tree, Cat,, Fireman. (three words)" |}.

(** A corpus of five texts: one of noise, two short, two long. *)
Definition corpus : list Py.str :=
  [Py.lit "a"; Py.lit "tree"; Py.lit "trees"; Py.lit "fire engine";
   Py.lit "fire brigade"].

(** The settings of a classifier: the defaults but for the clustering
    algorithm, the topic mode, the number of examples and their size, and
    whether summaries are made. *)
Definition settings (clustering mode : string) (n_examples chunk_size : Z)
  (create : bool) : init_args :=
  {| arg_batch_size := 1;
     arg_projection_algorithm := Py.lit "umap";
     arg_projection_args := [];
     arg_clustering_algorithm := Py.lit clustering;
     arg_clustering_args := [];
     arg_summary_create := create;
     arg_topic_mode := Py.lit mode;
     arg_summary_n_examples := n_examples;
     arg_summary_chunk_size := chunk_size;
     arg_summary_template := None;
     arg_summary_instruction := None |}.

(** A new classifier, before any call. *)
Definition fresh (a : init_args) : machine :=
  {| self := new_classifier a; calls := []; drawn := O |}.

(** The state after [c]. *)
Definition after {A} (c : M A) (m : machine) : machine := fst (c m).

(** The classifier fitted on the corpus, with dbscan and three examples
    of at most four characters. *)
Definition fitted_machine : machine :=
  after (fit (Some corpus) (Some 1) None None None None)
    (fresh (settings "dbscan" "multiple_topics" 3 4 true)).

(** The classifier clustered with dbscan and with kmeans, no summary
    made. *)
Definition dbscan_machine : machine :=
  after (fit (Some corpus) (Some 1) None None None None)
    (fresh (settings "dbscan" "multiple_topics" 3 4 false)).

Definition kmeans_machine : machine :=
  after (fit (Some corpus) (Some 1) None None None None)
    (fresh (settings "kmeans" "multiple_topics" 3 4 false)).

(** A file system without any folder. *)
Definition no_files : filesystem := fun _ => None.

(** The summaries of the clusters that kmeans finds. *)
Definition kmeans_summaries : list (Py.key * Py.str) :=
  match
    snd (summarize (texts (self kmeans_machine))
           (cluster_labels (self kmeans_machine)) kmeans_machine)
  with
  | Py.Ok d => d
  | Py.Raise _ => []
  end.

End Toy.


(** ** Votes *)

(** [label] is among the votes and no label has more of them. *)
Definition majority (label : Z) (votes : list Z) : Prop :=
  In label votes
  /\ forall other,
       (count_occ Z.eq_dec votes other <= count_occ Z.eq_dec votes label)%nat.

(** The labels of the documents of a row of neighbours. *)
Definition labels_of (labels : list Z) (row : list Z) : list Z :=
  map (fun doc => nth (Z.to_nat doc) labels 0) row.

(** What a search is to return: for each of the [queries] a row of
    [top_k] documents, each a position among the [n_docs] labelled
    ones. *)
Definition returns_documents (neighbours : list (list Z)) (queries : nat)
  (top_k : Z) (n_docs : nat) : Prop :=
  length neighbours = queries
  /\ Forall (fun row =>
               length row = Z.to_nat top_k
               /\ Forall (fun doc => 0 <= doc < Z.of_nat n_docs) row)
       neighbours.


(** ** Prompts *)

(** The documents filed under a label. *)
Definition docs_at {X : Externals} (s : ClusterClassifier) (label : Z)
  : list nat :=
  match label2docs s with
  | Some d => docs_of d label
  | None => []
  end.

(** [request] is the template filled with the instruction and with the
    examples made of the [chunks]: the texts of the documents [ids],
    [summary_n_examples] of them taken among [docs], each cut at
    [summary_chunk_size]. *)
Definition filled {X : Externals} (s : ClusterClassifier)
  (texts : option (list Py.str)) (docs ids : list nat)
  (chunks : list Py.str) (request : Py.str) : Prop :=
  length ids = Z.to_nat (summary_n_examples s)
  /\ Forall (fun id => In id docs) ids
  /\ Forall2
       (fun id chunk =>
          exists text,
            texts_item texts id = Py.Ok text
            /\ chunk = Py.slice_to text (summary_chunk_size s))
       ids chunks
  /\ Py.format (summary_template s)
       [(Py.lit "examples",
         Py.join [Py.nl; Py.nl]
           (map (fun ic => example (fst ic) (snd ic))
              (Py.enumerate chunks)));
        (Py.lit "instruction", summary_instruction s)]
     = Py.Ok request.


(** A bound on the length of [n] examples joined, numbered from [i], the
    text of each of at most [chunk] characters. *)
Fixpoint examples_budget (i n chunk : nat) : nat :=
  match n with
  | O => O
  | S n' =>
      (length (example i []) + chunk + 2 + examples_budget (S i) n' chunk)%nat
  end.

(** A bound on the length of a filled template, from bounds on the
    lengths of the examples and of the instruction. *)
Fixpoint template_budget (t : Py.template) (examples instruction : nat)
  : nat :=
  match t with
  | [] => O
  | Py.Text s :: r =>
      (length s + template_budget r examples instruction)%nat
  | Py.Field name :: r =>
      ((if Py.str_eqb (Py.lit "examples") name then examples
        else if Py.str_eqb (Py.lit "instruction") name then instruction
             else O)
       + template_budget r examples instruction)%nat
  end.

(** The bound on the length of a prompt: it depends on the settings of
    the classifier alone. *)
Definition prompt_budget {X : Externals} (s : ClusterClassifier) : nat :=
  template_budget (summary_template s)
    (examples_budget 0 (Z.to_nat (summary_n_examples s))
       (Z.to_nat (summary_chunk_size s)))
    (length (summary_instruction s)).

(** [s'] is [s] but for [label2docs], in which the same documents are
    filed under each label. *)
Definition framed {X : Externals} (s s' : ClusterClassifier) : Prop :=
  (exists d, s' = set_label2docs d s)
  /\ forall label, docs_at s' label = docs_at s label.


(** ** Fitted classifiers and what [load] restores *)

(** The summaries [summarize] returns: no key twice, every key an
    integer. *)
Definition int_keyed (d : list (Py.key * Py.str)) : Prop :=
  NoDup (Py.dict_keys d)
  /\ Forall (fun kv => exists z, fst kv = Py.KInt z) d.

(** A classifier as a completed [fit] leaves it: the embeddings, the
    index, the projections and the labels are there; the bookkeeping is
    what [store_cluster_info] made of the labels and the projections; the
    summaries are [None] or a dictionary with integer keys. *)
Definition fitted {X : Externals} (s : ClusterClassifier) : Prop :=
  exists e index p labels centers,
    embeddings s = Some e
    /\ faiss_index s = Some index
    /\ projections s = Some p
    /\ cluster_labels s = Some labels
    /\ id2cluster s = Some (Py.dict_of_pairs Nat.eqb (Py.enumerate labels))
    /\ label2docs s = Some (group_docs labels)
    /\ centers_loop (Some p) (group_docs labels)
         (Py.dict_keys (group_docs labels)) [] = (centers, Py.Ok tt)
    /\ cluster_centers s = Some centers
    /\ match cluster_summaries s with
       | Py.Unset => False
       | Py.PyNone => True
       | Py.Val d => int_keyed d
       end.

(** The folder holds no summaries file. *)
Definition no_summaries_file {X : Externals} (fs : filesystem)
  (folder : Py.str) : Prop :=
  match fs folder with
  | Some dir => cluster_summaries_json dir = None
  | None => True
  end.

(** [s'] has the artifacts and the bookkeeping of [s], and the
    summaries [summaries]. *)
Definition restored {X : Externals} (s : ClusterClassifier)
  (summaries : Py.attr (list (Py.key * Py.str))) (s' : ClusterClassifier)
  : Prop :=
  embeddings s' = embeddings s
  /\ faiss_index s' = faiss_index s
  /\ projections s' = projections s
  /\ cluster_labels s' = cluster_labels s
  /\ texts s' = texts s
  /\ cluster_summaries s' = summaries
  /\ id2cluster s' = id2cluster s
  /\ label2docs s' = label2docs s
  /\ cluster_centers s' = cluster_centers s.


(** A dictionary of summaries from its integer keys and values, and the
    same with each key written as a string. *)
Definition as_int_keys (zs : list (Z * Py.str)) : list (Py.key * Py.str) :=
  map (fun zv => (Py.KInt (fst zv), snd zv)) zs.

Definition as_str_keys (zs : list (Z * Py.str)) : list (Py.key * Py.str) :=
  map (fun zv => (Py.KStr (Py.str_of_int (fst zv)), snd zv)) zs.


(** ** Calls that compute no embedding and no projection *)

Definition quiet (e : event) : Prop :=
  match e with
  | Encode _ | Project _ => False
  | _ => True
  end.


(** ** Substrings *)

(** [sep in s] *)
Definition occurs (sep s : Py.str) : Prop :=
  exists pre post, s = pre ++ sep ++ post.

(** ** Ties in a vote *)

(** Every label met before the first [label] has fewer votes than
    [label]. *)
Definition first_among_equals (label : Z) (votes : list Z) : Prop :=
  exists earlier later,
    votes = earlier ++ label :: later
    /\ ~ In label earlier
    /\ forall other, In other earlier ->
         (count_occ Z.eq_dec votes other < count_occ Z.eq_dec votes label)%nat.

(** ** Settings and artifacts *)

(** [s'] has the settings of [s]: what [__init__] takes. *)
Definition same_settings {X : Externals} (s s' : ClusterClassifier) : Prop :=
  batch_size s' = batch_size s
  /\ projection_algorithm s' = projection_algorithm s
  /\ projection_args s' = projection_args s
  /\ clustering_algorithm s' = clustering_algorithm s
  /\ clustering_args s' = clustering_args s
  /\ summary_create s' = summary_create s
  /\ topic_mode s' = topic_mode s
  /\ summary_n_examples s' = summary_n_examples s
  /\ summary_chunk_size s' = summary_chunk_size s
  /\ summary_template s' = summary_template s
  /\ summary_instruction s' = summary_instruction s.

(** [s'] has the artifacts of [s]: what [save] writes. *)
Definition same_artifacts {X : Externals} (s s' : ClusterClassifier) : Prop :=
  embeddings s' = embeddings s
  /\ faiss_index s' = faiss_index s
  /\ projections s' = projections s
  /\ cluster_labels s' = cluster_labels s
  /\ texts s' = texts s
  /\ cluster_summaries s' = cluster_summaries s.

(** ** The course of a call of [fit] *)

(** The calls of a run of [fit], in the order of the pipeline: the
    embedding of the texts, the building of the index, a projection, a
    clustering, and the requests for the summaries, each but the last at
    most once. *)
Definition fit_calls (enc idx prj clu : bool)
  (texts_arg : option (list Py.str)) (projection clustering : Py.str)
  (requests : list Py.str) : list event :=
  (if enc then [Encode texts_arg] else [])
  ++ (if idx then [BuildIndex] else [])
  ++ (if prj then [Project projection] else [])
  ++ (if clu then [Cluster clustering] else [])
  ++ map Generate requests.

(** [s'] has the settings of [s] but for those that the arguments of
    [fit] replace, and the texts that [fit] stores. *)
Definition arguments_stored {X : Externals}
  (texts_arg : option (list Py.str)) (batch_size_arg : option Z)
  (projection_algorithm_arg : option Py.str)
  (projection_args_arg : option Args)
  (clustering_algorithm_arg : option Py.str)
  (clustering_args_arg : option Args) (s s' : ClusterClassifier) : Prop :=
  same_settings
    (set_clustering_args (or_args clustering_args_arg (clustering_args s))
       (set_clustering_algorithm
          (or_str clustering_algorithm_arg (clustering_algorithm s))
          (set_projection_args
             (or_args projection_args_arg (projection_args s))
             (set_projection_algorithm
                (or_str projection_algorithm_arg (projection_algorithm s))
                (set_batch_size (or_int batch_size_arg (batch_size s)) s)))))
    s'
  /\ texts s' = or_texts texts_arg (texts s).

(** [labels[doc]] as Python reads it: a negative position counts from
    the end of the list. *)
Definition label_at (labels : list Z) (doc : Z) : Z :=
  nth (Z.to_nat (if doc <? 0 then Z.of_nat (length labels) + doc else doc))
    labels 0.


(** [marker] occurs in [s] first after [pre], and [post] follows that
    occurrence. *)
Definition first_cut (marker s pre post : Py.str) : Prop :=
  s = pre ++ marker ++ post
  /\ forall pre' post',
       s = pre' ++ marker ++ post' -> (length pre <= length pre')%nat.

(** [field] is what follows the first [marker] of [line], up to the next
    [marker] or, without one, to the end of the line. *)
Definition field_after (marker line field : Py.str) : Prop :=
  exists pre post,
    first_cut marker line pre post
    /\ ((~ occurs marker post /\ field = post)
        \/ exists rest, first_cut marker post field rest).



(** * Properties *)

Section Properties.
Context {X : Externals}.

(** ** Strings *)

Lemma str_eqb_eq (a b : Py.str) : Py.str_eqb a b = true <-> a = b.
Proof.
  unfold Py.str_eqb. destruct (list_eq_dec ascii_dec a b); split; congruence.
Qed.

Lemma str_eqb_refl (a : Py.str) : Py.str_eqb a a = true.
Proof. now apply str_eqb_eq. Qed.

Lemma str_eqb_neq (a b : Py.str) : Py.str_eqb a b = false <-> a <> b.
Proof.
  unfold Py.str_eqb. destruct (list_eq_dec ascii_dec a b); split; congruence.
Qed.

Lemma contains_In (l : list Py.str) (x : Py.str) :
  contains l x = true <-> In x l.
Proof.
  unfold contains. rewrite existsb_exists. split.
  - intros [y [Hy E]]. apply str_eqb_eq in E. now subst.
  - intros H. exists x. split; [assumption | apply str_eqb_refl].
Qed.

Lemma contains_not_In (l : list Py.str) (x : Py.str) :
  contains l x = false <-> ~ In x l.
Proof.
  rewrite <- contains_In. destruct (contains l x); split; congruence.
Qed.

(** ** Construction *)

(** C10.  [__init__] raises [ValueError] exactly when the projection
    algorithm is not one of pca, tsvd, umap or the clustering algorithm is
    not one of dbscan, hdbscan, optics, kmeans; with both names among
    those it returns a classifier, and it raises nothing else. *)
Theorem init_validation (a : init_args) :
  (__init__ a = Py.Raise Py.ValueError <->
   ~ In (arg_projection_algorithm a) projection_algorithms \/
   ~ In (arg_clustering_algorithm a) clustering_algorithms)
  /\ ((exists s, __init__ a = Py.Ok s) <->
      In (arg_projection_algorithm a) projection_algorithms /\
      In (arg_clustering_algorithm a) clustering_algorithms)
  /\ (forall e, __init__ a = Py.Raise e -> e = Py.ValueError).
Proof.
  unfold __init__.
  destruct (contains projection_algorithms (arg_projection_algorithm a)) eqn:P;
    destruct (contains clustering_algorithms (arg_clustering_algorithm a))
      eqn:C; cbn [negb].
  - apply contains_In in P. apply contains_In in C.
    split; [| split].
    + split; [discriminate | tauto].
    + split; [tauto | intros _; eexists; reflexivity].
    + discriminate.
  - apply contains_In in P. apply contains_not_In in C.
    split; [| split].
    + split; [tauto | reflexivity].
    + split; [intros [s H]; discriminate | tauto].
    + congruence.
  - apply contains_not_In in P.
    split; [| split].
    + split; [tauto | reflexivity].
    + split; [intros [s H]; discriminate | tauto].
    + congruence.
  - apply contains_not_In in P.
    split; [| split].
    + split; [tauto | reflexivity].
    + split; [intros [s H]; discriminate | tauto].
    + congruence.
Qed.

(** ** Preprocessing in [fit] *)

(** The classifier has no length: bound to [texts], it makes
    [batch_and_join] raise whatever [n] is bound to. *)
Lemma batch_and_join_bound_method (n : value) :
  batch_and_join VClassifier n = Py.Raise Py.TypeError.
Proof. reflexivity. Qed.

(** Called with a list and a positive size, as declared, the function
    returns the batches. *)
Lemma batch_and_join_declared (ts : list Py.str) (n : Z) :
  0 < n ->
  batch_and_join (VList ts) (VInt n)
  = Py.Ok (batches (length ts) (Z.to_nat n) ts).
Proof.
  intros Hn. unfold batch_and_join.
  destruct (n =? 0) eqn:E0; [apply Z.eqb_eq in E0; lia |].
  destruct (n <? 0) eqn:E1; [apply Z.ltb_lt in E1; lia | reflexivity].
Qed.

(** C9.  A call of [fit] that leaves [batch_size] out raises [TypeError]
    at the comparison with 1 and calls no collaborator: nothing is
    embedded. *)
Theorem fit_without_batch_size (m : machine) texts pa pargs ca cargs :
  snd (fit texts None pa pargs ca cargs m) = Py.Raise Py.TypeError
  /\ calls (fst (fit texts None pa pargs ca cargs m)) = calls m.
Proof. split; reflexivity. Qed.

(** C8.  A call of [fit] with a batch size above 1 raises [TypeError] in
    the preprocessing step, before any collaborator is called: the call
    [self.batch_and_join(self.texts)] binds the classifier to [texts] and
    the texts to [n]. *)
Theorem fit_batched_raises (m : machine) texts b pa pargs ca cargs :
  1 < b ->
  snd (fit texts (Some b) pa pargs ca cargs m) = Py.Raise Py.TypeError
  /\ calls (fst (fit texts (Some b) pa pargs ca cargs m)) = calls m
  /\ forall n, batch_and_join VClassifier n = Py.Raise Py.TypeError.
Proof.
  intros Hb. apply Z.ltb_lt in Hb.
  unfold fit, bind, when, read. cbn.
  destruct (negb (b =? batch_size (self m))); cbn; rewrite Hb; cbn;
    repeat split; reflexivity.
Qed.

(** C1, at a changed batch size above 1.  The stored embeddings and
    projections are discarded and [fit] then raises in the preprocessing
    step: neither is computed again, both are left [None]. *)
Theorem refit_changed_batch_size_not_recomputed (m : machine) texts b
  pa pargs ca cargs :
  1 < b ->
  b <> batch_size (self m) ->
  let m' := fst (fit texts (Some b) pa pargs ca cargs m) in
  snd (fit texts (Some b) pa pargs ca cargs m) = Py.Raise Py.TypeError
  /\ embeddings (self m') = None
  /\ projections (self m') = None
  /\ calls m' = calls m.
Proof.
  intros Hb Hne. apply Z.ltb_lt in Hb. apply Z.eqb_neq in Hne.
  unfold fit, bind, when, read. cbn. rewrite Hne. cbn. rewrite Hb. cbn.
  repeat split; reflexivity.
Qed.

(** ** Post-processing of a response *)

Lemma segments_nonempty (c : ascii) (s : Py.str) : Wording.segments c s <> [].
Proof.
  destruct s as [| x r]; cbn; [discriminate |].
  destruct (Ascii.eqb x c); [discriminate |].
  destruct (Wording.segments c r); discriminate.
Qed.

Lemma split_scan_single (c : ascii) (s acc : Py.str) :
  Py.split_scan [c] s O acc
  = match Wording.segments c s with
    | h :: t => (rev acc ++ h) :: t
    | [] => [rev acc]
    end.
Proof.
  revert acc. induction s as [| x r IH]; intros acc; cbn.
  - now rewrite app_nil_r.
  - rewrite andb_true_r. rewrite (Ascii.eqb_sym c x).
    destruct (Ascii.eqb x c) eqn:E.
    + rewrite app_nil_r. f_equal. rewrite IH. cbn.
      destruct (Wording.segments c r) eqn:S; [| reflexivity].
      now apply segments_nonempty in S.
    + rewrite IH. cbn.
      destruct (Wording.segments c r) eqn:S.
      * now apply segments_nonempty in S.
      * now rewrite <- app_assoc.
Qed.

(** Splitting at a character gives the segments it separates. *)
Lemma split_single (c : ascii) (s : Py.str) :
  Py.split [c] s = Wording.segments c s.
Proof.
  unfold Py.split. rewrite split_scan_single. cbn.
  destruct (Wording.segments c s) eqn:S; [| reflexivity].
  now apply segments_nonempty in S.
Qed.

Lemma segments_first (c : ascii) (s : Py.str) :
  Py.item (Wording.segments c s) 0 = Py.Ok (Wording.before c s).
Proof.
  induction s as [| x r IH]; cbn; [reflexivity |].
  destruct (Ascii.eqb x c); [reflexivity |].
  destruct (Wording.segments c r) eqn:S.
  - now apply segments_nonempty in S.
  - cbn in *. unfold Py.item in *. cbn in *. congruence.
Qed.

Lemma nonempty_filter (l : list Py.str) :
  filter (fun txt => (0 <? length txt)%nat) l
  = filter (fun seg => negb (Wording.is_empty seg)) l.
Proof.
  apply filter_ext. intros [| a t]; reflexivity.
Qed.

(** Truncating at the period and at the parenthesis commute. *)
Lemma before_before (c d : ascii) (s : Py.str) :
  Wording.before c (Wording.before d s) = Wording.before d (Wording.before c s).
Proof.
  induction s as [| x r IH]; cbn; [reflexivity |].
  destruct (Ascii.eqb x d) eqn:D; destruct (Ascii.eqb x c) eqn:C; cbn;
    rewrite ?D, ?C; try reflexivity.
  now rewrite IH.
Qed.

(** C7.  In mode "multiple_topics" the result is the topic of the response
    as the specification words it, a function of the response alone; in a
    mode that is neither "multiple_topics" nor "single_topic" the method
    raises [ValueError]. *)
Theorem postprocess_response_spec (s : ClusterClassifier)
  (response : Py.str) :
  (topic_mode s = Py.lit "multiple_topics" ->
   _postprocess_response s response
   = Py.Ok (Wording.topic_of_response response))
  /\ (topic_mode s <> Py.lit "multiple_topics" ->
      topic_mode s <> Py.lit "single_topic" ->
      _postprocess_response s response = Py.Raise Py.ValueError).
Proof.
  unfold _postprocess_response. split.
  - intros E. rewrite E, str_eqb_refl.
    change (Py.lit ".") with ["."%char].
    change (Py.lit "(") with ["("%char].
    change (Py.lit ",") with [","%char].
    rewrite !split_single, !segments_first. cbn [Py.rbind].
    rewrite !split_single, !segments_first. cbn [Py.rbind].
    rewrite !split_single, !segments_first. cbn [Py.rbind].
    unfold Wording.topic_of_response, Wording.first_line.
    now rewrite split_single, nonempty_filter.
  - intros H1 H2. apply str_eqb_neq in H1, H2. now rewrite H1, H2.
Qed.

(** ** Dictionaries *)

Section DictFacts.
Variables (K V : Type) (eqb : K -> K -> bool).
Hypothesis eqb_spec : forall a b, eqb a b = true <-> a = b.

Lemma eqb_same (a : K) : eqb a a = true.
Proof. now apply eqb_spec. Qed.

Lemma eqb_diff (a b : K) : a <> b -> eqb a b = false.
Proof.
  intros H. destruct (eqb a b) eqn:E; [| reflexivity].
  apply eqb_spec in E. contradiction.
Qed.

Lemma dict_get_set_eq (d : list (K * V)) (k : K) (v : V) :
  Py.dict_get eqb (Py.dict_set eqb d k v) k = Some v.
Proof.
  induction d as [| [k' v'] r IH]; cbn.
  - now rewrite eqb_same.
  - destruct (eqb k' k) eqn:E; cbn; rewrite E; [reflexivity | exact IH].
Qed.

Lemma dict_get_set_neq (d : list (K * V)) (k k' : K) (v : V) :
  k' <> k ->
  Py.dict_get eqb (Py.dict_set eqb d k v) k' = Py.dict_get eqb d k'.
Proof.
  intros N. induction d as [| [k0 v0] r IH]; cbn.
  - rewrite eqb_diff; [reflexivity | congruence].
  - destruct (eqb k0 k) eqn:E; cbn.
    + apply eqb_spec in E. subst k0.
      rewrite eqb_diff; [reflexivity | congruence].
    + destruct (eqb k0 k'); [reflexivity | exact IH].
Qed.

Lemma dict_get_keys (d : list (K * V)) (k : K) :
  Py.dict_get eqb d k <> None <-> In k (Py.dict_keys d).
Proof.
  induction d as [| [k0 v0] r IH]; cbn.
  - split; [congruence | tauto].
  - destruct (eqb k0 k) eqn:E.
    + apply eqb_spec in E. split; [now left | discriminate].
    + rewrite IH. split; [now right |].
      intros [H | H]; [| assumption].
      apply eqb_spec in H. congruence.
Qed.

Lemma dict_get_not_keys (d : list (K * V)) (k : K) :
  Py.dict_get eqb d k = None <-> ~ In k (Py.dict_keys d).
Proof.
  rewrite <- dict_get_keys. destruct (Py.dict_get eqb d k).
  - split; [discriminate |]. intros H. exfalso. apply H. discriminate.
  - split; [| reflexivity]. intros _ H. now apply H.
Qed.

Lemma dict_keys_set (d : list (K * V)) (k : K) (v : V) :
  Py.dict_keys (Py.dict_set eqb d k v)
  = match Py.dict_get eqb d k with
    | Some _ => Py.dict_keys d
    | None => Py.dict_keys d ++ [k]
    end.
Proof.
  induction d as [| [k0 v0] r IH]; cbn; [reflexivity |].
  destruct (eqb k0 k) eqn:E; cbn; [reflexivity |].
  unfold Py.dict_keys in IH. rewrite IH.
  destruct (Py.dict_get eqb r k); reflexivity.
Qed.

Lemma dict_keys_set_NoDup (d : list (K * V)) (k : K) (v : V) :
  NoDup (Py.dict_keys d) -> NoDup (Py.dict_keys (Py.dict_set eqb d k v)).
Proof.
  intros H. rewrite dict_keys_set.
  destruct (Py.dict_get eqb d k) eqn:G; [assumption |].
  apply dict_get_not_keys in G.
  apply NoDup_app; [assumption | repeat constructor; intros [] |].
  intros x Hx [Hk | []]. subst. contradiction.
Qed.

Lemma dict_get_In (d : list (K * V)) (k : K) (v : V) :
  Py.dict_get eqb d k = Some v -> In (k, v) d.
Proof.
  induction d as [| [k0 v0] r IH]; cbn; [discriminate |].
  destruct (eqb k0 k) eqn:E.
  - apply eqb_spec in E. intros H. left. congruence.
  - intros H. right. now apply IH.
Qed.

Lemma In_dict_get (d : list (K * V)) (k : K) (v : V) :
  NoDup (Py.dict_keys d) -> In (k, v) d -> Py.dict_get eqb d k = Some v.
Proof.
  induction d as [| [k0 v0] r IH]; cbn; [tauto |].
  intros N [H | H].
  - injection H as -> ->. now rewrite eqb_same.
  - inversion N as [| ? ? Hn N']; subst.
    destruct (eqb k0 k) eqn:E.
    + apply eqb_spec in E. subst k0. exfalso. apply Hn.
      change k with (fst (k, v)). now apply in_map.
    + now apply IH.
Qed.
End DictFacts.


(** ** Cluster bookkeeping *)

Lemma docs_of_set (d : list (Z * list nat)) (k k' : Z) (v : list nat) :
  docs_of (Py.dict_set Z.eqb d k v) k' = if k' =? k then v else docs_of d k'.
Proof.
  unfold docs_of. destruct (k' =? k) eqn:E.
  - apply Z.eqb_eq in E. subst.
    now rewrite (dict_get_set_eq Z.eqb Z.eqb_eq).
  - apply Z.eqb_neq in E.
    now rewrite (dict_get_set_neq Z.eqb Z.eqb_eq).
Qed.

Lemma group_from_In (l : list Z) : forall k d i label,
  In i (docs_of (fold_left file_doc (Py.enumerate_from k l) d) label)
  <-> In i (docs_of d label)
      \/ exists j, i = (k + j)%nat /\ nth_error l j = Some label.
Proof.
  induction l as [| a l IH]; intros k d i label; cbn.
  - split; [now left |].
    intros [H | [j [_ H]]]; [assumption | destruct j; discriminate].
  - rewrite IH. unfold file_doc. rewrite docs_of_set. cbn [fst snd].
    destruct (label =? a) eqn:E.
    + apply Z.eqb_eq in E. subst a. rewrite in_app_iff. cbn. split.
      * intros [[H | [H | []]] | [j [Hi Hj]]].
        -- now left.
        -- right. exists O. split; [lia | reflexivity].
        -- right. exists (S j). split; [lia | exact Hj].
      * intros [H | [j [Hi Hj]]]; [now left; left |].
        destruct j as [| j].
        -- left. right. left. lia.
        -- right. exists j. split; [lia | exact Hj].
    + apply Z.eqb_neq in E. split.
      * intros [H | [j [Hi Hj]]]; [now left |].
        right. exists (S j). split; [lia | exact Hj].
      * intros [H | [j [Hi Hj]]]; [now left |].
        destruct j as [| j]; cbn in Hj; [congruence |].
        right. exists j. split; [lia | exact Hj].
Qed.

Lemma group_from_NoDup (l : list Z) : forall k d,
  (forall label, NoDup (docs_of d label)) ->
  (forall label i, In i (docs_of d label) -> (i < k)%nat) ->
  forall label,
    NoDup (docs_of (fold_left file_doc (Py.enumerate_from k l) d) label).
Proof.
  induction l as [| a l IH]; intros k d Hd Hk label; cbn; [apply Hd |].
  apply IH with (k := S k); unfold file_doc; cbn [fst snd].
  - intros label0. rewrite docs_of_set.
    destruct (label0 =? a); [| apply Hd].
    apply NoDup_app; [apply Hd | repeat constructor; intros [] |].
    intros x Hx [Hx' | []]. subst x. apply Hk in Hx. lia.
  - intros label0 i. rewrite docs_of_set.
    destruct (label0 =? a).
    + rewrite in_app_iff. intros [H | [H | []]]; [apply Hk in H |]; lia.
    + intros H. apply Hk in H. lia.
Qed.

Lemma group_from_keys_NoDup (l : list Z) : forall k d,
  NoDup (Py.dict_keys d) ->
  NoDup (Py.dict_keys (fold_left file_doc (Py.enumerate_from k l) d)).
Proof.
  induction l as [| a l IH]; intros k d Hd; cbn; [assumption |].
  apply IH. unfold file_doc. now apply (dict_keys_set_NoDup Z.eqb Z.eqb_eq).
Qed.

Lemma group_from_nonempty (l : list Z) : forall k d,
  (forall label, In label (Py.dict_keys d) -> docs_of d label <> []) ->
  forall label,
    In label (Py.dict_keys (fold_left file_doc (Py.enumerate_from k l) d)) ->
    docs_of (fold_left file_doc (Py.enumerate_from k l) d) label <> [].
Proof.
  induction l as [| a l IH]; intros k d Hd; cbn; [assumption |].
  apply IH. intros label. unfold file_doc. cbn [fst snd].
  rewrite docs_of_set. destruct (label =? a) eqn:E.
  - intros _ H. apply app_eq_nil in H. destruct H. discriminate.
  - apply Z.eqb_neq in E. rewrite (dict_keys_set Z.eqb).
    destruct (Py.dict_get Z.eqb d a); [apply Hd |].
    rewrite in_app_iff. intros [H | [H | []]]; [now apply Hd | congruence].
Qed.

Lemma id_from_get (l : list Z) : forall k d i,
  Py.dict_get Nat.eqb
    (fold_left (fun d kv => Py.dict_set Nat.eqb d (fst kv) (snd kv))
       (Py.enumerate_from k l) d) i
  = if ((k <=? i) && (i <? k + length l))%nat then nth_error l (i - k)
    else Py.dict_get Nat.eqb d i.
Proof.
  induction l as [| a l IH]; intros k d i; cbn [Py.enumerate_from fold_left].
  - cbn [length]. rewrite Nat.add_0_r.
    destruct (Nat.leb_spec k i); destruct (Nat.ltb_spec i k); cbn [andb];
      try reflexivity; lia.
  - rewrite IH. cbn [fst snd length].
    destruct (Nat.leb_spec (S k) i); destruct (Nat.ltb_spec i (S k + length l));
      destruct (Nat.leb_spec k i);
      destruct (Nat.ltb_spec i (k + S (length l))); cbn [andb]; try lia.
    + replace (i - k)%nat with (S (i - S k)) by lia. reflexivity.
    + now rewrite (dict_get_set_neq Nat.eqb Nat.eqb_eq) by lia.
    + assert (i = k) by lia. subst i.
      rewrite (dict_get_set_eq Nat.eqb Nat.eqb_eq).
      now rewrite Nat.sub_diag.
    + now rewrite (dict_get_set_neq Nat.eqb Nat.eqb_eq) by lia.
Qed.

(** [id2cluster] maps the position of a label to the label. *)
Lemma id2cluster_get (labels : list Z) (i : nat) :
  Py.dict_get Nat.eqb (Py.dict_of_pairs Nat.eqb (Py.enumerate labels)) i
  = nth_error labels i.
Proof.
  unfold Py.dict_of_pairs, Py.enumerate. rewrite id_from_get.
  cbn [Nat.leb andb Py.dict_get Nat.add]. rewrite Nat.sub_0_r.
  destruct (Nat.ltb_spec i (length labels)); [reflexivity |].
  symmetry. now apply nth_error_None.
Qed.

(** [label2docs] files each position under its label, and under no
    other. *)
Lemma group_docs_In (labels : list Z) (i : nat) (label : Z) :
  In i (docs_of (group_docs labels) label)
  <-> nth_error labels i = Some label.
Proof.
  unfold group_docs, Py.enumerate. rewrite group_from_In. cbn. split.
  - intros [[] | [j [-> H]]]. exact H.
  - intros H. right. exists i. now split.
Qed.

Lemma group_docs_NoDup (labels : list Z) (label : Z) :
  NoDup (docs_of (group_docs labels) label).
Proof.
  unfold group_docs, Py.enumerate. apply group_from_NoDup.
  - intros l. constructor.
  - intros l i [].
Qed.

Lemma group_docs_keys_NoDup (labels : list Z) :
  NoDup (Py.dict_keys (group_docs labels)).
Proof.
  unfold group_docs, Py.enumerate. apply group_from_keys_NoDup. constructor.
Qed.

Lemma group_docs_nonempty (labels : list Z) (label : Z) :
  In label (Py.dict_keys (group_docs labels)) ->
  docs_of (group_docs labels) label <> [].
Proof.
  unfold group_docs, Py.enumerate. apply group_from_nonempty. intros l [].
Qed.

(** What [index_clusters] leaves in the classifier. *)
Lemma index_clusters_state (m : machine) (labels : list Z) :
  cluster_labels (self m) = Some labels ->
  let m' := fst (index_clusters m) in
  let looped :=
    centers_loop (projections (self m)) (group_docs labels)
      (Py.dict_keys (group_docs labels)) [] in
  self m'
  = set_cluster_centers (Some (fst looped))
      (set_label2docs (Some (group_docs labels))
         (set_id2cluster
            (Some (Py.dict_of_pairs Nat.eqb (Py.enumerate labels)))
            (self m)))
  /\ calls m' = calls m
  /\ drawn m' = drawn m
  /\ snd (index_clusters m) = snd looped.
Proof.
  intros H. unfold index_clusters, bind, read. cbn. rewrite H. cbn.
  repeat split; reflexivity.
Qed.

(** C3.  [store_cluster_info] gives every document position one integer
    label: [id2cluster] is defined exactly on the positions of the
    labeling and maps each to its label; the lists of [label2docs] have no
    repetition and a position is in the list of a label exactly when that
    is its label, so each position is in exactly one list; the list under
    the label -1 holds the noise points, and no other. *)
Theorem store_cluster_info_partition (labels : list Z) (m : machine) :
  let s' := self (fst (store_cluster_info labels m)) in
  exists ids docs,
    cluster_labels s' = Some labels
    /\ id2cluster s' = Some ids
    /\ label2docs s' = Some docs
    /\ (forall i, Py.dict_get Nat.eqb ids i = nth_error labels i)
    /\ NoDup (Py.dict_keys docs)
    /\ (forall label, NoDup (docs_of docs label))
    /\ (forall i label,
          In i (docs_of docs label) <-> nth_error labels i = Some label)
    /\ (forall i, (i < length labels)%nat ->
          exists! label, In i (docs_of docs label))
    /\ (forall i,
          In i (docs_of docs noise_label)
          <-> nth_error labels i = Some (-1)).
Proof.
  cbn zeta.
  exists (Py.dict_of_pairs Nat.eqb (Py.enumerate labels)), (group_docs labels).
  unfold store_cluster_info, bind, assign.
  set (m1 := {| self := set_cluster_labels (Some labels) (self m);
                calls := calls m; drawn := drawn m |}).
  destruct (index_clusters_state m1 (labels := labels) eq_refl)
    as [Hs _].
  cbn zeta in Hs. rewrite Hs. cbn.
  split; [reflexivity |]. split; [reflexivity |]. split; [reflexivity |].
  split; [apply id2cluster_get |].
  split; [apply group_docs_keys_NoDup |].
  split; [apply group_docs_NoDup |].
  split; [apply group_docs_In |].
  split; [| intros i; apply group_docs_In].
  intros i Hi.
  destruct (nth_error labels i) as [label |] eqn:E.
  - exists label. split; [now apply group_docs_In |].
    intros l' Hl'. apply group_docs_In in Hl'. congruence.
  - apply nth_error_None in E. lia.
Qed.


(** ** Inference *)

Lemma map_r_Forall2 {A B} (f : A -> Py.result B) (P : A -> B -> Prop)
  (l : list A) :
  (forall a, In a l -> exists b, f a = Py.Ok b /\ P a b) ->
  exists bs, Py.map_r f l = Py.Ok bs /\ Forall2 P l bs.
Proof.
  induction l as [| a l IH]; intros H; cbn.
  - exists []. split; [reflexivity | constructor].
  - destruct (H a (or_introl eq_refl)) as [b [Hb Pb]].
    destruct IH as [bs [Hbs Pbs]]; [intros x Hx; apply H; now right |].
    exists (b :: bs). rewrite Hb. cbn. rewrite Hbs. cbn.
    split; [reflexivity | now constructor].
Qed.

Lemma index_in_range {A} (l : list A) (i : Z) (dflt : A) :
  0 <= i < Z.of_nat (length l) ->
  Py.index l i = Py.Ok (nth (Z.to_nat i) l dflt).
Proof.
  intros H. unfold Py.index, Py.item.
  destruct (0 <=? i) eqn:E1; [| apply Z.leb_gt in E1; lia].
  destruct (i <? Z.of_nat (length l)) eqn:E2; [| apply Z.ltb_ge in E2; lia].
  cbn. destruct (nth_error l (Z.to_nat i)) as [a |] eqn:E.
  - f_equal. symmetry. now apply nth_error_nth.
  - apply nth_error_None in E. lia.
Qed.

Lemma Counter_from_get (l : list Z) : forall d x,
  Py.dict_get Z.eqb
    (fold_left
       (fun d x =>
          Py.dict_set Z.eqb d x
            (match Py.dict_get Z.eqb d x with
             | Some n => S n
             | None => 1%nat
             end)) l d) x
  = match Py.dict_get Z.eqb d x, count_occ Z.eq_dec l x with
    | Some n, c => Some (n + c)%nat
    | None, O => None
    | None, c => Some c
    end.
Proof.
  induction l as [| a l IH]; intros d x; cbn [fold_left count_occ].
  - destruct (Py.dict_get Z.eqb d x); [f_equal; lia | reflexivity].
  - rewrite IH. destruct (Z.eq_dec a x) as [-> | N].
    + rewrite (dict_get_set_eq Z.eqb Z.eqb_eq).
      destruct (Py.dict_get Z.eqb d x); f_equal; lia.
    + rewrite (dict_get_set_neq Z.eqb Z.eqb_eq) by congruence.
      reflexivity.
Qed.

(** A counter holds, for each element, the number of its occurrences. *)
Lemma Counter_get (l : list Z) (x : Z) :
  Py.dict_get Z.eqb (Py.Counter l) x
  = match count_occ Z.eq_dec l x with
    | O => None
    | c => Some c
    end.
Proof. unfold Py.Counter. now rewrite Counter_from_get. Qed.

Lemma Counter_from_keys_NoDup (l : list Z) : forall d,
  NoDup (Py.dict_keys d) ->
  NoDup
    (Py.dict_keys
       (fold_left
          (fun d x =>
             Py.dict_set Z.eqb d x
               (match Py.dict_get Z.eqb d x with
                | Some n => S n
                | None => 1%nat
                end)) l d)).
Proof.
  induction l as [| a l IH]; intros d Hd; cbn; [assumption |].
  apply IH. now apply (dict_keys_set_NoDup Z.eqb Z.eqb_eq).
Qed.

Lemma Counter_entry (l : list Z) (e : Z * nat) :
  In e (Py.Counter l) ->
  count_occ Z.eq_dec l (fst e) = snd e /\ In (fst e) l.
Proof.
  intros H. destruct e as [x c]. cbn.
  apply (In_dict_get Z.eqb Z.eqb_eq) in H.
  - rewrite Counter_get in H.
    destruct (count_occ Z.eq_dec l x) as [| n] eqn:E; [discriminate |].
    split; [congruence |].
    apply (count_occ_In Z.eq_dec). lia.
  - apply Counter_from_keys_NoDup. constructor.
Qed.

Lemma max_by_count_In (d : list (Z * nat)) : forall best,
  In (Py.max_by_count best d) (best :: d).
Proof.
  induction d as [| e r IH]; intros best; cbn [Py.max_by_count].
  - now left.
  - destruct (snd best <? snd e)%nat.
    + right. apply IH.
    + destruct (IH best) as [H | H]; [now left | now right; right].
Qed.

Lemma max_by_count_ge (d : list (Z * nat)) : forall best e,
  In e (best :: d) -> (snd e <= snd (Py.max_by_count best d))%nat.
Proof.
  induction d as [| e0 r IH]; intros best e; cbn [Py.max_by_count].
  - intros [-> | []]. lia.
  - destruct (Nat.ltb_spec (snd best) (snd e0)).
    + intros [-> | H0].
      * specialize (IH e0 e0 (or_introl eq_refl)). lia.
      * now apply IH.
    + intros [-> | [-> | H0]].
      * apply IH. now left.
      * specialize (IH best best (or_introl eq_refl)). lia.
      * apply IH. now right.
Qed.

(** The most common of a non-empty list of votes is a majority label. *)
Lemma most_common_majority (votes : list Z) :
  votes <> [] ->
  exists top,
    Py.item (Py.most_common_1 (Py.Counter votes)) 0 = Py.Ok top
    /\ majority (fst top) votes.
Proof.
  intros Hne.
  destruct (Py.Counter votes) as [| e r] eqn:C.
  - exfalso. destruct votes as [| v votes]; [congruence |].
    pose proof (Counter_get (v :: votes) v) as G. rewrite C in G.
    cbn in G. destruct (Z.eq_dec v v); [discriminate | congruence].
  - exists (Py.max_by_count e r). split; [reflexivity |].
    assert (Hin : In (Py.max_by_count e r) (Py.Counter votes))
      by (rewrite C; apply max_by_count_In).
    destruct (Counter_entry _ _ Hin) as [Hc Hv].
    split; [assumption |].
    intros other. rewrite Hc.
    destruct (count_occ Z.eq_dec votes other) as [| n] eqn:E; [lia |].
    assert (G : Py.dict_get Z.eqb (Py.Counter votes) other = Some (S n))
      by (rewrite Counter_get, E; reflexivity).
    apply (dict_get_In Z.eqb Z.eqb_eq) in G. rewrite C in G.
    apply max_by_count_ge in G. exact G.
Qed.

Lemma labels_of_row (labels row : list Z) :
  Forall (fun doc => 0 <= doc < Z.of_nat (length labels)) row ->
  Py.map_r (fun doc => Py.index labels doc) row
  = Py.Ok (labels_of labels row).
Proof.
  induction 1 as [| doc row Hd _ IH]; cbn; [reflexivity |].
  rewrite (index_in_range labels 0 Hd). cbn. rewrite IH. reflexivity.
Qed.

Lemma Forall2_seq_nth {B} (P : nat -> B -> Prop) (n : nat) : forall k bs,
  Forall2 P (seq k n) bs ->
  length bs = n
  /\ forall i, (i < n)%nat -> exists b, nth_error bs i = Some b /\ P (k + i)%nat b.
Proof.
  induction n as [| n IH]; intros k bs H; cbn in H.
  - inversion H. split; [reflexivity | intros i Hi; lia].
  - inversion H as [| x b l bs' Hb Hrest]; subst.
    destruct (IH _ _ Hrest) as [Hl Hn]. split; [cbn; lia |].
    intros [| i] Hi.
    + exists b. split; [reflexivity |]. now rewrite Nat.add_0_r.
    + destruct (Hn i) as [b' [E Pb]]; [lia |].
      exists b'. split; [exact E |].
      now replace (k + S i)%nat with (S k + i)%nat by lia.
Qed.

(** C2.  With an index and stored labels, and the embedding model and the
    index returning what they are to return (a vector for each text, a row
    of [top_k] documents for each vector), [infer] returns one label for
    each text: a label of greatest frequency among the labels of the
    documents the index returned for that text. *)
Theorem infer_majority_vote (m : machine) (texts_arg : list Py.str)
  (top_k : Z) (index : Index) (labels : list Z) :
  1 <= top_k ->
  faiss_index (self m) = Some index ->
  cluster_labels (self m) = Some labels ->
  length (encode (Some texts_arg)) = length texts_arg ->
  returns_documents (index_search index (encode (Some texts_arg)) top_k)
    (length texts_arg) top_k (length labels) ->
  exists inferred,
    snd (infer texts_arg top_k m)
    = Py.Ok (inferred, encode (Some texts_arg))
    /\ length inferred = length texts_arg
    /\ forall i, (i < length texts_arg)%nat ->
         exists row label,
           nth_error (index_search index (encode (Some texts_arg)) top_k) i
           = Some row
           /\ nth_error inferred i = Some label
           /\ majority label (labels_of labels row).
Proof.
  intros Hk Hindex Hlabels Henc [Hrows Hdocs].
  set (neighbours := index_search index (encode (Some texts_arg)) top_k) in *.
  destruct (map_r_Forall2
              (fun i =>
                 let? row := Py.item neighbours i in
                 let? ls :=
                   Py.map_r
                     (fun doc =>
                        match cluster_labels (self m) with
                        | None => Py.Raise Py.TypeError
                        | Some cl => Py.index cl doc
                        end) row in
                 let? top := Py.item (Py.most_common_1 (Py.Counter ls)) 0 in
                 Py.Ok (fst top))
              (fun i label =>
                 exists row,
                   nth_error neighbours i = Some row
                   /\ majority label (labels_of labels row))
              (seq 0 (length (encode (Some texts_arg)))))
    as [inferred [Hmap Hall]].
  { intros i Hi. apply in_seq in Hi. rewrite Henc, <- Hrows in Hi.
    destruct (nth_error neighbours i) as [row |] eqn:Hrow;
      [| apply nth_error_None in Hrow; lia].
    rewrite Forall_forall in Hdocs.
    destruct (Hdocs row (nth_error_In _ _ Hrow)) as [Hlen Hrange].
    unfold Py.item at 1. rewrite Hrow. cbn [Py.rbind]. rewrite Hlabels.
    rewrite (labels_of_row labels Hrange). cbn [Py.rbind].
    destruct (most_common_majority (votes := labels_of labels row))
      as [top [Htop Hmaj]].
    { unfold labels_of. destruct row; [cbn in Hlen; lia | discriminate]. }
    rewrite Htop. cbn [Py.rbind]. exists (fst top). split; [reflexivity |].
    exists row. now split. }
  exists inferred.
  apply Forall2_seq_nth in Hall. destruct Hall as [Hlen Hnth].
  split; [| split].
  - unfold infer, embed, bind, call, ret, read, lift. cbn. rewrite Hindex.
    cbn. fold neighbours. rewrite Hmap. reflexivity.
  - now rewrite Hlen.
  - intros i Hi. destruct (Hnth i) as [label [Hl [row [Hr Hm]]]]; [lia |].
    exists row, label. split; [exact Hr | split; assumption].
Qed.


(** ** Summaries *)

Lemma key_eqb_eq (a b : Py.key) : Py.key_eqb a b = true <-> a = b.
Proof.
  destruct a as [x | x], b as [y | y]; cbn.
  - rewrite Z.eqb_eq. split; congruence.
  - split; discriminate.
  - split; discriminate.
  - rewrite str_eqb_eq. split; congruence.
Qed.

Lemma framed_refl (s : ClusterClassifier) : framed s s.
Proof.
  split; [| reflexivity]. exists (label2docs s). now destruct s.
Qed.

Lemma framed_trans (s1 s2 s3 : ClusterClassifier) :
  framed s1 s2 -> framed s2 s3 -> framed s1 s3.
Proof.
  intros [[d1 E1] H1] [[d2 E2] H2]. split.
  - exists d2. subst. now destruct s1.
  - intros label. now rewrite H2, H1.
Qed.

Lemma docs_of_set_empty (d : list (Z * list nat)) (label l : Z) :
  Py.dict_get Z.eqb d label = None ->
  docs_of (Py.dict_set Z.eqb d label []) l = docs_of d l.
Proof.
  intros G. rewrite docs_of_set. destruct (l =? label) eqn:E; [| reflexivity].
  apply Z.eqb_eq in E. subst. unfold docs_of. now rewrite G.
Qed.

Lemma bind_run {A B} (c : M A) (k : A -> M B) (m : machine) :
  bind c k m
  = match c m with
    | (m', Py.Ok a) => k a m'
    | (m', Py.Raise e) => (m', Py.Raise e)
    end.
Proof. reflexivity. Qed.

Lemma label2docs_getitem_spec (label : Z) (m m' : machine)
  (r : Py.result (list nat)) :
  label2docs_getitem label m = (m', r) ->
  framed (self m) (self m')
  /\ calls m' = calls m
  /\ drawn m' = drawn m
  /\ ((exists e, r = Py.Raise e) \/ r = Py.Ok (docs_at (self m) label)).
Proof.
  unfold label2docs_getitem, bind, read, docs_at, docs_of. cbn.
  destruct (label2docs (self m)) as [d |] eqn:L; cbn.
  - destruct (Py.dict_get Z.eqb d label) as [docs |] eqn:G; cbn;
      intros [= <- <-]; cbn.
    + repeat split; try apply framed_refl; auto.
    + repeat split; auto.
      * eexists. reflexivity.
      * intros l. unfold docs_at. cbn. rewrite L. now apply docs_of_set_empty.
  - intros [= <- <-].
    repeat split; try apply framed_refl; auto. left. now eexists.
Qed.

Lemma random_choice_spec (a : list nat) (size : Z) (m m' : machine)
  (r : Py.result (list nat)) :
  random_choice a size m = (m', r) ->
  self m' = self m
  /\ calls m' = calls m
  /\ ((exists e, r = Py.Raise e)
      \/ exists ids,
           r = Py.Ok ids
           /\ length ids = Z.to_nat size
           /\ Forall (fun id => In id a) ids).
Proof.
  unfold random_choice.
  destruct (size <? 0) eqn:S0; cbn.
  { intros [= <- <-]. repeat split; auto. left. now eexists. }
  destruct ((length a =? 0)%nat && (0 <? size)) eqn:E; cbn.
  { intros [= <- <-]. repeat split; auto. left. now eexists. }
  intros [= <- <-].
  repeat split; auto. right. eexists. split; [reflexivity |].
  split; [now rewrite length_map, length_seq |].
  apply Forall_forall. intros id Hid. apply in_map_iff in Hid.
  destruct Hid as [j [<- Hj]]. apply in_seq in Hj.
  apply andb_false_iff in E. destruct E as [E | E].
  - apply Nat.eqb_neq in E. apply nth_In. apply Nat.mod_upper_bound. exact E.
  - apply Z.ltb_ge in E. apply Z.ltb_ge in S0. lia.
Qed.


Lemma example_texts_from (texts : option (list Py.str)) (chunk_size : Z)
  (ids : list nat) : forall k examples,
  Py.map_r
    (fun i_id =>
       let? text := texts_item texts (snd i_id) in
       Py.Ok (example (fst i_id) (Py.slice_to text chunk_size)))
    (Py.enumerate_from k ids) = Py.Ok examples ->
  exists chunks,
    Forall2
      (fun id chunk =>
         exists text,
           texts_item texts id = Py.Ok text
           /\ chunk = Py.slice_to text chunk_size)
      ids chunks
    /\ examples
       = map (fun ic => example (fst ic) (snd ic))
           (Py.enumerate_from k chunks).
Proof.
  induction ids as [| id ids IH]; intros k examples;
    cbn [Py.map_r Py.enumerate_from Py.rbind fst snd].
  - intros [= <-]. exists []. split; [constructor | reflexivity].
  - destruct (texts_item texts id) as [text | e] eqn:T; cbn [Py.rbind];
      [| discriminate].
    destruct (Py.map_r _ (Py.enumerate_from (S k) ids)) as [rest | e] eqn:R;
      cbn [Py.rbind]; [| discriminate].
    intros [= <-]. destruct (IH _ _ R) as [chunks [F ->]].
    exists (Py.slice_to text chunk_size :: chunks). split; [| reflexivity].
    constructor; [| exact F].
    exists text. split; [exact T | reflexivity].
Qed.

Lemma summarize_label_spec (texts : option (list Py.str))
  (cs : list (Py.key * Py.str)) (label : Z) (m m' : machine)
  (r : Py.result (list (Py.key * Py.str))) :
  summarize_label texts cs label m = (m', r) ->
  framed (self m) (self m')
  /\ ((calls m' = calls m /\ exists e, r = Py.Raise e)
      \/ exists request,
           calls m' = calls m ++ [Generate request]
           /\ (exists ids chunks,
                 filled (self m) texts (docs_at (self m) label) ids chunks
                   request)
           /\ ((exists e, r = Py.Raise e)
               \/ exists summary,
                    r = Py.Ok (Py.dict_set Py.key_eqb cs (Py.KInt label)
                                 summary))).
Proof.
  intros H. unfold summarize_label in H.
  rewrite bind_run in H. change (read m) with (m, Py.Ok (self m)) in H.
  cbv iota beta in H. rewrite bind_run in H.
  destruct (label2docs_getitem label m) as [m1 r1] eqn:E1.
  apply label2docs_getitem_spec in E1. destruct E1 as [F1 [C1 [_ R1]]].
  destruct R1 as [[e ->] | ->].
  { injection H as <- <-. split; [exact F1 |]. left.
    split; [exact C1 | now eexists]. }
  rewrite bind_run in H.
  destruct (random_choice (docs_at (self m) label)
              (summary_n_examples (self m)) m1) as [m2 r2] eqn:E2.
  apply random_choice_spec in E2. destruct E2 as [S2 [C2 R2]].
  destruct R2 as [[e ->] | [ids [-> [Hlen Hin]]]].
  { injection H as <- <-. rewrite S2. split; [exact F1 |]. left.
    split; [congruence | now eexists]. }
  rewrite bind_run in H. unfold lift at 1 in H.
  destruct (example_texts texts (summary_chunk_size (self m)) ids)
    as [examples | e] eqn:Ex.
  2:{ injection H as <- <-. rewrite S2. split; [exact F1 |]. left.
      split; [congruence | now eexists]. }
  rewrite bind_run in H. unfold lift at 1 in H.
  destruct (Py.format _ _) as [request | e] eqn:Fm.
  2:{ injection H as <- <-. rewrite S2. split; [exact F1 |]. left.
      split; [congruence | now eexists]. }
  apply example_texts_from in Ex.
  destruct Ex as [chunks [Hchunks ->]].
  unfold bind, count_calls, call, lift, ret in H. cbn [calls self drawn] in H.
  destruct (_postprocess_response _ _) as [summary | e];
    injection H as <- <-; cbn [self calls]; rewrite S2;
    (split; [exact F1 |]); right; exists request;
    (split; [congruence |]);
    (split; [exists ids, chunks; repeat split; assumption |]).
  - right. now eexists.
  - left. now eexists.
Qed.


Lemma filled_framed (s s' : ClusterClassifier)
  (texts : option (list Py.str)) (docs ids : list nat)
  (chunks : list Py.str) (request : Py.str) :
  framed s s' -> filled s' texts docs ids chunks request ->
  filled s texts docs ids chunks request.
Proof. intros [[d ->] _] H. exact H. Qed.

(** The loop of [summarize]: a request for each label it gets through,
    and on success a summary under each of them, the other keys as they
    were. *)
Lemma summarize_loop_spec (texts : option (list Py.str)) (l : list Z) :
  forall cs m m' r,
  fold_m l (summarize_label texts) cs m = (m', r) ->
  framed (self m) (self m')
  /\ exists requests,
       calls m' = calls m ++ map Generate requests
       /\ Forall
            (fun request =>
               exists label,
                 In label l
                 /\ exists ids chunks,
                      filled (self m) texts (docs_at (self m) label) ids
                        chunks request)
            requests
       /\ ((exists e, r = Py.Raise e)
           \/ exists d,
                r = Py.Ok d
                /\ length requests = length l
                /\ (forall k, (forall label, In label l -> k <> Py.KInt label) ->
                      Py.dict_get Py.key_eqb d k = Py.dict_get Py.key_eqb cs k)
                /\ (forall label, In label l ->
                      Py.dict_get Py.key_eqb d (Py.KInt label) <> None)).
Proof.
  induction l as [| a l IH]; intros cs m m' r H; cbn [fold_m] in H.
  - injection H as <- <-. split; [apply framed_refl |].
    exists []. split; [cbn; now rewrite app_nil_r |].
    split; [constructor |]. right. exists cs.
    repeat split; auto.
  - rewrite bind_run in H.
    destruct (summarize_label texts cs a m) as [m1 r1] eqn:E1.
    apply summarize_label_spec in E1.
    destruct E1 as [F1 [[C1 [e ->]] | [request [C1 [P1 R1]]]]].
    { injection H as <- <-. split; [exact F1 |].
      exists []. split; [cbn; now rewrite app_nil_r |].
      split; [constructor |]. left. now eexists. }
    destruct R1 as [[e ->] | [summary ->]].
    { injection H as <- <-. split; [exact F1 |].
      exists [request]. split; [exact C1 |].
      split; [| left; now eexists].
      constructor; [| constructor]. exists a. split; [now left | exact P1]. }
    apply IH in H.
    destruct H as [F2 [requests [C2 [P2 R2]]]].
    split; [exact (framed_trans F1 F2) |].
    exists (request :: requests).
    split; [rewrite C2, C1, <- app_assoc; reflexivity |].
    split.
    { constructor; [exists a; split; [now left | exact P1] |].
      eapply Forall_impl; [| exact P2].
      intros rq [label [Hl [ids [chunks Hp]]]]. exists label.
      split; [now right |]. exists ids, chunks.
      apply (filled_framed F1).
      destruct F1 as [_ F1]. now rewrite <- F1. }
    destruct R2 as [[e ->] | [d [-> [Hlen [Hother Hsome]]]]];
      [left; now eexists |].
    right. exists d. split; [reflexivity |].
    split; [cbn; now rewrite Hlen |]. split.
    + intros k Hk. rewrite Hother by (intros label Hl; apply Hk; now right).
      apply (dict_get_set_neq Py.key_eqb key_eqb_eq).
      apply Hk. now left.
    + intros label [<- | Hl]; [| now apply Hsome].
      destruct (in_dec Z.eq_dec a l) as [Hin | Hnin]; [now apply Hsome |].
      rewrite Hother.
      * rewrite (dict_get_set_eq Py.key_eqb key_eqb_eq). discriminate.
      * intros label Hl [= ->]. contradiction.
Qed.

Lemma range_In (n z : Z) : In z (Py.range n) <-> 0 <= z < n.
Proof.
  unfold Py.range. rewrite in_map_iff. split.
  - intros [k [<- Hk]]. apply in_seq in Hk. lia.
  - intros H. exists (Z.to_nat z). split; [lia |]. apply in_seq. lia.
Qed.

Lemma range_length (n : Z) : length (Py.range n) = Z.to_nat n.
Proof. unfold Py.range. now rewrite length_map, length_seq. Qed.

(** ** The size of a prompt *)







(** ** The labels that get a summary *)

(** On success the keys that are not labels of the loop are as they
    were. *)
Lemma summarize_loop_keys (texts : option (list Py.str)) (l : list Z)
  (cs d : list (Py.key * Py.str)) (m m' : machine) :
  fold_m l (summarize_label texts) cs m = (m', Py.Ok d) ->
  forall k, (forall label, In label l -> k <> Py.KInt label) ->
    Py.dict_get Py.key_eqb d k = Py.dict_get Py.key_eqb cs k.
Proof.
  intros H. apply summarize_loop_spec in H.
  destruct H as [_ [requests [_ [_ [[e He] | [d' [Hd [_ [Hother _]]]]]]]]];
    [discriminate |].
  injection Hd as <-. exact Hother.
Qed.

(** The noise label keeps the summary "None" that [summarize] starts
    with: no response is used for it. *)
Lemma summarize_noise_label (m : machine) (texts_arg : option (list Py.str))
  (labels : list Z) (d : list (Py.key * Py.str)) :
  snd (summarize texts_arg (Some labels) m) = Py.Ok d ->
  Py.dict_get Py.key_eqb d (Py.KInt noise_label) = Some (Py.lit "None").
Proof.
  intros H. unfold summarize in H.
  destruct (fold_m _ _ _ m) as [m' r] eqn:E. cbn [snd] in H. subst r.
  rewrite (summarize_loop_keys _ _ _ _ E); [reflexivity |].
  intros label Hl [= Hn]. apply range_In in Hl. unfold noise_label in Hn. lia.
Qed.

(** With a noise point in the labeling and the cluster labels numbered
    from 0 without a gap, every label of the labeling gets a summary. *)
Lemma summarize_with_noise (m : machine) (texts_arg : option (list Py.str))
  (labels : list Z) (d : list (Py.key * Py.str)) :
  In noise_label labels ->
  (forall label, In label labels ->
     label = noise_label \/ 0 <= label < Z.of_nat (Py.len_set labels) - 1) ->
  snd (summarize texts_arg (Some labels) m) = Py.Ok d ->
  forall label, In label labels ->
    Py.dict_get Py.key_eqb d (Py.KInt label) <> None.
Proof.
  intros Hnoise Hdense H label Hl.
  destruct (Hdense label Hl) as [-> | Hr].
  - rewrite (summarize_noise_label _ _ _ H). discriminate.
  - unfold summarize in H.
    destruct (fold_m _ _ _ m) as [m' r] eqn:E. cbn [snd] in H. subst r.
    apply summarize_loop_spec in E.
    destruct E as [_ [requests [_ [_ [[e He] | [d' [Hd [_ [_ Hsome]]]]]]]]];
      [discriminate |].
    injection Hd as <-. apply Hsome. now apply range_In.
Qed.

Lemma not_None_dec {A} (o : option A) : {o <> None} + {~ o <> None}.
Proof.
  destruct o; [left; discriminate | right; intros H; now apply H].
Qed.

Lemma len_set_positive (labels : list Z) :
  labels <> [] -> (1 <= Py.len_set labels)%nat.
Proof.
  intros H. destruct labels as [| a labels]; [congruence |].
  unfold Py.len_set.
  assert (Hin : In a (nodup Z.eq_dec (a :: labels)))
    by (apply nodup_In; now left).
  destruct (nodup Z.eq_dec (a :: labels)); [destruct Hin | cbn; lia].
Qed.

(** C4, on a labeling without noise.  [summarize] counts one label fewer
    than the labeling has, for the noise label; when no point is noise
    some cluster of the labeling is left without a summary. *)
Theorem summarize_misses_label_without_noise (m : machine)
  (texts_arg : option (list Py.str)) (labels : list Z)
  (d : list (Py.key * Py.str)) :
  labels <> [] ->
  ~ In noise_label labels ->
  snd (summarize texts_arg (Some labels) m) = Py.Ok d ->
  exists label,
    In label labels
    /\ label <> noise_label
    /\ Py.dict_get Py.key_eqb d (Py.KInt label) = None.
Proof.
  intros Hne Hnoise H. unfold summarize in H.
  destruct (fold_m _ _ _ m) as [m' r] eqn:E. cbn [snd] in H. subst r.
  pose proof (summarize_loop_keys _ _ _ _ E) as Hkeys.
  destruct (Forall_Exists_dec
              (fun l => Py.dict_get Py.key_eqb d (Py.KInt l) <> None)
              (fun l => not_None_dec (Py.dict_get Py.key_eqb d (Py.KInt l)))
              (nodup Z.eq_dec labels)) as [Hall | Hex].
  - exfalso.
    assert (Hincl : incl (nodup Z.eq_dec labels)
                      (Py.range (Z.of_nat (Py.len_set labels) - 1))).
    { intros l Hl. rewrite Forall_forall in Hall. specialize (Hall l Hl).
      apply nodup_In in Hl. apply range_In.
      destruct (Z_lt_dec l 0) as [Neg | Pos].
      - exfalso. apply Hall. rewrite Hkeys.
        + cbn [Py.dict_get Py.key_eqb].
          destruct (noise_label =? l) eqn:Q; [| reflexivity].
          apply Z.eqb_eq in Q. subst l. contradiction.
        + intros label Hr [= ->]. apply range_In in Hr. lia.
      - destruct (Z_lt_dec l (Z.of_nat (Py.len_set labels) - 1)); [lia |].
        exfalso. apply Hall. rewrite Hkeys.
        + cbn [Py.dict_get Py.key_eqb].
          destruct (noise_label =? l) eqn:Q; [| reflexivity].
          apply Z.eqb_eq in Q. subst l. contradiction.
        + intros label Hr [= ->]. apply range_In in Hr. lia. }
    apply NoDup_incl_length in Hincl; [| apply NoDup_nodup].
    rewrite range_length in Hincl.
    pose proof (len_set_positive Hne) as Hp. unfold Py.len_set in *. lia.
  - apply Exists_exists in Hex. destruct Hex as [l [Hl Hn]].
    exists l. apply nodup_In in Hl. split; [exact Hl |].
    split; [intros ->; contradiction |].
    destruct (Py.dict_get Py.key_eqb d (Py.KInt l)); [| reflexivity].
    exfalso. apply Hn. discriminate.
Qed.


(** ** Integers written and read back *)

Lemma digit_not_space (c : ascii) :
  Py.is_digit c = true -> Py.isspace c = false.
Proof.
  unfold Py.is_digit, Py.isspace. intros H.
  apply andb_true_iff in H. destruct H as [H1 H2].
  apply N.leb_le in H1, H2.
  repeat match goal with
         | |- context [(?a <=? ?b)%N] => destruct (N.leb_spec a b)
         | |- context [(?a =? ?b)%N] => destruct (N.eqb_spec a b)
         end; cbn; try reflexivity; lia.
Qed.

Lemma digit_not_char (c d : ascii) :
  Py.is_digit c = true -> Py.is_digit d = false -> Ascii.eqb c d = false.
Proof.
  intros Hc Hd. destruct (Ascii.eqb c d) eqn:E; [| reflexivity].
  apply Ascii.eqb_eq in E. congruence.
Qed.

Lemma digits_of_uint (u : Decimal.uint) :
  forallb Py.is_digit
    (list_ascii_of_string (DecimalString.NilEmpty.string_of_uint u)) = true.
Proof. induction u; cbn; auto. Qed.

Lemma digits_nonempty (u : Decimal.uint) :
  u <> Decimal.Nil ->
  list_ascii_of_string (DecimalString.NilEmpty.string_of_uint u) <> [].
Proof. destruct u; cbn; congruence. Qed.

Lemma drop_underscores_digits (ds : Py.str) :
  forallb Py.is_digit ds = true ->
  forall prev, ds <> [] \/ prev = true ->
    Py.drop_underscores ds prev = Some ds.
Proof.
  induction ds as [| c ds IH]; intros H prev Hp; cbn.
  - destruct Hp as [Hp | ->]; [congruence | reflexivity].
  - cbn in H. apply andb_true_iff in H. destruct H as [Hc Hds].
    rewrite Hc, (IH Hds true) by now right. reflexivity.
Qed.

Lemma lstrip_clean (c : ascii) (r : Py.str) :
  Py.isspace c = false -> Py.lstrip (c :: r) = c :: r.
Proof. intros H. cbn. now rewrite H. Qed.

(** A string that neither starts nor ends with a space is its own
    strip. *)
Lemma strip_clean (c : ascii) (r : Py.str) :
  Py.isspace c = false ->
  Py.isspace (last (c :: r) c) = false ->
  Py.strip (c :: r) = c :: r.
Proof.
  intros Hc Hl. unfold Py.strip, Py.rstrip.
  rewrite (lstrip_clean c r Hc).
  destruct (rev (c :: r)) as [| x y] eqn:R.
  - apply (f_equal (@length _)) in R. rewrite length_rev in R. discriminate.
  - assert (Hx : x = last (c :: r) c).
    { rewrite <- (rev_involutive (c :: r)), R. cbn [rev].
      now rewrite last_last. }
    rewrite lstrip_clean by congruence.
    rewrite <- R. apply rev_involutive.
Qed.

Lemma last_digit (ds : Py.str) (c d : ascii) :
  forallb Py.is_digit ds = true -> ds <> [] ->
  Py.is_digit (last (c :: ds) d) = true.
Proof.
  intros H Hne. rewrite forallb_forall in H. apply H.
  destruct ds as [| x ds]; [congruence |].
  change (last (c :: x :: ds) d) with (last (x :: ds) d).
  destruct (exists_last (l := x :: ds)) as [l' [a E]]; [discriminate |].
  rewrite E, last_last. apply in_or_app. right. now left.
Qed.

Lemma int_of_digits_uint (p : positive) :
  Py.int_of_digits
    (list_ascii_of_string
       (DecimalString.NilEmpty.string_of_uint (Pos.to_uint p)))
  = Py.Ok (Z.pos p).
Proof.
  unfold Py.int_of_digits.
  rewrite drop_underscores_digits.
  - rewrite string_of_list_ascii_of_string, DecimalString.NilEmpty.usu.
    unfold Z.of_uint. now rewrite DecimalPos.Unsigned.of_to.
  - apply digits_of_uint.
  - left. apply digits_nonempty. apply DecimalPos.Unsigned.to_uint_nonnil.
Qed.

(** [int(str(z)) == z] *)
Lemma int_of_str_of_int (z : Z) : Py.int_of_str (Py.str_of_int z) = Py.Ok z.
Proof.
  destruct z as [| p | p]; [reflexivity | |].
  - unfold Py.str_of_int, Z.to_int, DecimalString.NilZero.string_of_int,
      DecimalString.NilZero.string_of_uint.
    pose proof (int_of_digits_uint p) as D.
    pose proof (digits_of_uint (Pos.to_uint p)) as F.
    pose proof (digits_nonempty (DecimalPos.Unsigned.to_uint_nonnil p)) as N.
    destruct (Pos.to_uint p) eqn:U;
      [now apply DecimalPos.Unsigned.to_uint_nonnil in U | ..].
    all: rewrite <- U in *; clear U.
    all: destruct (list_ascii_of_string _) as [| c r] eqn:L; [congruence |].
    all: cbn in F; apply andb_true_iff in F; destruct F as [Fc Fr].
    all: unfold Py.int_of_str.
    all: rewrite strip_clean;
      [| now apply digit_not_space
       | apply digit_not_space;
         destruct r as [| x r];
         [exact Fc | now apply last_digit]].
    all: rewrite (digit_not_char c "-" Fc eq_refl).
    all: rewrite (digit_not_char c "+" Fc eq_refl).
    all: exact D.
  - unfold Py.str_of_int, Z.to_int, DecimalString.NilZero.string_of_int,
      DecimalString.NilZero.string_of_uint.
    pose proof (int_of_digits_uint p) as D.
    pose proof (digits_of_uint (Pos.to_uint p)) as F.
    pose proof (digits_nonempty (DecimalPos.Unsigned.to_uint_nonnil p)) as N.
    destruct (Pos.to_uint p) eqn:U;
      [now apply DecimalPos.Unsigned.to_uint_nonnil in U | ..].
    all: rewrite <- U in *; clear U.
    all: cbn [list_ascii_of_string].
    all: unfold Py.int_of_str.
    all: rewrite strip_clean;
      [| reflexivity
       | apply digit_not_space; now apply last_digit].
    all: cbn [Ascii.eqb Bool.eqb]; cbv iota.
    all: rewrite D; reflexivity.
Qed.

Lemma str_of_int_inj (a b : Z) : Py.str_of_int a = Py.str_of_int b -> a = b.
Proof.
  intros H. apply (f_equal Py.int_of_str) in H.
  rewrite !int_of_str_of_int in H. congruence.
Qed.


(** ** Persistence *)

Section DictFresh.
Variables (K V : Type) (eqb : K -> K -> bool).
Hypothesis eqb_spec : forall a b, eqb a b = true <-> a = b.

Lemma dict_set_fresh (d : list (K * V)) (k : K) (v : V) :
  ~ In k (Py.dict_keys d) -> Py.dict_set eqb d k v = d ++ [(k, v)].
Proof.
  induction d as [| [k0 v0] r IH]; cbn; intros H; [reflexivity |].
  rewrite (eqb_diff eqb eqb_spec) by tauto.
  rewrite IH by tauto. reflexivity.
Qed.

Lemma dict_of_pairs_from (l : list (K * V)) : forall d,
  NoDup (Py.dict_keys d ++ map fst l) ->
  fold_left (fun d kv => Py.dict_set eqb d (fst kv) (snd kv)) l d = d ++ l.
Proof.
  induction l as [| [k v] l IH]; intros d H; cbn.
  - now rewrite app_nil_r.
  - cbn in H. rewrite dict_set_fresh.
    + rewrite IH.
      * now rewrite <- app_assoc.
      * unfold Py.dict_keys. rewrite map_app, <- app_assoc. exact H.
    + apply NoDup_remove_2 in H. intros Hin. apply H.
      apply in_or_app. now left.
Qed.

(** Pairs with distinct keys make the dictionary of those pairs, in
    their order. *)
Lemma dict_of_pairs_NoDup (l : list (K * V)) :
  NoDup (map fst l) -> Py.dict_of_pairs eqb l = l.
Proof. intros H. unfold Py.dict_of_pairs. now rewrite dict_of_pairs_from. Qed.
End DictFresh.


Lemma str_keys_as_str_keys (zs : list (Z * Py.str)) :
  str_keys (as_str_keys zs) = map (fun zv => Py.str_of_int (fst zv)) zs.
Proof.
  induction zs as [| [z v] zs IH]; cbn; [reflexivity |].
  f_equal. exact IH.
Qed.

Lemma as_str_keys_not_int (zs : list (Z * Py.str)) (z : Z) :
  ~ In (Py.KInt z) (Py.dict_keys (as_str_keys zs)).
Proof.
  induction zs as [| [z0 v0] zs IH]; cbn; [tauto |].
  intros [H | H]; [discriminate | contradiction].
Qed.

Lemma as_str_keys_NoDup (zs : list (Z * Py.str)) :
  NoDup (map fst zs) -> NoDup (map fst (as_str_keys zs)).
Proof.
  unfold as_str_keys. rewrite map_map. cbn [fst].
  intros H.
  replace (map (fun x : Z * Py.str => Py.KStr (Py.str_of_int (fst x))) zs)
    with (map (fun z => Py.KStr (Py.str_of_int z)) (map fst zs))
    by (rewrite map_map; reflexivity).
  apply NoDup_map_NoDup_ForallPairs; [| exact H].
  intros a b _ _ [= E]. now apply str_of_int_inj.
Qed.

(** The loop of [load] turns the string keys back into the integers,
    each entry in its place. *)
Lemma rekey_loop_from (rest : list (Z * Py.str)) : forall done,
  NoDup (map fst rest) ->
  (forall z, In z (map fst rest) -> ~ In (Py.KInt z) (Py.dict_keys done)) ->
  rekey_loop (map (fun zv => Py.str_of_int (fst zv)) rest)
    (as_str_keys rest ++ done)
  = (done ++ as_int_keys rest, Py.Ok tt).
Proof.
  induction rest as [| [z v] rest IH]; intros done Hnd Hfresh;
    cbn [map as_str_keys as_int_keys rekey_loop app fst snd].
  - now rewrite app_nil_r.
  - unfold Py.dict_pop. cbn [Py.dict_get Py.dict_remove Py.key_eqb].
    rewrite str_eqb_refl, int_of_str_of_int.
    fold (as_str_keys rest). fold (as_int_keys rest).
    rewrite (dict_set_fresh Py.key_eqb key_eqb_eq).
    + rewrite <- app_assoc. rewrite IH.
      * now rewrite <- app_assoc.
      * now inversion Hnd.
      * intros z' Hz'. unfold Py.dict_keys. rewrite map_app, in_app_iff.
        intros [H | [[= ->] | []]].
        -- apply (Hfresh z'); [now right | exact H].
        -- inversion Hnd. contradiction.
    + unfold Py.dict_keys. rewrite map_app, in_app_iff.
      intros [H | H].
      * now apply as_str_keys_not_int in H.
      * apply (Hfresh z); [now left | exact H].
Qed.

Lemma int_keyed_as_int_keys (d : list (Py.key * Py.str)) :
  int_keyed d -> exists zs, d = as_int_keys zs /\ NoDup (map fst zs).
Proof.
  intros [Hnd Hall]. induction d as [| [k v] d IH].
  - exists []. split; [reflexivity | constructor].
  - inversion Hall as [| ? ? [z Hz] Hrest]; subst. cbn in Hz. subst k.
    cbn in Hnd. inversion Hnd as [| ? ? Hnin Hnd']; subst.
    destruct (IH Hnd' Hrest) as [zs [-> Hzs]].
    exists ((z, v) :: zs). split; [reflexivity |].
    cbn. constructor; [| exact Hzs].
    intros Hin. apply Hnin. unfold Py.dict_keys, as_int_keys.
    rewrite map_map. cbn [fst].
    apply in_map_iff in Hin. destruct Hin as [[z' v'] [E Hin]].
    cbn in E. subst z'. apply in_map_iff. exists (z, v'). now split.
Qed.

(** The summaries that [save] writes are the summaries that [load]
    reads. *)
Lemma summaries_roundtrip (d : list (Py.key * Py.str)) :
  int_keyed d ->
  let loaded :=
    Py.dict_of_pairs Py.key_eqb
      (map (fun kv => (Py.KStr (fst kv), snd kv))
         (map (fun kv => (json_key (fst kv), snd kv)) d)) in
  rekey_loop (str_keys loaded) loaded = (d, Py.Ok tt).
Proof.
  intros H. destruct (int_keyed_as_int_keys H) as [zs [-> Hzs]].
  cbn zeta. unfold as_int_keys. rewrite !map_map. cbn [fst snd json_key].
  fold (as_str_keys zs).
  rewrite (dict_of_pairs_NoDup Py.key_eqb key_eqb_eq)
    by now apply as_str_keys_NoDup.
  rewrite str_keys_as_str_keys.
  pose proof (@rekey_loop_from zs [] Hzs) as R.
  rewrite app_nil_r in R. apply R. intros z _ [].
Qed.


(** The classifier once [load] has read the files, before it indexes
    the clusters. *)
Lemma load_files (fs : filesystem) (folder : Py.str) (m : machine)
  (dir : folder_files) (e p : list (list Float)) (index : Index)
  (labels : list Z) (t : option (list Py.str)) :
  fs folder = Some dir ->
  embeddings_npy dir = Some (Some e) ->
  faiss_index_file dir = Some index ->
  projections_npy dir = Some (Some p) ->
  cluster_labels_npy dir = Some (Some labels) ->
  texts_json dir = Some t ->
  let read_files :=
    set_texts t
      (set_cluster_labels (Some labels)
         (set_projections (Some p)
            (set_faiss_index (Some index)
               (set_embeddings (Some e) (self m))))) in
  (cluster_summaries_json dir = None ->
   load fs folder m
   = index_clusters
       {| self := read_files; calls := calls m; drawn := drawn m |})
  /\ (forall pairs d,
        cluster_summaries_json dir = Some pairs ->
        (let loaded :=
           Py.dict_of_pairs Py.key_eqb
             (map (fun kv => (Py.KStr (fst kv), snd kv)) pairs) in
         rekey_loop (str_keys loaded) loaded = (d, Py.Ok tt)) ->
        load fs folder m
        = index_clusters
            {| self := set_cluster_summaries (Py.Val d) read_files;
               calls := calls m; drawn := drawn m |}).
Proof.
  intros Hdir He Hi Hp Hl Ht. cbn zeta. split.
  - intros Hs. unfold load. rewrite Hdir, He, Hi, Hp, Hl, Ht, Hs.
    reflexivity.
  - intros pairs d Hs Hloop. unfold load.
    rewrite Hdir, He, Hi, Hp, Hl, Ht, Hs. cbn zeta in Hloop.
    unfold bind, lift, assign, np_load. cbn [self calls drawn].
    rewrite Hloop. reflexivity.
Qed.

Lemma write_folder_same (fs : filesystem) (folder : Py.str)
  (files : folder_files) :
  write_folder fs folder files folder = Some files.
Proof. unfold write_folder. now rewrite str_eqb_refl. Qed.

(** C6, as the code has it.  For a fitted classifier [save] succeeds, and
    [load] on the folder then succeeds and restores the embeddings, the
    index, the projections, the labels and the texts, and recomputes
    [id2cluster], [label2docs] and [cluster_centers] as they were.  The
    summaries are restored, their keys integers again, when they are a
    dictionary.  When they are [None], [save] writes no summaries file;
    with none left in the folder from before, [load] leaves the summaries
    of the loading classifier as they are. *)
Theorem load_after_save_restores (s : ClusterClassifier) (fs : filesystem)
  (folder : Py.str) (m : machine) :
  fitted s ->
  (cluster_summaries s = Py.PyNone -> no_summaries_file fs folder) ->
  let saved := save folder s fs in
  let loaded := load (fst saved) folder m in
  snd saved = Py.Ok tt
  /\ snd loaded = Py.Ok tt
  /\ restored s
       (match cluster_summaries s with
        | Py.PyNone => cluster_summaries (self m)
        | summaries => summaries
        end)
       (self (fst loaded)).
Proof.
  intros [e [index [p [labels [centers
            [He [Hi [Hp [Hl [Hid [Hld [Hloop [Hc Hs]]]]]]]]]]]]] Hnone.
  unfold save. rewrite Hi.
  destruct (cluster_summaries s) as [| | d] eqn:Hsum; [contradiction | |];
    cbn zeta; cbn [fst snd]; (split; [reflexivity |]).
  - match goal with
    | |- context [load (write_folder fs folder ?files) folder m] =>
        destruct (@load_files (write_folder fs folder files) folder m files
                    e p index labels (texts s)
                    (write_folder_same fs folder files)
                    (f_equal Some He) eq_refl (f_equal Some Hp)
                    (f_equal Some Hl) eq_refl)
          as [Hload _]
    end.
    rewrite Hload.
    2:{ specialize (Hnone eq_refl). unfold no_summaries_file in Hnone.
        cbn. destruct (fs folder); [exact Hnone | reflexivity]. }
    match goal with
    | |- context [index_clusters ?m1] =>
        destruct (@index_clusters_state m1 labels eq_refl) as [S [_ [_ R]]]
    end.
    cbn zeta in S, R. cbn [self projections set_texts set_cluster_labels
                             set_projections] in S, R.
    rewrite R, S, Hloop. cbn [fst snd]. split; [reflexivity |].
    unfold restored. cbn. rewrite He, Hi, Hp, Hl, Hid, Hld, Hc.
    repeat split; reflexivity.
  - match goal with
    | |- context [load (write_folder fs folder ?files) folder m] =>
        destruct (@load_files (write_folder fs folder files) folder m files
                    e p index labels (texts s)
                    (write_folder_same fs folder files)
                    (f_equal Some He) eq_refl (f_equal Some Hp)
                    (f_equal Some Hl) eq_refl)
          as [_ Hload]
    end.
    rewrite (Hload _ d eq_refl (summaries_roundtrip Hs)).
    match goal with
    | |- context [index_clusters ?m1] =>
        destruct (@index_clusters_state m1 labels eq_refl) as [S [_ [_ R]]]
    end.
    cbn zeta in S, R. cbn [self projections set_texts set_cluster_labels
                             set_projections set_cluster_summaries] in S, R.
    rewrite R, S, Hloop. cbn [fst snd]. split; [reflexivity |].
    unfold restored. cbn. rewrite He, Hi, Hp, Hl, Hid, Hld, Hc.
    repeat split; reflexivity.
Qed.


(** ** Reuse in [fit] *)

Lemma store_cluster_info_frame (labels : list Z) (m m' : machine)
  (r : Py.result unit) :
  store_cluster_info labels m = (m', r) ->
  embeddings (self m') = embeddings (self m)
  /\ projections (self m') = projections (self m)
  /\ summary_create (self m') = summary_create (self m)
  /\ calls m' = calls m.
Proof.
  intros H. unfold store_cluster_info, bind, assign in H.
  match type of H with
  | index_clusters ?m1 = _ =>
      destruct (@index_clusters_state m1 labels eq_refl) as [S [C _]]
  end.
  rewrite H in S, C. cbn [fst] in S, C. rewrite S. cbn.
  repeat split; try reflexivity. exact C.
Qed.

Lemma cluster_frame (p : list (list Float)) (algorithm : Py.str)
  (args : Args) (m m' : machine) (r : Py.result unit) :
  cluster p algorithm args m = (m', r) ->
  embeddings (self m') = embeddings (self m)
  /\ projections (self m') = projections (self m)
  /\ summary_create (self m') = summary_create (self m)
  /\ exists new, calls m' = calls m ++ new /\ Forall quiet new.
Proof.
  unfold cluster.
  destruct (Py.str_eqb algorithm (Py.lit "dbscan"));
    destruct (Py.str_eqb algorithm (Py.lit "hdbscan"));
    destruct (Py.str_eqb algorithm (Py.lit "kmeans"));
    destruct (Py.str_eqb algorithm (Py.lit "optics"));
    unfold bind, call, ret, raise; cbn [self calls drawn]; intros H;
    try (injection H as <- <-; repeat split; try reflexivity;
         exists []; split; [now rewrite app_nil_r | constructor]).
  all: apply store_cluster_info_frame in H; cbn [self calls] in H;
    destruct H as [He [Hp [Hs Hc]]]; rewrite <- ?app_assoc in Hc;
    repeat split; try assumption;
    eexists; split; [exact Hc |]; repeat constructor.
Qed.

Lemma summarize_frame (texts_arg : option (list Py.str))
  (labels : option (list Z)) (m m' : machine)
  (r : Py.result (list (Py.key * Py.str))) :
  summarize texts_arg labels m = (m', r) ->
  framed (self m) (self m')
  /\ exists new, calls m' = calls m ++ new /\ Forall quiet new.
Proof.
  unfold summarize. destruct labels as [ls |].
  - intros H. apply summarize_loop_spec in H.
    destruct H as [F [requests [C _]]]. split; [exact F |].
    exists (map Generate requests). split; [exact C |].
    apply Forall_forall. intros ev Hev. apply in_map_iff in Hev.
    destruct Hev as [rq [<- _]]. exact I.
  - intros [= <- <-]. split; [apply framed_refl |].
    exists []. split; [now rewrite app_nil_r | constructor].
Qed.

Lemma quiet_app (m0 m1 m2 : machine) (new1 new2 : list event) :
  calls m1 = calls m0 ++ new1 -> Forall quiet new1 ->
  calls m2 = calls m1 ++ new2 -> Forall quiet new2 ->
  exists new, calls m2 = calls m0 ++ new /\ Forall quiet new.
Proof.
  intros C1 Q1 C2 Q2. exists (new1 ++ new2). split.
  - now rewrite C2, C1, app_assoc.
  - apply Forall_app. now split.
Qed.

(** The reuse half of C1.  A call of [fit] with the stored batch size on
    a classifier that has its embeddings and projections leaves both as
    they are, whether it completes or raises, and calls neither the
    embedding model nor a projection algorithm. *)
Lemma refit_same_batch_size_reuses (m : machine) texts_arg pa pargs ca cargs
  (e p : list (list Float)) :
  embeddings (self m) = Some e ->
  projections (self m) = Some p ->
  let m' :=
    fst (fit texts_arg (Some (batch_size (self m))) pa pargs ca cargs m) in
  embeddings (self m') = Some e
  /\ projections (self m') = Some p
  /\ exists new, calls m' = calls m ++ new /\ Forall quiet new.
Proof.
  intros He Hp.
  destruct (fit texts_arg (Some (batch_size (self m))) pa pargs ca cargs m)
    as [m' r] eqn:F.
  cbn [fst]. unfold fit in F.
  rewrite bind_run in F. change (read m) with (m, Py.Ok (self m)) in F.
  cbv iota beta in F. rewrite Z.eqb_refl in F. cbn [negb when] in F.
  do 7 (rewrite bind_run in F; cbn [ret assign self calls drawn] in F).
  match type of F with
  | context [bind _ _ ?m1] =>
      assert (E1 : embeddings (self m1) = Some e) by exact He;
      assert (P1 : projections (self m1) = Some p) by exact Hp;
      assert (C1 : calls m1 = calls m ++ []) by (cbn; now rewrite app_nil_r);
      generalize dependent m1
  end.
  intros m1 F E1 P1 C1.
  rewrite bind_run in F.
  destruct (1 <? batch_size (self m)) eqn:B; cbn [when] in F.
  { rewrite bind_run in F. cbn [read] in F. rewrite bind_run in F.
    unfold lift in F. rewrite batch_and_join_bound_method in F.
    injection F as <- <-.
    split; [exact E1 |]. split; [exact P1 |]. exists []. now split. }
  cbn [ret] in F. rewrite bind_run in F. cbn [read] in F.
  rewrite E1 in F. rewrite bind_run in F. cbn [ret] in F.
  rewrite bind_run in F. cbn [read] in F. rewrite bind_run in F.
  assert (Hindex :
            exists m2 new2,
              embeddings (self m2) = Some e
              /\ projections (self m2) = Some p
              /\ calls m2 = calls m1 ++ new2 /\ Forall quiet new2
              /\ match faiss_index (self m1) with
                 | Some _ => ret tt
                 | None =>
                     bind (the (embeddings (self m1)))
                       (fun e0 =>
                          bind (build_faiss_index e0)
                            (fun index => assign (set_faiss_index (Some index))))
                 end m1 = (m2, Py.Ok tt)).
  { destruct (faiss_index (self m1)).
    - exists m1, []. rewrite app_nil_r. repeat split; auto.
    - rewrite E1. eexists. exists [BuildIndex].
      unfold the, build_faiss_index, bind, call, ret, assign.
      cbn [self calls drawn].
      repeat split; try reflexivity; try assumption.
      repeat constructor. }
  destruct Hindex as [m2 [new2 [E2 [P2 [C2 [Q2 R2]]]]]].
  rewrite R2 in F. clear R2.
  rewrite bind_run in F. cbn [read] in F. rewrite bind_run in F.
  rewrite P2 in F. cbn [ret] in F.
  rewrite bind_run in F. cbn [read] in F. rewrite bind_run in F.
  rewrite P2 in F. unfold the at 1 in F. cbn [ret] in F.
  rewrite bind_run in F.
  destruct (cluster p (clustering_algorithm (self m2))
              (clustering_args (self m2)) m2) as [m3 r3] eqn:CL.
  apply cluster_frame in CL.
  destruct CL as [E3 [P3 [S3 [new3 [C3 Q3]]]]].
  rewrite E2 in E3. rewrite P2 in P3.
  destruct (quiet_app m1 m2 m3 C2 Q2 C3 Q3) as [new13 [C13 Q13]].
  destruct (quiet_app m m1 m3 C1 (Forall_nil _) C13 Q13) as [new03 [C03 Q03]].
  destruct r3 as [[] | e3].
  2:{ injection F as <- <-. repeat split; try assumption.
      now exists new03. }
  rewrite bind_run in F. cbn [read] in F. rewrite bind_run in F.
  destruct (summary_create (self m3)).
  - rewrite bind_run in F.
    destruct (summarize (texts (self m3)) (cluster_labels (self m3)) m3)
      as [m4 r4] eqn:SU.
    apply summarize_frame in SU.
    destruct SU as [[[d4 S4] _] [new4 [C4 Q4]]].
    destruct (quiet_app m m3 m4 C03 Q03 C4 Q4) as [new04 [C04 Q04]].
    destruct r4 as [summaries | e4].
    + unfold bind, assign, read, ret in F. injection F as <- <-.
      cbn [self calls]. rewrite S4. cbn.
      repeat split; try assumption. now exists new04.
    + injection F as <- <-. rewrite S4. cbn.
      repeat split; try assumption. now exists new04.
  - unfold bind, assign, read, ret in F. injection F as <- <-.
    cbn [self calls]. cbn.
    repeat split; try assumption. now exists new03.
Qed.


Lemma project_known (e : list (list Float)) (algorithm : Py.str)
  (args : Args) (m : machine) :
  In algorithm projection_algorithms ->
  exists pm,
    project e algorithm args m
    = ({| self := set_projection_algorithm
                    (or_str (Some algorithm) (projection_algorithm (self m)))
                    (self m);
          calls := calls m ++ [Project algorithm];
          drawn := drawn m |}, Py.Ok (Some pm)).
Proof.
  intros [<- | [<- | [<- | []]]]; eexists; reflexivity.
Qed.

(** A changed batch size that is not above 1: the embeddings and the
    projections are discarded and computed again, the embedding model
    called on the texts passed to [fit]. *)
Lemma refit_changed_batch_size_recomputes (m : machine) texts_arg b
  pa pargs ca cargs :
  b <> batch_size (self m) ->
  b <= 1 ->
  In (or_str pa (projection_algorithm (self m))) projection_algorithms ->
  let m' := fst (fit texts_arg (Some b) pa pargs ca cargs m) in
  embeddings (self m') = Some (encode texts_arg)
  /\ (exists projected, projections (self m') = Some projected)
  /\ exists between rest,
       calls m'
       = calls m ++ Encode texts_arg :: between
         ++ Project (or_str pa (projection_algorithm (self m))) :: rest.
Proof.
  intros Hne Hb Halg.
  destruct (fit texts_arg (Some b) pa pargs ca cargs m) as [m' r] eqn:F.
  cbn [fst]. unfold fit in F.
  rewrite bind_run in F. change (read m) with (m, Py.Ok (self m)) in F.
  cbv iota beta in F. apply Z.eqb_neq in Hne. rewrite Hne in F.
  cbn [negb when] in F.
  do 8 (rewrite bind_run in F; cbn [ret assign self calls drawn] in F).
  match type of F with
  | context [bind _ _ ?m1] =>
      assert (E1 : embeddings (self m1) = None) by reflexivity;
      assert (P1 : projections (self m1) = None) by reflexivity;
      assert (A1 : projection_algorithm (self m1)
                   = or_str pa (projection_algorithm (self m)))
        by reflexivity;
      assert (C1 : calls m1 = calls m) by reflexivity;
      generalize dependent m1
  end.
  intros m1 F E1 P1 A1 C1.
  rewrite bind_run in F.
  destruct (1 <? b) eqn:B; [apply Z.ltb_lt in B; lia |].
  cbn [when ret] in F.
  rewrite bind_run in F. cbn [read] in F. rewrite bind_run in F.
  rewrite E1 in F. unfold embed at 1 in F.
  unfold bind at 1 2, call at 1, ret at 1, assign at 1 in F.
  cbn [self calls drawn] in F.
  rewrite bind_run in F. cbn [read self] in F. rewrite bind_run in F.
  match type of F with
  | context [faiss_index (set_embeddings _ (self m1))] =>
      change (faiss_index (set_embeddings (Some (encode texts_arg)) (self m1)))
        with (faiss_index (self m1)) in F
  end.
  match type of F with
  | context [_ ?m1e] =>
      match m1e with
      | {| self := _; calls := calls m1 ++ [Encode texts_arg]; drawn := _ |} =>
          assert (Hindex :
                    exists m2 between,
                      embeddings (self m2) = Some (encode texts_arg)
                      /\ projections (self m2) = None
                      /\ projection_algorithm (self m2)
                         = or_str pa (projection_algorithm (self m))
                      /\ calls m2 = calls m ++ Encode texts_arg :: between
                      /\ match faiss_index (self m1) with
                         | Some _ => ret tt
                         | None =>
                             bind
                               (the
                                  (embeddings
                                     (set_embeddings
                                        (Some (encode texts_arg)) (self m1))))
                               (fun e0 =>
                                  bind (build_faiss_index e0)
                                    (fun index =>
                                       assign (set_faiss_index (Some index))))
                         end m1e = (m2, Py.Ok tt))
      end
  end.
  { destruct (faiss_index (self m1)).
    - eexists. exists []. split; [| split; [| split; [| split]]];
        [| | | | reflexivity]; cbn [self calls]; try assumption; try reflexivity.
      now rewrite C1.
    - eexists. exists [BuildIndex].
      split; [| split; [| split; [| split]]]; [| | | | reflexivity];
        cbn [self calls]; try assumption; try reflexivity.
      now rewrite C1, <- app_assoc. }
  destruct Hindex as [m2 [between [E2 [P2 [A2 [C2 R2]]]]]].
  rewrite R2 in F. clear R2. cbv iota beta in F.
  rewrite bind_run in F. cbn [read] in F. rewrite bind_run in F.
  rewrite P2 in F. rewrite bind_run in F. rewrite E2 in F.
  unfold the at 1 in F. cbn [ret] in F. rewrite bind_run in F.
  rewrite A2 in F.
  destruct (project_known (encode texts_arg) (projection_args (self m2)) m2
              Halg) as [pm Hpm].
  rewrite Hpm in F. cbv iota beta in F.
  unfold bind at 1, assign at 1 2 in F. cbn [self calls drawn] in F.
  match type of F with
  | context [bind _ _ ?m3] =>
      assert (E3 : embeddings (self m3) = Some (encode texts_arg))
        by exact E2;
      assert (P3 : projections (self m3) = Some (fst pm)) by reflexivity;
      assert (C3 : calls m3
                   = calls m ++ Encode texts_arg :: between
                     ++ [Project (or_str pa (projection_algorithm (self m)))])
        by (cbn [calls]; rewrite C2, <- app_assoc; reflexivity);
      generalize dependent m3
  end.
  intros m3 F E3 P3 C3.
  assert (Hrest : forall m4 new,
            calls m4 = calls m3 ++ new ->
            exists between0 rest,
              calls m4
              = calls m ++ Encode texts_arg :: between0
                ++ Project (or_str pa (projection_algorithm (self m))) :: rest).
  { intros m4 new H4. exists between, new. rewrite H4, C3.
    rewrite <- app_assoc. cbn [app]. rewrite <- app_assoc. reflexivity. }
  rewrite bind_run in F. cbn [read] in F. rewrite bind_run in F.
  rewrite P3 in F. unfold the at 1 in F. cbn [ret] in F.
  rewrite bind_run in F.
  destruct (cluster (fst pm) (clustering_algorithm (self m3))
              (clustering_args (self m3)) m3) as [m4 r4] eqn:CL.
  apply cluster_frame in CL.
  destruct CL as [E4 [P4 [S4 [new4 [C4 Q4]]]]].
  rewrite E3 in E4. rewrite P3 in P4.
  destruct r4 as [[] | e4].
  2:{ injection F as <- <-. split; [exact E4 |].
      split; [eexists; exact P4 | exact (Hrest _ _ C4)]. }
  rewrite bind_run in F. cbn [read] in F. rewrite bind_run in F.
  destruct (summary_create (self m4)).
  - rewrite bind_run in F.
    destruct (summarize (texts (self m4)) (cluster_labels (self m4)) m4)
      as [m5 r5] eqn:SU.
    apply summarize_frame in SU.
    destruct SU as [[[d5 S5] _] [new5 [C5 Q5]]].
    assert (C05 : calls m5 = calls m3 ++ (new4 ++ new5))
      by (rewrite C5, C4, app_assoc; reflexivity).
    destruct r5 as [summaries | e5].
    + unfold bind, assign, read, ret in F. injection F as <- <-.
      cbn [self calls]. rewrite S5. cbn.
      split; [exact E4 |]. split; [eexists; exact P4 | exact (Hrest _ _ C05)].
    + injection F as <- <-. rewrite S5. cbn.
      split; [exact E4 |]. split; [eexists; exact P4 | exact (Hrest _ _ C05)].
  - unfold bind, assign, read, ret in F. injection F as <- <-.
    cbn [self calls]. cbn.
    split; [exact E4 |]. split; [eexists; exact P4 | exact (Hrest _ _ C4)].
Qed.


(** ** What a completed [fit] leaves *)

Lemma label2docs_getitem_present (label : Z) (m : machine)
  (d : list (Z * list nat)) :
  label2docs (self m) = Some d ->
  In label (Py.dict_keys d) ->
  label2docs_getitem label m = (m, Py.Ok (docs_of d label)).
Proof.
  intros L H. apply (dict_get_keys Z.eqb Z.eqb_eq) in H.
  unfold label2docs_getitem, bind, read, docs_of. cbn. rewrite L.
  destruct (Py.dict_get Z.eqb d label); [reflexivity | congruence].
Qed.

(** A label that [label2docs] has is read without a change to the
    classifier. *)
Lemma summarize_label_self (texts : option (list Py.str))
  (cs : list (Py.key * Py.str)) (label : Z) (m m' : machine)
  (r : Py.result (list (Py.key * Py.str))) (d : list (Z * list nat)) :
  label2docs (self m) = Some d ->
  In label (Py.dict_keys d) ->
  summarize_label texts cs label m = (m', r) ->
  self m' = self m.
Proof.
  intros L Hin H. unfold summarize_label in H.
  rewrite bind_run in H. change (read m) with (m, Py.Ok (self m)) in H.
  cbv iota beta in H. rewrite bind_run in H.
  rewrite (label2docs_getitem_present label m L Hin) in H.
  rewrite bind_run in H.
  destruct (random_choice (docs_of d label) (summary_n_examples (self m)) m)
    as [m2 r2] eqn:E2.
  apply random_choice_spec in E2. destruct E2 as [S2 _].
  destruct r2 as [ids | e]; [| now injection H as <- <-].
  rewrite bind_run in H. unfold lift at 1 in H.
  destruct (example_texts _ _ _); [| now injection H as <- <-].
  rewrite bind_run in H. unfold lift at 1 in H.
  destruct (Py.format _ _); [| now injection H as <- <-].
  unfold bind, count_calls, call, lift, ret in H.
  destruct (_postprocess_response _ _); now injection H as <- <-.
Qed.

Lemma summarize_loop_self (texts : option (list Py.str)) (l : list Z)
  (d : list (Z * list nat)) : forall cs m m' r,
  label2docs (self m) = Some d ->
  (forall label, In label l -> In label (Py.dict_keys d)) ->
  fold_m l (summarize_label texts) cs m = (m', r) ->
  self m' = self m.
Proof.
  induction l as [| a l IH]; intros cs m m' r L Hin H; cbn [fold_m] in H.
  - now injection H as <- <-.
  - rewrite bind_run in H.
    destruct (summarize_label texts cs a m) as [m1 r1] eqn:E1.
    eapply summarize_label_self in E1; [| exact L | apply Hin; now left].
    destruct r1 as [cs1 | e]; [| now injection H as <- <-].
    apply IH in H.
    + congruence.
    + now rewrite E1.
    + intros label Hl. apply Hin. now right.
Qed.

Lemma int_keyed_set (d : list (Py.key * Py.str)) (z : Z) (v : Py.str) :
  int_keyed d -> int_keyed (Py.dict_set Py.key_eqb d (Py.KInt z) v).
Proof.
  intros [Hn Hf]. split.
  - now apply (dict_keys_set_NoDup Py.key_eqb key_eqb_eq).
  - clear Hn. induction d as [| [k0 v0] d IH]; cbn.
    + repeat constructor. now exists z.
    + inversion Hf as [| ? ? Hk Hrest]; subst.
      destruct (Py.key_eqb k0 (Py.KInt z)); constructor; auto.
Qed.

Lemma summarize_loop_int_keyed (texts : option (list Py.str)) (l : list Z) :
  forall cs m m' d,
  int_keyed cs ->
  fold_m l (summarize_label texts) cs m = (m', Py.Ok d) ->
  int_keyed d.
Proof.
  induction l as [| a l IH]; intros cs m m' d Hk H; cbn [fold_m] in H.
  - now injection H as _ <-.
  - rewrite bind_run in H.
    destruct (summarize_label texts cs a m) as [m1 r1] eqn:E1.
    apply summarize_label_spec in E1.
    destruct E1 as [_ [[_ [e ->]] | [rq [_ [_ [[e ->] | [summary ->]]]]]]];
      try discriminate.
    apply IH in H; [exact H |]. now apply int_keyed_set.
Qed.



Lemma group_docs_keys (labels : list Z) (label : Z) :
  In label labels -> In label (Py.dict_keys (group_docs labels)).
Proof.
  intros H. apply In_nth_error in H. destruct H as [i Hi].
  apply group_docs_In in Hi.
  apply (dict_get_keys Z.eqb Z.eqb_eq). unfold docs_of in Hi.
  destruct (Py.dict_get Z.eqb (group_docs labels) label);
    [discriminate | destruct Hi].
Qed.

Lemma store_cluster_info_done (labels : list Z) (m m' : machine) :
  store_cluster_info labels m = (m', Py.Ok tt) ->
  exists centers,
    self m'
    = set_cluster_centers (Some centers)
        (set_label2docs (Some (group_docs labels))
           (set_id2cluster
              (Some (Py.dict_of_pairs Nat.eqb (Py.enumerate labels)))
              (set_cluster_labels (Some labels) (self m))))
    /\ centers_loop (projections (self m)) (group_docs labels)
         (Py.dict_keys (group_docs labels)) [] = (centers, Py.Ok tt).
Proof.
  intros H. unfold store_cluster_info, bind, assign in H.
  match type of H with
  | index_clusters ?m1 = _ =>
      destruct (@index_clusters_state m1 labels eq_refl) as [S [_ [_ R]]]
  end.
  rewrite H in S, R. cbn [fst snd self projections set_cluster_labels] in S, R.
  eexists. split; [exact S |].
  rewrite R. now destruct (centers_loop _ _ _ _).
Qed.

Lemma cluster_done (p : list (list Float)) (algorithm : Py.str)
  (args : Args) (m m' : machine) :
  cluster p algorithm args m = (m', Py.Ok tt) ->
  exists labels centers,
    self m'
    = set_cluster_centers (Some centers)
        (set_label2docs (Some (group_docs labels))
           (set_id2cluster
              (Some (Py.dict_of_pairs Nat.eqb (Py.enumerate labels)))
              (set_cluster_labels (Some labels) (self m))))
    /\ centers_loop (projections (self m)) (group_docs labels)
         (Py.dict_keys (group_docs labels)) [] = (centers, Py.Ok tt).
Proof.
  unfold cluster.
  destruct (Py.str_eqb algorithm (Py.lit "dbscan"));
    destruct (Py.str_eqb algorithm (Py.lit "hdbscan"));
    destruct (Py.str_eqb algorithm (Py.lit "kmeans"));
    destruct (Py.str_eqb algorithm (Py.lit "optics"));
    unfold bind, call, ret, raise; cbn [self calls drawn]; intros H;
    try discriminate.
  all: apply store_cluster_info_done in H; cbn [self projections] in H;
    eexists; exact H.
Qed.

(** A [fit] that completes leaves a fitted classifier, provided every
    label that [summarize] goes through is a label of the labeling (as
    with cluster labels numbered from 0 without a gap). *)
Lemma fit_fitted (m m' : machine) texts_arg b pa pargs ca cargs r :
  fit texts_arg b pa pargs ca cargs m = (m', Py.Ok r) ->
  (forall labels, cluster_labels (self m') = Some labels ->
     forall label, 0 <= label < Z.of_nat (Py.len_set labels) - 1 ->
       In label labels) ->
  fitted (self m').
Proof.
  intros F Hdense. unfold fit in F.
  rewrite bind_run in F. change (read m) with (m, Py.Ok (self m)) in F.
  cbv iota beta in F. rewrite bind_run in F.
  assert (Hreset :
            exists m0,
              when
                match b with
                | Some b0 => negb (b0 =? batch_size (self m))
                | None => false
                end
                (bind (assign (set_embeddings None))
                   (fun _ => assign (set_projections None))) m
              = (m0, Py.Ok tt)).
  { destruct (match b with Some _ => _ | None => _ end); eexists;
      reflexivity. }
  destruct Hreset as [m0 R0]. rewrite R0 in F. clear R0.
  do 6 (rewrite bind_run in F; cbn [ret assign self calls drawn] in F).
  match type of F with
  | context [bind _ _ ?m1] => generalize dependent m1
  end.
  intros m1 F. rewrite bind_run in F.
  destruct b as [b |]; [| discriminate].
  destruct (1 <? b).
  { cbn [when] in F. rewrite bind_run in F. cbn [read] in F.
    rewrite bind_run in F. unfold lift in F.
    rewrite batch_and_join_bound_method in F. discriminate. }
  cbn [when ret] in F. rewrite bind_run in F. cbn [read] in F.
  rewrite bind_run in F.
  assert (Hembed :
            exists m2 e,
              embeddings (self m2) = Some e
              /\ match embeddings (self m1) with
                 | Some _ => ret tt
                 | None =>
                     bind (embed texts_arg)
                       (fun e0 => assign (set_embeddings (Some e0)))
                 end m1 = (m2, Py.Ok tt)).
  { destruct (embeddings (self m1)) eqn:E.
    - exists m1. eexists. split; [exact E | reflexivity].
    - eexists. eexists. split; [| reflexivity]. reflexivity. }
  destruct Hembed as [m2 [e [E2 R2]]]. rewrite R2 in F. clear R2.
  rewrite bind_run in F. cbn [read] in F. rewrite bind_run in F.
  assert (Hindex :
            exists m3 index,
              embeddings (self m3) = Some e
              /\ faiss_index (self m3) = Some index
              /\ match faiss_index (self m2) with
                 | Some _ => ret tt
                 | None =>
                     bind (the (embeddings (self m2)))
                       (fun e0 =>
                          bind (build_faiss_index e0)
                            (fun index => assign (set_faiss_index (Some index))))
                 end m2 = (m3, Py.Ok tt)).
  { destruct (faiss_index (self m2)) eqn:I.
    - exists m2. eexists. split; [exact E2 |]. split; [exact I | reflexivity].
    - rewrite E2. eexists. eexists.
      split; [| split; [| reflexivity]]; [exact E2 | reflexivity]. }
  destruct Hindex as [m3 [index [E3 [I3 R3]]]]. rewrite R3 in F. clear R3.
  rewrite bind_run in F. cbn [read] in F. rewrite bind_run in F.
  match type of F with
  | match ?c m3 with _ => _ end = _ =>
      assert (Hproject :
                exists m4 r4,
                  c m3 = (m4, r4)
                  /\ (r4 = Py.Ok tt ->
                      exists p,
                        embeddings (self m4) = Some e
                        /\ faiss_index (self m4) = Some index
                        /\ projections (self m4) = Some p))
  end.
  { destruct (projections (self m3)) eqn:P.
    - exists m3, (Py.Ok tt). split; [reflexivity |]. intros _.
      eexists. repeat split; eassumption.
    - rewrite E3. unfold the, project, bind, read, assign.
      cbn [self calls drawn].
      destruct (Py.str_eqb _ (Py.lit "pca"));
        [| destruct (Py.str_eqb _ (Py.lit "umap"));
           [| destruct (Py.str_eqb _ (Py.lit "tsvd"))]];
        unfold call, ret, raise; cbn [self calls drawn];
        eexists; eexists; (split; [reflexivity |]);
        intros Hr; try discriminate;
        eexists; repeat split; cbn; eassumption. }
  destruct Hproject as [m4 [r4 [R4 H4]]]. rewrite R4 in F. clear R4.
  destruct r4 as [[] | e4]; [| discriminate].
  destruct (H4 eq_refl) as [p [E4 [I4 P4]]]. clear H4.
  rewrite bind_run in F. cbn [read] in F. rewrite bind_run in F.
  rewrite P4 in F. unfold the at 1 in F. cbn [ret] in F.
  rewrite bind_run in F.
  destruct (cluster p (clustering_algorithm (self m4))
              (clustering_args (self m4)) m4) as [m5 [[] | e5]] eqn:CL;
    [| discriminate].
  apply cluster_done in CL. destruct CL as [labels [centers [S5 L5]]].
  rewrite P4 in L5.
  rewrite bind_run in F. cbn [read] in F. rewrite bind_run in F.
  destruct (summary_create (self m5)).
  - rewrite bind_run in F.
    destruct (summarize (texts (self m5)) (cluster_labels (self m5)) m5)
      as [m6 [d | e6]] eqn:SU; [| discriminate].
    unfold bind, assign, read, ret in F. injection F as <- _.
    cbn [self] in *.
    assert (Hl : cluster_labels (self m5) = Some labels)
      by (rewrite S5; reflexivity).
    rewrite Hl in SU. unfold summarize in SU.
    pose proof (summarize_loop_spec _ _ _ _ SU) as [[[d6 S6'] _] _].
    assert (Hl' : cluster_labels
                    (set_cluster_summaries (Py.Val d) (self m6))
                  = Some labels)
      by (rewrite S6', S5; reflexivity).
    assert (S6 : self m6 = self m5).
    { eapply summarize_loop_self; [| | exact SU].
      - rewrite S5. reflexivity.
      - intros label Hr. apply range_In in Hr. apply group_docs_keys.
        exact (Hdense labels Hl' label Hr). }
    assert (Hk : int_keyed d).
    { eapply summarize_loop_int_keyed; [| exact SU].
      split; [repeat constructor; intros [] |].
      repeat constructor. now exists noise_label. }
    rewrite S6, S5. exists e, index, p, labels, centers. cbn.
    repeat (split; [first [assumption | reflexivity] |]). exact Hk.
  - unfold bind, assign, read, ret in F. injection F as <- _.
    cbn [self]. rewrite S5. exists e, index, p, labels, centers. cbn.
    repeat (split; [first [assumption | reflexivity] |]). exact I.
Qed.


(** ** Batches *)

Lemma join_cons (sep p : Py.str) (rest : list Py.str) :
  rest <> [] -> Py.join sep (p :: rest) = p ++ sep ++ Py.join sep rest.
Proof. destruct rest; [congruence | reflexivity]. Qed.

Lemma join_app (sep : Py.str) (a b : list Py.str) :
  a <> [] -> b <> [] ->
  Py.join sep (a ++ b) = Py.join sep a ++ sep ++ Py.join sep b.
Proof.
  induction a as [| x a IH]; intros Ha Hb; [congruence |].
  destruct a as [| y a].
  - cbn [app]. now apply join_cons.
  - change ((x :: y :: a) ++ b) with (x :: ((y :: a) ++ b)).
    rewrite join_cons by discriminate. rewrite IH by (discriminate || assumption).
    rewrite (@join_cons sep x (y :: a)) by discriminate.
    now rewrite <- !app_assoc.
Qed.

Lemma batches_nil (fuel n : nat) : batches fuel n [] = [].
Proof. destruct fuel; reflexivity. Qed.

Lemma batches_cons (fuel n : nat) (t : Py.str) (r : list Py.str) :
  batches (S fuel) n (t :: r)
  = Py.join [Py.nl] (firstn n (t :: r)) :: batches fuel n (skipn n (t :: r)).
Proof. reflexivity. Qed.

Lemma skipn_shorter {A} (n : nat) (a : A) (l : list A) :
  (0 < n)%nat -> (length (skipn n (a :: l)) <= length l)%nat.
Proof. intros H. rewrite length_skipn. cbn [length]. lia. Qed.

(** The batches joined are the texts joined. *)
Lemma batches_join (n : nat) : (0 < n)%nat -> forall fuel ts,
  (length ts <= fuel)%nat ->
  Py.join [Py.nl] (batches fuel n ts) = Py.join [Py.nl] ts.
Proof.
  intros Hn. induction fuel as [| f IH]; intros ts Hl.
  - destruct ts; [reflexivity | cbn in Hl; lia].
  - destruct ts as [| t r]; [reflexivity |].
    rewrite batches_cons.
    pose proof (skipn_shorter t r Hn) as Hs. cbn [length] in Hl.
    destruct (skipn n (t :: r)) as [| u v] eqn:S.
    + rewrite batches_nil.
      rewrite <- (firstn_skipn n (t :: r)) at 2. rewrite S.
      now rewrite app_nil_r.
    + assert (Hf : (length (u :: v) <= f)%nat) by lia.
      destruct f as [| f']; [cbn in Hf; lia |].
      rewrite join_cons by (rewrite batches_cons; discriminate).
      rewrite (IH (u :: v) Hf).
      rewrite <- (firstn_skipn n (t :: r)) at 2. rewrite S.
      rewrite join_app; [reflexivity | | discriminate].
      destruct n; [lia | discriminate].
Qed.

Lemma batches_length (n : nat) : (0 < n)%nat -> forall fuel ts,
  (length ts <= fuel)%nat ->
  length (batches fuel n ts) = ((length ts + n - 1) / n)%nat.
Proof.
  intros Hn. induction fuel as [| f IH]; intros ts Hl.
  - destruct ts; [| cbn in Hl; lia]. cbn [batches length].
    symmetry. apply Nat.div_small. lia.
  - destruct ts as [| t r].
    + cbn [batches length]. symmetry. apply Nat.div_small. lia.
    + rewrite batches_cons. cbn [length] in *.
      pose proof (skipn_shorter t r Hn) as Hs.
      rewrite IH by lia. rewrite length_skipn. cbn [length].
      destruct (Nat.le_gt_cases n (S (length r))) as [Hle | Hgt].
      * replace (S (length r) + n - 1)%nat
          with ((S (length r) - n + n - 1) + 1 * n)%nat by lia.
        rewrite Nat.div_add by lia. lia.
      * replace (S (length r) - n)%nat with 0%nat by lia.
        replace ((0 + n - 1) / n)%nat with 0%nat
          by (symmetry; apply Nat.div_small; lia).
        apply Nat.div_unique with (r := length r); lia.
Qed.

Lemma batches_nth (n : nat) : (0 < n)%nat -> forall fuel ts i,
  (length ts <= fuel)%nat ->
  (i < length (batches fuel n ts))%nat ->
  nth_error (batches fuel n ts) i
  = Some (Py.join [Py.nl] (firstn n (skipn (i * n) ts))).
Proof.
  intros Hn. induction fuel as [| f IH]; intros ts i Hl Hi.
  - destruct ts; cbn in *; lia.
  - destruct ts as [| t r]; [cbn in Hi; lia |].
    rewrite batches_cons in Hi |- *. cbn [length] in Hl, Hi.
    pose proof (skipn_shorter t r Hn) as Hs.
    destruct i as [| i]; [reflexivity |].
    cbn [nth_error]. rewrite IH; [| lia | lia].
    rewrite skipn_skipn.
    now replace (S i * n)%nat with (i * n + n)%nat by lia.
Qed.

(** Called as declared, with a list of texts and a positive size,
    [batch_and_join] loses no text and adds none: the batches joined with
    new lines are the texts joined with new lines. *)
Theorem batch_and_join_keeps_all_text (ts : list Py.str) (n : Z) :
  0 < n ->
  exists bs,
    batch_and_join (VList ts) (VInt n) = Py.Ok bs
    /\ Py.join [Py.nl] bs = Py.join [Py.nl] ts.
Proof.
  intros Hn. exists (batches (length ts) (Z.to_nat n) ts).
  split; [now apply batch_and_join_declared |].
  apply batches_join; lia.
Qed.

(** Called as declared, [batch_and_join] makes as many batches as the
    size goes into the number of texts, rounded up; batch [i] is the
    slice of the texts from [i * n] to [i * n + n], joined with new
    lines. *)
Theorem batch_and_join_batches (ts : list Py.str) (n : Z) :
  0 < n ->
  exists bs,
    batch_and_join (VList ts) (VInt n) = Py.Ok bs
    /\ length bs = ((length ts + Z.to_nat n - 1) / Z.to_nat n)%nat
    /\ forall i, (i < length bs)%nat ->
         nth_error bs i
         = Some (Py.join [Py.nl]
                   (firstn (Z.to_nat n) (skipn (i * Z.to_nat n) ts))).
Proof.
  intros Hn. exists (batches (length ts) (Z.to_nat n) ts).
  split; [now apply batch_and_join_declared |].
  split; [apply batches_length; lia |].
  intros i Hi. apply batches_nth; [lia | lia | exact Hi].
Qed.

(** ** The topics of a summary *)

Lemma before_not_In (c : ascii) (s : Py.str) : ~ In c (Wording.before c s).
Proof.
  induction s as [| x r IH]; cbn; [tauto |].
  destruct (Ascii.eqb x c) eqn:E; [tauto |].
  apply Ascii.eqb_neq in E. intros [H | H]; [congruence | contradiction].
Qed.

Lemma before_In (c x : ascii) (s : Py.str) :
  In x (Wording.before c s) -> In x s.
Proof.
  induction s as [| y r IH]; cbn; [tauto |].
  destruct (Ascii.eqb y c); cbn; [tauto |]. intros [H | H]; auto.
Qed.

Lemma lstrip_In (x : ascii) (s : Py.str) : In x (Py.lstrip s) -> In x s.
Proof.
  induction s as [| y r IH]; cbn; [tauto |].
  destruct (Py.isspace y); cbn; auto.
Qed.

Lemma strip_In (x : ascii) (s : Py.str) : In x (Py.strip s) -> In x s.
Proof.
  unfold Py.strip, Py.rstrip. intros H.
  apply in_rev in H. apply lstrip_In in H. apply in_rev in H.
  now apply lstrip_In in H.
Qed.

Lemma segments_In (c x : ascii) (s seg : Py.str) :
  In seg (Wording.segments c s) -> In x seg -> In x s.
Proof.
  revert seg. induction s as [| y r IH]; intros seg; cbn.
  - intros [<- | []] [].
  - destruct (Ascii.eqb y c).
    + intros [<- | H] Hx; [destruct Hx | right; eauto].
    + destruct (Wording.segments c r) as [| h t] eqn:S.
      * intros [<- | []] [-> | []]. now left.
      * intros [<- | H] Hx.
        -- destruct Hx as [-> | Hx]; [now left | right].
           apply (IH h); [now left | exact Hx].
        -- right. apply (IH seg); [now right | exact Hx].
Qed.

Lemma segments_no_sep (c : ascii) (s seg : Py.str) :
  In seg (Wording.segments c s) -> ~ In c seg.
Proof.
  revert seg. induction s as [| y r IH]; intros seg; cbn.
  - intros [<- | []] [].
  - destruct (Ascii.eqb y c) eqn:E.
    + intros [<- | H]; [intros [] | now apply IH].
    + apply Ascii.eqb_neq in E.
      destruct (Wording.segments c r) as [| h t] eqn:S.
      * intros [<- | []] [-> | []]. congruence.
      * intros [<- | H].
        -- intros [-> | Hx]; [congruence |].
           apply (IH h); [now left | exact Hx].
        -- apply IH. now right.
Qed.

Lemma segments_absent (c : ascii) (p : Py.str) :
  ~ In c p -> Wording.segments c p = [p].
Proof.
  induction p as [| y r IH]; cbn; [reflexivity |]. intros H.
  destruct (Ascii.eqb y c) eqn:E.
  - apply Ascii.eqb_eq in E. tauto.
  - rewrite IH by tauto. reflexivity.
Qed.

Lemma segments_app_sep (c : ascii) (p s : Py.str) :
  ~ In c p -> Wording.segments c (p ++ c :: s) = p :: Wording.segments c s.
Proof.
  induction p as [| y r IH]; cbn; intros H.
  - now rewrite Ascii.eqb_refl.
  - destruct (Ascii.eqb y c) eqn:E.
    + apply Ascii.eqb_eq in E. tauto.
    + rewrite IH by tauto. reflexivity.
Qed.

(** Pieces without the separator, joined and split again, are the
    pieces. *)
Lemma segments_join (c : ascii) (parts : list Py.str) :
  parts <> [] -> Forall (fun p => ~ In c p) parts ->
  Wording.segments c (Py.join [c] parts) = parts.
Proof.
  induction parts as [| p rest IH]; intros Hne Hall; [congruence |].
  inversion Hall as [| ? ? Hp Hrest]; subst.
  destruct rest as [| q rest].
  - now apply segments_absent.
  - rewrite join_cons by discriminate. cbn [app].
    rewrite segments_app_sep by exact Hp.
    rewrite IH; [reflexivity | discriminate | exact Hrest].
Qed.

Lemma join_In (x : ascii) (sep : Py.str) (parts : list Py.str) :
  In x (Py.join sep parts) ->
  In x sep \/ exists p, In p parts /\ In x p.
Proof.
  induction parts as [| p rest IH]; [intros [] |].
  destruct rest as [| q rest].
  - intros H. right. exists p. split; [now left | exact H].
  - rewrite join_cons by discriminate. rewrite !in_app_iff.
    intros [H | [H | H]].
    + right. exists p. split; [now left | exact H].
    + now left.
    + destruct (IH H) as [Hs | [p' [Hp' Hx]]]; [now left |].
      right. exists p'. split; [now right | exact Hx].
Qed.

(** The result in mode "multiple_topics". *)
Lemma multiple_topics_response (s : ClusterClassifier) (response : Py.str) :
  topic_mode s = Py.lit "multiple_topics" ->
  _postprocess_response s response
  = Py.Ok
      (Py.join [","%char]
         (filter (fun seg => negb (Wording.is_empty seg))
            (Wording.segments ","%char
               (Py.strip
                  (Wording.before "("%char
                     (Wording.before "."%char
                        (Wording.before Py.nl response))))))).
Proof.
  intros E. unfold _postprocess_response. rewrite E, str_eqb_refl.
  change (Py.lit ".") with ["."%char].
  change (Py.lit "(") with ["("%char].
  change (Py.lit ",") with [","%char].
  rewrite !split_single, !segments_first. cbn [Py.rbind].
  rewrite !split_single, !segments_first. cbn [Py.rbind].
  rewrite !split_single, !segments_first. cbn [Py.rbind].
  now rewrite split_single, nonempty_filter.
Qed.

(** In mode "multiple_topics" the summary always comes out, on one line,
    with no period and no opening parenthesis, and it holds no empty
    topic: it is empty, or splitting it at its commas gives topics none
    of which is empty. *)
Theorem postprocess_multiple_topics_clean (s : ClusterClassifier)
  (response : Py.str) :
  topic_mode s = Py.lit "multiple_topics" ->
  exists summary,
    _postprocess_response s response = Py.Ok summary
    /\ ~ In Py.nl summary
    /\ ~ In "."%char summary
    /\ ~ In "("%char summary
    /\ (summary = []
        \/ Forall (fun topic => topic <> [])
             (Py.split (Py.lit ",") summary)).
Proof.
  intros E. eexists. split; [now apply multiple_topics_response |].
  set (truncated :=
         Wording.before "("%char
           (Wording.before "."%char (Wording.before Py.nl response))).
  set (topics :=
         filter (fun seg => negb (Wording.is_empty seg))
           (Wording.segments ","%char (Py.strip truncated))).
  assert (Hchars : forall x, In x (Py.join [","%char] topics) ->
                     x = ","%char \/ In x truncated).
  { intros x H. apply join_In in H.
    destruct H as [[<- | []] | [p [Hp Hx]]]; [now left | right].
    apply filter_In in Hp. destruct Hp as [Hp _].
    apply strip_In. exact (@segments_In _ _ _ _ Hp Hx). }
  split; [| split; [| split]].
  - intros H. apply Hchars in H. destruct H as [H | H]; [discriminate |].
    do 2 apply before_In in H. exact (@before_not_In _ _ H).
  - intros H. apply Hchars in H. destruct H as [H | H]; [discriminate |].
    apply before_In in H. exact (@before_not_In _ _ H).
  - intros H. apply Hchars in H. destruct H as [H | H]; [discriminate |].
    exact (@before_not_In _ _ H).
  - destruct topics as [| p rest] eqn:T; [now left | right].
    change (Py.lit ",") with [","%char]. rewrite split_single.
    rewrite segments_join; [| discriminate |].
    + rewrite <- T. apply Forall_forall. intros topic Ht.
      apply filter_In in Ht. destruct Ht as [_ Ht].
      destruct topic; [discriminate | discriminate].
    + rewrite <- T. apply Forall_forall. intros topic Ht.
      apply filter_In in Ht. destruct Ht as [Ht _].
      exact (@segments_no_sep _ _ _ Ht).
Qed.

(** *** Mode "single_topic" *)

Lemma startswith_app (p s : Py.str) :
  Py.startswith p s = true -> exists post, s = p ++ post.
Proof.
  revert s. induction p as [| a p IH]; intros s H.
  - now exists s.
  - destruct s as [| b s]; [discriminate |]. cbn in H.
    apply andb_true_iff in H. destruct H as [Hab H].
    apply Ascii.eqb_eq in Hab. subst b.
    destruct (IH s H) as [post ->]. now exists post.
Qed.

Lemma split_scan_nonempty (sep s : Py.str) : forall skip acc,
  Py.split_scan sep s skip acc <> [].
Proof.
  induction s as [| c r IH]; intros skip acc; cbn; [discriminate |].
  destruct skip; [| apply IH].
  destruct (Py.startswith sep (c :: r)); [discriminate | apply IH].
Qed.

(** The first piece of a split is always there. *)
Lemma split_first (sep s : Py.str) :
  exists h, Py.item (Py.split sep s) 0 = Py.Ok h.
Proof.
  unfold Py.split. pose proof (split_scan_nonempty sep s O []) as H.
  destruct (Py.split_scan sep s O []) as [| h t]; [congruence |].
  now exists h.
Qed.

(** A string without the separator is split into itself. *)
Lemma split_scan_absent (sep s : Py.str) : forall acc,
  ~ occurs sep s -> Py.split_scan sep s O acc = [rev acc ++ s].
Proof.
  induction s as [| c r IH]; intros acc H; cbn [Py.split_scan].
  - now rewrite app_nil_r.
  - destruct (Py.startswith sep (c :: r)) eqn:E.
    + exfalso. apply H. apply startswith_app in E. destruct E as [post E].
      exists [], post. exact E.
    + rewrite IH.
      * cbn [rev]. now rewrite <- app_assoc.
      * intros [pre [post E']]. apply H. exists (c :: pre), post.
        cbn. now rewrite E'.
Qed.

Lemma item_raises {A} (l : list A) (i : nat) (e : Py.exn) :
  Py.item l i = Py.Raise e -> e = Py.IndexError.
Proof. unfold Py.item. destruct (nth_error l i); congruence. Qed.

Lemma marker_absent (marker line : Py.str) :
  ~ occurs marker line ->
  Py.item (Py.split marker line) 1 = Py.Raise Py.IndexError.
Proof.
  intros H. unfold Py.split. now rewrite split_scan_absent.
Qed.

Lemma startswith_prefix (p s : Py.str) : Py.startswith p (p ++ s) = true.
Proof.
  induction p as [| a p IH]; [reflexivity |]. cbn.
  now rewrite Ascii.eqb_refl, IH.
Qed.

(** The characters of a separator that was matched are passed over. *)
Lemma split_scan_skip (sep x post : Py.str) : forall acc,
  Py.split_scan sep (x ++ post) (length x) acc = Py.split_scan sep post O acc.
Proof.
  induction x as [| c x IH]; intros acc; [reflexivity |]. cbn. apply IH.
Qed.

(** A split cuts at the first occurrence of the separator. *)
Lemma split_scan_first_cut (sep s pre post : Py.str) :
  sep <> [] ->
  first_cut sep s pre post ->
  forall acc,
    Py.split_scan sep s O acc
    = (rev acc ++ pre) :: Py.split_scan sep post O [].
Proof.
  intros Hsep. revert s. induction pre as [| c pre IH]; intros s [-> Hmin] acc.
  - destruct sep as [| a sep]; [congruence |].
    cbn [app Py.split_scan]. rewrite app_nil_r.
    change (a :: sep ++ post) with ((a :: sep) ++ post).
    rewrite startswith_prefix. cbn [length Nat.pred].
    now rewrite split_scan_skip.
  - cbn [app Py.split_scan].
    destruct (Py.startswith sep (c :: pre ++ sep ++ post)) eqn:E.
    + apply startswith_app in E. destruct E as [post' E].
      specialize (Hmin [] post' E). cbn in Hmin. lia.
    + rewrite (IH (pre ++ sep ++ post)).
      * cbn [rev]. now rewrite <- app_assoc.
      * split; [reflexivity |]. intros pre' post' E'.
        specialize (Hmin (c :: pre') post').
        cbn [app length] in Hmin. rewrite E' in Hmin.
        specialize (Hmin eq_refl). lia.
Qed.

(** The second piece of a split is the field after the separator. *)
Lemma split_field (marker line field : Py.str) :
  marker <> [] ->
  field_after marker line field ->
  Py.item (Py.split marker line) 1 = Py.Ok field.
Proof.
  intros Hm [pre [post [Hcut Hfield]]]. unfold Py.split.
  rewrite (split_scan_first_cut Hm Hcut). cbn [rev app Py.item nth_error].
  destruct Hfield as [[Habsent ->] | [rest Hcut']].
  - now rewrite split_scan_absent.
  - now rewrite (split_scan_first_cut Hm Hcut').
Qed.

(** Occurrences can be looked for position by position. *)
Lemma occurs_startswith (sep pre post : Py.str) :
  Py.startswith sep (skipn (length pre) (pre ++ sep ++ post)) = true.
Proof.
  rewrite skipn_app, skipn_all, Nat.sub_diag. cbn [app skipn].
  apply startswith_prefix.
Qed.

Lemma first_cut_check (sep pre post : Py.str) :
  forallb
    (fun i => negb (Py.startswith sep (skipn i (pre ++ sep ++ post))))
    (seq 0 (length pre)) = true ->
  first_cut sep (pre ++ sep ++ post) pre post.
Proof.
  intros H. split; [reflexivity |]. intros pre' post' E.
  destruct (le_lt_dec (length pre) (length pre')) as [Hle | Hlt];
    [exact Hle | exfalso].
  rewrite forallb_forall in H. specialize (H (length pre')).
  rewrite E, occurs_startswith in H.
  assert (false = true) by (apply H, in_seq; lia). discriminate.
Qed.

Lemma absent_check (sep s : Py.str) :
  forallb (fun i => negb (Py.startswith sep (skipn i s)))
    (seq 0 (S (length s))) = true ->
  ~ occurs sep s.
Proof.
  intros H [pre [post E]]. rewrite forallb_forall in H.
  specialize (H (length pre)). rewrite E, occurs_startswith in H.
  assert (false = true).
  { apply H, in_seq. rewrite length_app. lia. }
  discriminate.
Qed.

(** The topic of a line: [None] without the marker "Topic:", and
    otherwise the field after the marker, cut at the first parenthesis
    and at the first comma. *)
Lemma topic_field (line : Py.str) :
  exists topic,
    except_IndexError
      (let? a := Py.item (Py.split (Py.lit "Topic:") line) 1 in
       let? b := Py.item (Py.split (Py.lit "(") a) 0 in
       let? c := Py.item (Py.split (Py.lit ",") b) 0 in
       Py.Ok (Py.strip c)) = Py.Ok topic
    /\ (~ occurs (Py.lit "Topic:") line -> topic = None)
    /\ (forall field,
          field_after (Py.lit "Topic:") line field ->
          topic
          = Some (Py.strip
                    (Wording.before ","%char
                       (Wording.before "("%char field))))
    /\ ~ In "("%char (show_optional topic)
    /\ ~ In ","%char (show_optional topic).
Proof.
  destruct (Py.item (Py.split (Py.lit "Topic:") line) 1) as [a | e] eqn:A.
  - cbn [Py.rbind].
    change (Py.lit "(") with ["("%char]. change (Py.lit ",") with [","%char].
    rewrite split_single, segments_first. cbn [Py.rbind].
    rewrite split_single, segments_first. cbn [Py.rbind].
    eexists. split; [reflexivity |].
    split; [| split; [| split]]; cbn [except_IndexError show_optional].
    + intros H. rewrite (marker_absent H) in A. discriminate.
    + intros field H. apply split_field in H; [| discriminate].
      rewrite H in A. now injection A as ->.
    + intros H. apply strip_In, before_In in H.
      exact (@before_not_In _ _ H).
    + intros H. apply strip_In in H. exact (@before_not_In _ _ H).
  - pose proof A as A'. apply item_raises in A' as ->. exists None.
    split; [reflexivity |]. split; [reflexivity |].
    split; [| split; cbn; intuition discriminate].
    intros field H. apply split_field in H; [| discriminate]. congruence.
Qed.

(** The score of a line: [None] without the marker "Educational value
    rating:", and otherwise the field after the marker, cut at the first
    period. *)
Lemma score_field (line : Py.str) :
  exists score,
    except_IndexError
      (let? a :=
         Py.item (Py.split (Py.lit "Educational value rating:") line) 1 in
       let? b := Py.item (Py.split (Py.lit ".") (Py.strip a)) 0 in
       Py.Ok (Py.strip b)) = Py.Ok score
    /\ (~ occurs (Py.lit "Educational value rating:") line -> score = None)
    /\ (forall field,
          field_after (Py.lit "Educational value rating:") line field ->
          score
          = Some (Py.strip (Wording.before "."%char (Py.strip field))))
    /\ ~ In "."%char (show_optional score).
Proof.
  destruct (Py.item (Py.split (Py.lit "Educational value rating:") line) 1)
    as [a | e] eqn:A.
  - cbn [Py.rbind]. change (Py.lit ".") with ["."%char].
    rewrite split_single, segments_first. cbn [Py.rbind].
    eexists. split; [reflexivity |].
    split; [| split]; cbn [except_IndexError show_optional].
    + intros H. rewrite (marker_absent H) in A. discriminate.
    + intros field H. apply split_field in H; [| discriminate].
      rewrite H in A. now injection A as ->.
    + intros H. apply strip_In in H. exact (@before_not_In _ _ H).
  - pose proof A as A'. apply item_raises in A' as ->. exists None.
    split; [reflexivity |]. split; [reflexivity |].
    split; [| cbn; intuition discriminate].
    intros field H. apply split_field in H; [| discriminate]. congruence.
Qed.

(** In mode "single_topic" the method never raises, whatever the
    response: it returns a topic and a score around ". Educational
    score: ", both read from the first line of the response.  The topic
    is "None" when the line has no "Topic:"; otherwise it is the field
    after the first "Topic:", cut at its first parenthesis, then at its
    first comma, and stripped.  The score is "None" when the line has no
    "Educational value rating:"; otherwise it is the field after the
    first such marker, stripped, cut at its first period, and stripped.
    So the topic holds no comma and no opening parenthesis, the score no
    period. *)
Theorem postprocess_single_topic_total (s : ClusterClassifier)
  (response : Py.str) :
  topic_mode s = Py.lit "single_topic" ->
  exists line topic score,
    Py.item (Py.split [Py.nl] response) 0 = Py.Ok line
    /\ _postprocess_response s response
       = Py.Ok (topic ++ Py.lit ". Educational score: " ++ score)
    /\ (~ occurs (Py.lit "Topic:") line -> topic = Py.lit "None")
    /\ (~ occurs (Py.lit "Educational value rating:") line ->
        score = Py.lit "None")
    /\ ~ In "("%char topic
    /\ ~ In ","%char topic
    /\ ~ In "."%char score
    /\ line = Wording.first_line response
    /\ (forall field,
          field_after (Py.lit "Topic:") line field ->
          topic
          = Py.strip
              (Wording.before ","%char (Wording.before "("%char field)))
    /\ (forall field,
          field_after (Py.lit "Educational value rating:") line field ->
          score = Py.strip (Wording.before "."%char (Py.strip field))).
Proof.
  intros E. unfold _postprocess_response. rewrite E.
  replace (Py.str_eqb (Py.lit "single_topic") (Py.lit "multiple_topics"))
    with false by reflexivity.
  rewrite str_eqb_refl.
  rewrite split_single, segments_first. cbn [Py.rbind].
  fold (Wording.first_line response).
  set (line := Wording.first_line response).
  destruct (topic_field line)
    as [topic [-> [Htopic [Htfield [Hparen Hcomma]]]]].
  cbn [Py.rbind].
  destruct (score_field line) as [score [-> [Hscore [Hsfield Hperiod]]]].
  cbn [Py.rbind].
  exists line, (show_optional topic), (show_optional score).
  split; [reflexivity |]. split; [reflexivity |].
  split; [intros H; now rewrite (Htopic H) |].
  split; [intros H; now rewrite (Hscore H) |].
  split; [exact Hparen |]. split; [exact Hcomma |].
  split; [exact Hperiod |]. split; [reflexivity |].
  split.
  - intros field H. now rewrite (Htfield field H).
  - intros field H. now rewrite (Hsfield field H).
Qed.

(** ** Algorithm names that [__init__] would refuse *)

Lemma unknown_projection (a : Py.str) :
  ~ In a projection_algorithms ->
  Py.str_eqb a (Py.lit "pca") = false
  /\ Py.str_eqb a (Py.lit "umap") = false
  /\ Py.str_eqb a (Py.lit "tsvd") = false.
Proof.
  intros H. repeat split; apply str_eqb_neq; intros ->; apply H; cbn; tauto.
Qed.

Lemma unknown_clustering (a : Py.str) :
  ~ In a clustering_algorithms ->
  Py.str_eqb a (Py.lit "dbscan") = false
  /\ Py.str_eqb a (Py.lit "hdbscan") = false
  /\ Py.str_eqb a (Py.lit "kmeans") = false
  /\ Py.str_eqb a (Py.lit "optics") = false.
Proof.
  intros H. repeat split; apply str_eqb_neq; intros ->; apply H; cbn; tauto.
Qed.

(** [project] does not refuse a name that is none of pca, tsvd, umap: it
    runs no projection and returns [None], having stored the name, when
    it is not empty, as the projection algorithm of the classifier. *)
Theorem project_unknown_algorithm (e : list (list Float))
  (algorithm : Py.str) (args : Args) (m : machine) :
  ~ In algorithm projection_algorithms ->
  let m' := fst (project e algorithm args m) in
  snd (project e algorithm args m) = Py.Ok None
  /\ calls m' = calls m
  /\ projection_algorithm (self m')
     = match algorithm with
       | [] => projection_algorithm (self m)
       | _ :: _ => algorithm
       end.
Proof.
  intros H. destruct (unknown_projection H) as [P [U T]].
  unfold project, bind, read, assign. cbn [self calls drawn].
  rewrite P, U, T. cbn.
  repeat split. now destruct algorithm.
Qed.

(** [cluster] runs one algorithm, the one named, when the name is one of
    dbscan, hdbscan, kmeans, optics, and stores its labels; for another
    name it runs none, raises [UnboundLocalError] and leaves the
    classifier as it was. *)
Theorem cluster_dispatch (p : list (list Float)) (algorithm : Py.str)
  (args : Args) (m : machine) :
  let m' := fst (cluster p algorithm args m) in
  (In algorithm clustering_algorithms ->
   calls m' = calls m ++ [Cluster algorithm]
   /\ cluster_labels (self m')
      = Some
          (if Py.str_eqb algorithm (Py.lit "dbscan") then DBSCAN_fit args p
           else if Py.str_eqb algorithm (Py.lit "hdbscan")
                then HDBSCAN_fit args p
                else if Py.str_eqb algorithm (Py.lit "kmeans")
                     then KMeans_fit args p
                     else OPTICS_fit args p))
  /\ (~ In algorithm clustering_algorithms ->
      cluster p algorithm args m = (m, Py.Raise Py.UnboundLocalError)).
Proof.
  cbn zeta. split.
  - intros [<- | [<- | [<- | [<- | []]]]]; split; vm_compute; reflexivity.
  - intros H. destruct (unknown_clustering H) as [D [Hd [K O]]].
    unfold cluster, bind, ret, raise. now rewrite D, Hd, K, O.
Qed.

(** ** The sizes and the centers of the clusters *)

Lemma group_from_length (l : list Z) : forall k d label,
  length (docs_of (fold_left file_doc (Py.enumerate_from k l) d) label)
  = (length (docs_of d label) + count_occ Z.eq_dec l label)%nat.
Proof.
  induction l as [| a l IH]; intros k d label; cbn [Py.enumerate_from fold_left].
  - cbn. lia.
  - rewrite IH. unfold file_doc. rewrite docs_of_set. cbn [fst snd count_occ].
    destruct (Z.eq_dec a label) as [-> | N].
    + rewrite Z.eqb_refl, length_app. cbn. lia.
    + destruct (label =? a) eqn:E; [apply Z.eqb_eq in E; congruence | lia].
Qed.

Lemma sorted_snoc (l : list nat) (k : nat) :
  StronglySorted lt l -> Forall (fun i => (i < k)%nat) l ->
  StronglySorted lt (l ++ [k]).
Proof.
  induction 1 as [| a l Hl IH Ha]; intros Hk; cbn.
  - repeat constructor.
  - inversion Hk as [| ? ? Hak Hlk]; subst.
    constructor; [now apply IH |].
    apply Forall_app. split; [exact Ha | now repeat constructor].
Qed.

Lemma group_from_sorted (l : list Z) : forall k d,
  (forall label, StronglySorted lt (docs_of d label)) ->
  (forall label, Forall (fun i => (i < k)%nat) (docs_of d label)) ->
  forall label,
    StronglySorted lt
      (docs_of (fold_left file_doc (Py.enumerate_from k l) d) label).
Proof.
  induction l as [| a l IH]; intros k d Hs Hk label;
    cbn [Py.enumerate_from fold_left]; [apply Hs |].
  apply IH with (k := S k); unfold file_doc; cbn [fst snd];
    intros label0; rewrite docs_of_set; destruct (label0 =? a).
  - now apply sorted_snoc.
  - apply Hs.
  - apply Forall_app. split; [| repeat constructor].
    eapply Forall_impl; [| apply Hk]. cbn. intros; lia.
  - eapply Forall_impl; [| apply Hk]. cbn. intros; lia.
Qed.

(** [store_cluster_info] lists under each label as many documents as
    the labeling gives that label, in increasing order of position. *)
Theorem label2docs_cluster_sizes (labels : list Z) (m : machine) :
  exists docs,
    label2docs (self (fst (store_cluster_info labels m))) = Some docs
    /\ forall label,
         length (docs_of docs label) = count_occ Z.eq_dec labels label
         /\ StronglySorted lt (docs_of docs label).
Proof.
  exists (group_docs labels). split.
  - unfold store_cluster_info, bind, assign.
    match goal with
    | |- context [index_clusters ?m1] =>
        destruct (@index_clusters_state m1 labels eq_refl) as [S _]
    end.
    cbn zeta in S. rewrite S. reflexivity.
  - intros label. unfold group_docs, Py.enumerate. split.
    + rewrite group_from_length. reflexivity.
    + apply group_from_sorted; intros l; cbn; constructor.
Qed.

Lemma coordinates_ok (p : list (list Float)) (col : nat) (docs : list nat) :
  (col < 2)%nat ->
  Forall (fun row => (2 <= length row)%nat) p ->
  Forall (fun doc => (doc < length p)%nat) docs ->
  exists xs,
    Py.map_r (fun doc => projections_item (Some p) doc col) docs = Py.Ok xs
    /\ Forall2
         (fun doc x =>
            exists row, nth_error p doc = Some row /\ nth_error row col = Some x)
         docs xs.
Proof.
  intros Hcol Hrows Hdocs. apply map_r_Forall2. intros doc Hdoc.
  rewrite Forall_forall in Hdocs. specialize (Hdocs doc Hdoc).
  destruct (nth_error p doc) as [row |] eqn:R;
    [| apply nth_error_None in R; lia].
  rewrite Forall_forall in Hrows.
  specialize (Hrows row (nth_error_In _ _ R)).
  destruct (nth_error row col) as [x |] eqn:C;
    [| apply nth_error_None in C; lia].
  exists x. split; [| now exists row].
  unfold projections_item, Py.item. rewrite R. cbn [Py.rbind]. now rewrite C.
Qed.

(** The loop over the labels, with a row of two coordinates for every
    document: a center under every label of the loop, the other entries
    as they were. *)
Lemma centers_loop_ok (p : list (list Float)) (d : list (Z * list nat))
  (ls : list Z) :
  Forall (fun row => (2 <= length row)%nat) p ->
  (forall label, In label ls ->
     Forall (fun doc => (doc < length p)%nat) (docs_of d label)) ->
  forall acc,
  exists centers,
    centers_loop (Some p) d ls acc = (centers, Py.Ok tt)
    /\ (NoDup (Py.dict_keys acc ++ ls) ->
        Py.dict_keys centers = Py.dict_keys acc ++ ls)
    /\ (forall label, ~ In label ls ->
          Py.dict_get Z.eqb centers label = Py.dict_get Z.eqb acc label)
    /\ forall label, In label ls ->
         exists xs ys,
           Forall2
             (fun doc x =>
                exists row,
                  nth_error p doc = Some row /\ nth_error row 0 = Some x)
             (docs_of d label) xs
           /\ Forall2
                (fun doc y =>
                   exists row,
                     nth_error p doc = Some row /\ nth_error row 1 = Some y)
                (docs_of d label) ys
           /\ Py.dict_get Z.eqb centers label = Some (np_mean xs, np_mean ys).
Proof.
  intros Hrows. induction ls as [| a ls IH]; intros Hdocs acc.
  - exists acc. split; [reflexivity |].
    split; [intros _; now rewrite app_nil_r |].
    split; [reflexivity | intros label []].
  - cbn [centers_loop].
    destruct (@coordinates_ok p 0 (docs_of d a)) as [xs [-> Hxs]];
      [lia | exact Hrows | apply Hdocs; now left |].
    destruct (@coordinates_ok p 1 (docs_of d a)) as [ys [-> Hys]];
      [lia | exact Hrows | apply Hdocs; now left |].
    cbn [Py.rbind].
    destruct (IH (fun label H => Hdocs label (or_intror H))
                (Py.dict_set Z.eqb acc a (np_mean xs, np_mean ys)))
      as [centers [-> [Hkeys [Hother Hin]]]].
    exists centers. split; [reflexivity |].
    split; [| split].
    + intros Hnd. rewrite Hkeys.
      * rewrite (dict_keys_set Z.eqb).
        destruct (Py.dict_get Z.eqb acc a) eqn:G.
        -- exfalso. apply NoDup_remove_2 in Hnd. apply Hnd.
           apply in_or_app. left.
           apply (dict_get_keys Z.eqb Z.eqb_eq). congruence.
        -- now rewrite <- app_assoc.
      * rewrite (dict_keys_set Z.eqb).
        destruct (Py.dict_get Z.eqb acc a) eqn:G.
        -- exfalso. apply NoDup_remove_2 in Hnd. apply Hnd.
           apply in_or_app. left.
           apply (dict_get_keys Z.eqb Z.eqb_eq). congruence.
        -- now rewrite <- app_assoc.
    + intros label Hn. rewrite Hother by (intros H; apply Hn; now right).
      apply (dict_get_set_neq Z.eqb Z.eqb_eq). intros ->. apply Hn. now left.
    + intros label [<- | Hl]; [| now apply Hin].
      destruct (in_dec Z.eq_dec a ls) as [Hal | Hal]; [now apply Hin |].
      exists xs, ys. split; [exact Hxs |]. split; [exact Hys |].
      rewrite Hother by exact Hal.
      apply (dict_get_set_eq Z.eqb Z.eqb_eq).
Qed.

(** With a row of at least two projections for every document,
    [store_cluster_info] succeeds and gives every label of the labeling
    one center, under the keys of [label2docs] and in their order: the
    mean of the first coordinates and the mean of the second coordinates
    of the documents of the label. *)
Theorem store_cluster_info_centers (labels : list Z) (m : machine)
  (p : list (list Float)) :
  projections (self m) = Some p ->
  (length labels <= length p)%nat ->
  Forall (fun row => (2 <= length row)%nat) p ->
  let m' := fst (store_cluster_info labels m) in
  snd (store_cluster_info labels m) = Py.Ok tt
  /\ exists centers,
       cluster_centers (self m') = Some centers
       /\ Py.dict_keys centers = Py.dict_keys (group_docs labels)
       /\ forall label, In label labels ->
            exists xs ys,
              Forall2
                (fun doc x =>
                   exists row,
                     nth_error p doc = Some row /\ nth_error row 0 = Some x)
                (docs_of (group_docs labels) label) xs
              /\ Forall2
                   (fun doc y =>
                      exists row,
                        nth_error p doc = Some row
                        /\ nth_error row 1 = Some y)
                   (docs_of (group_docs labels) label) ys
              /\ Py.dict_get Z.eqb centers label
                 = Some (np_mean xs, np_mean ys).
Proof.
  intros Hp Hlen Hrows. cbn zeta.
  destruct (@centers_loop_ok p (group_docs labels)
              (Py.dict_keys (group_docs labels)) Hrows) with (acc := @nil (Z * (Float * Float)))
    as [centers [Hloop [Hkeys [_ Hin]]]].
  { intros label _. apply Forall_forall. intros doc Hdoc.
    apply group_docs_In in Hdoc.
    assert (doc < length labels)%nat
      by (apply nth_error_Some; congruence).
    lia. }
  unfold store_cluster_info, bind, assign.
  match goal with
  | |- context [index_clusters ?m1] =>
      destruct (@index_clusters_state m1 labels eq_refl) as [S [_ [_ R]]]
  end.
  cbn zeta in S, R. cbn [self projections set_cluster_labels] in S, R.
  rewrite Hp in S, R. rewrite Hloop in S, R. cbn [fst snd] in S, R.
  rewrite R, S. split; [reflexivity |].
  exists centers. split; [reflexivity |].
  split; [apply Hkeys; apply group_docs_keys_NoDup |].
  intros label Hl. apply Hin. now apply group_docs_keys.
Qed.

(** ** The labels that [summarize] goes through *)

Lemma framed_n_examples (s s' : ClusterClassifier) :
  framed s s' -> summary_n_examples s' = summary_n_examples s.
Proof. intros [[d ->] _]. reflexivity. Qed.

Lemma filled_docs (s : ClusterClassifier) (texts : option (list Py.str))
  (docs ids : list nat) (chunks : list Py.str) (request : Py.str) :
  0 < summary_n_examples s ->
  filled s texts docs ids chunks request -> docs <> [].
Proof.
  intros Hn [Hlen [Hin _]] ->.
  destruct ids as [| id ids]; [cbn in Hlen; lia |].
  inversion Hin as [| ? ? [] _].
Qed.

Lemma summarize_loop_documents (texts : option (list Py.str)) (l : list Z) :
  forall cs m m' d,
  0 < summary_n_examples (self m) ->
  fold_m l (summarize_label texts) cs m = (m', Py.Ok d) ->
  forall label, In label l -> docs_at (self m) label <> [].
Proof.
  induction l as [| a l IH]; intros cs m m' d Hn H label Hl;
    [destruct Hl |].
  cbn [fold_m] in H. rewrite bind_run in H.
  destruct (summarize_label texts cs a m) as [m1 r1] eqn:E1.
  apply summarize_label_spec in E1.
  destruct E1 as [F1 [[_ [e ->]] | [request [_ [[ids [chunks P1]] R1]]]]];
    [discriminate |].
  destruct R1 as [[e ->] | [summary ->]]; [discriminate |].
  destruct Hl as [<- | Hl].
  - exact (filled_docs Hn P1).
  - destruct F1 as [F1 D1]. rewrite <- D1.
    apply (IH _ _ _ _) with (label := label) in H; [exact H | | exact Hl].
    rewrite (framed_n_examples (conj F1 D1)). exact Hn.
Qed.

(** When examples are asked for, [summarize] completes only if every
    label from 0 to the number of distinct labels less two has a
    document filed under it. *)
Theorem summarize_needs_documents (m : machine)
  (texts_arg : option (list Py.str)) (labels : list Z)
  (d : list (Py.key * Py.str)) :
  0 < summary_n_examples (self m) ->
  snd (summarize texts_arg (Some labels) m) = Py.Ok d ->
  forall label, 0 <= label < Z.of_nat (Py.len_set labels) - 1 ->
    docs_at (self m) label <> [].
Proof.
  intros Hn H label Hl. unfold summarize in H.
  destruct (fold_m _ _ _ m) as [m' r] eqn:E. cbn [snd] in H. subst r.
  eapply summarize_loop_documents; [exact Hn | exact E |].
  now apply range_In.
Qed.

(** A labeling with two distinct labels or more, and no document filed
    under label 0: [summarize] raises [ValueError] at its first label,
    before any request, and leaves an empty list filed under label 0. *)
Theorem summarize_files_label_without_documents (m : machine)
  (texts_arg : option (list Py.str)) (labels : list Z)
  (docs : list (Z * list nat)) :
  label2docs (self m) = Some docs ->
  Py.dict_get Z.eqb docs 0 = None ->
  (2 <= Py.len_set labels)%nat ->
  0 < summary_n_examples (self m) ->
  let m' := fst (summarize texts_arg (Some labels) m) in
  snd (summarize texts_arg (Some labels) m) = Py.Raise Py.ValueError
  /\ calls m' = calls m
  /\ label2docs (self m') = Some (docs ++ [(0, [])]).
Proof.
  intros Hd Hg Hk Hn. cbn zeta.
  assert (E : forall cs,
            summarize_label texts_arg cs 0 m
            = ({| self := set_label2docs (Some (Py.dict_set Z.eqb docs 0 []))
                            (self m);
                  calls := calls m; drawn := drawn m |},
               Py.Raise Py.ValueError)).
  { intros cs. unfold summarize_label.
    rewrite bind_run. cbn [read]. rewrite bind_run.
    unfold label2docs_getitem at 1. rewrite bind_run. cbn [read].
    rewrite Hd, Hg. rewrite bind_run. cbn [assign ret self calls drawn].
    rewrite bind_run. unfold random_choice.
    destruct (summary_n_examples (self m) <? 0) eqn:N;
      [apply Z.ltb_lt in N; lia |].
    apply Z.ltb_lt in Hn. cbn [length Nat.eqb andb]. rewrite Hn.
    reflexivity. }
  unfold summarize, Py.range.
  replace (Z.to_nat (Z.of_nat (Py.len_set labels) - 1))
    with (S (Py.len_set labels - 2)) by lia.
  cbn [seq map fold_m]. change (Z.of_nat 0) with 0.
  rewrite bind_run, E. cbn [fst snd self calls label2docs set_label2docs].
  split; [reflexivity |]. split; [reflexivity |].
  f_equal. apply (dict_set_fresh Z.eqb Z.eqb_eq).
  now apply (dict_get_not_keys Z.eqb Z.eqb_eq).
Qed.

Lemma range_NoDup (n : Z) : NoDup (Py.range n).
Proof.
  unfold Py.range. apply NoDup_map_NoDup_ForallPairs; [| apply seq_NoDup].
  intros a b _ _ H. lia.
Qed.

Lemma summarize_loop_key_order (texts : option (list Py.str)) (l : list Z) :
  forall cs m m' d,
  NoDup l ->
  (forall label, In label l -> ~ In (Py.KInt label) (Py.dict_keys cs)) ->
  fold_m l (summarize_label texts) cs m = (m', Py.Ok d) ->
  Py.dict_keys d = Py.dict_keys cs ++ map Py.KInt l.
Proof.
  induction l as [| a l IH]; intros cs m m' d Hnd Hfresh H; cbn [fold_m] in H.
  - injection H as _ <-. cbn. now rewrite app_nil_r.
  - rewrite bind_run in H.
    destruct (summarize_label texts cs a m) as [m1 r1] eqn:E1.
    apply summarize_label_spec in E1.
    destruct E1 as [_ [[_ [e ->]] | [request [_ [_ R1]]]]]; [discriminate |].
    destruct R1 as [[e ->] | [summary ->]]; [discriminate |].
    inversion Hnd as [| ? ? Ha Hl]; subst.
    apply IH in H; [| exact Hl |].
    + rewrite H, (dict_keys_set Py.key_eqb).
      assert (G : Py.dict_get Py.key_eqb cs (Py.KInt a) = None).
      { apply (dict_get_not_keys Py.key_eqb key_eqb_eq).
        apply Hfresh. now left. }
      rewrite G, <- app_assoc. reflexivity.
    + intros label Hlabel. rewrite (dict_keys_set Py.key_eqb).
      destruct (Py.dict_get Py.key_eqb cs (Py.KInt a)).
      * apply Hfresh. now right.
      * rewrite in_app_iff. intros [Hin | [[= ->] | []]].
        -- apply (Hfresh label); [now right | exact Hin].
        -- contradiction.
Qed.

(** A call of [summarize] that completes has made one request for each
    of the labels 0, 1, ... up to the number of distinct labels less
    two, and returns the summaries under the keys -1, 0, 1, ... in that
    order. *)
Theorem summarize_keys_and_requests (m : machine)
  (texts_arg : option (list Py.str)) (labels : list Z)
  (d : list (Py.key * Py.str)) :
  snd (summarize texts_arg (Some labels) m) = Py.Ok d ->
  Py.dict_keys d
  = map Py.KInt
      (noise_label :: Py.range (Z.of_nat (Py.len_set labels) - 1))
  /\ exists requests,
       calls (fst (summarize texts_arg (Some labels) m))
       = calls m ++ map Generate requests
       /\ length requests = Z.to_nat (Z.of_nat (Py.len_set labels) - 1).
Proof.
  intros H. unfold summarize in *.
  destruct (fold_m _ _ _ m) as [m' r] eqn:E. cbn [fst snd] in *. subst r.
  split.
  - apply summarize_loop_key_order in E; [exact E | apply range_NoDup |].
    intros label Hl [[= Hn] | []]. apply range_In in Hl.
    unfold noise_label in Hn. lia.
  - apply summarize_loop_spec in E.
    destruct E as [_ [requests [C [_ [[e He] | [d' [_ [Hlen _]]]]]]]];
      [discriminate |].
    exists requests. split; [exact C |]. now rewrite Hlen, range_length.
Qed.

(** ** What [infer] reads and what it changes *)

(** [infer] changes nothing in the classifier, whether it returns or
    raises.  Without an index (before any [fit] or [load]) it raises
    [AttributeError], the texts already embedded; with one it embeds the
    texts and searches the index once. *)
Theorem infer_reads_only (m : machine) (texts_arg : list Py.str) (top_k : Z) :
  let m' := fst (infer texts_arg top_k m) in
  self m' = self m
  /\ drawn m' = drawn m
  /\ match faiss_index (self m) with
     | None =>
         snd (infer texts_arg top_k m) = Py.Raise Py.AttributeError
         /\ calls m' = calls m ++ [Encode (Some texts_arg)]
     | Some _ =>
         calls m' = calls m ++ [Encode (Some texts_arg); Search top_k]
     end.
Proof.
  cbn zeta. unfold infer, embed.
  rewrite !bind_run. cbn [call ret read self calls drawn].
  rewrite !bind_run. cbn [read self calls drawn].
  destruct (faiss_index (self m)) as [index |].
  - rewrite !bind_run. cbn [call self calls drawn]. rewrite bind_run.
    unfold lift. destruct (Py.map_r _ _); cbn [ret fst snd self calls drawn];
      rewrite <- app_assoc; repeat split.
  - cbn [raise fst snd self calls drawn]. repeat split.
Qed.

(** Two classifiers with the same embedding model (here every
    classifier has the one [encode] of the collaborators, which stands
    for [self.embed_model] and [self.embed_batch_size]) that agree on
    their index and on their labels infer the same, as one saved and
    the one loaded from it: of the attributes that the methods assign,
    [infer] reads [faiss_index] and [cluster_labels] and no other. *)
Theorem infer_depends_on_index_and_labels (m1 m2 : machine)
  (texts_arg : list Py.str) (top_k : Z) :
  faiss_index (self m1) = faiss_index (self m2) ->
  cluster_labels (self m1) = cluster_labels (self m2) ->
  snd (infer texts_arg top_k m1) = snd (infer texts_arg top_k m2).
Proof.
  intros Hi Hl. unfold infer, embed.
  rewrite !bind_run. cbn [call ret read self calls drawn].
  rewrite !bind_run. cbn [read self calls drawn].
  rewrite Hi, Hl. destruct (faiss_index (self m2)) as [index |].
  - rewrite !bind_run. cbn [call self calls drawn]. rewrite !bind_run.
    unfold lift. destruct (Py.map_r _ _); reflexivity.
  - reflexivity.
Qed.

(** ** Ties in the vote of [infer] *)

Lemma max_by_count_first (d : list (Z * nat)) : forall best,
  exists a b,
    best :: d = a ++ Py.max_by_count best d :: b
    /\ Forall (fun e => (snd e < snd (Py.max_by_count best d))%nat) a.
Proof.
  induction d as [| e r IH]; intros best; cbn [Py.max_by_count].
  - exists [], []. split; [reflexivity | constructor].
  - destruct (Nat.ltb_spec (snd best) (snd e)) as [Hlt | Hge].
    + destruct (IH e) as [a [b [E F]]].
      exists (best :: a), b. split; [cbn; now rewrite E |].
      constructor; [| exact F].
      pose proof (@max_by_count_ge r e e (or_introl eq_refl)). lia.
    + destruct (IH best) as [a [b [E F]]].
      destruct a as [| x a].
      * cbn [app] in E. injection E as E1 E2. exists [], (e :: r).
        split; [cbn [app]; congruence | constructor].
      * cbn [app] in E. injection E as -> E2. exists (x :: e :: a), b.
        split; [cbn [app]; congruence |].
        inversion F; subst. repeat constructor; try assumption. lia.
Qed.

Lemma Counter_from_keys (l : list Z) : forall d,
  exists ext,
    Py.dict_keys
      (fold_left
         (fun d x =>
            Py.dict_set Z.eqb d x
              (match Py.dict_get Z.eqb d x with
               | Some n => S n
               | None => 1%nat
               end)) l d)
    = Py.dict_keys d ++ ext.
Proof.
  induction l as [| a l IH]; intros d; cbn [fold_left].
  - exists []. now rewrite app_nil_r.
  - destruct (IH (Py.dict_set Z.eqb d a
                    (match Py.dict_get Z.eqb d a with
                     | Some n => S n
                     | None => 1%nat
                     end))) as [ext E].
    rewrite E, (dict_keys_set Z.eqb).
    destruct (Py.dict_get Z.eqb d a).
    + now exists ext.
    + exists (a :: ext). now rewrite <- app_assoc.
Qed.

Lemma Counter_keys_In (l : list Z) (x : Z) :
  In x (Py.dict_keys (Py.Counter l)) <-> In x l.
Proof.
  rewrite <- (dict_get_keys Z.eqb Z.eqb_eq), Counter_get.
  rewrite (count_occ_In Z.eq_dec).
  destruct (count_occ Z.eq_dec l x); split; intros H;
    try lia; try discriminate; congruence.
Qed.

(** The keys of a counter up to the first occurrence of an element. *)
Lemma Counter_keys_first (earlier later : list Z) (x : Z) :
  ~ In x earlier ->
  exists ext,
    Py.dict_keys (Py.Counter (earlier ++ x :: later))
    = Py.dict_keys (Py.Counter earlier) ++ x :: ext.
Proof.
  intros H. unfold Py.Counter. rewrite fold_left_app. cbn [fold_left].
  fold (Py.Counter earlier).
  assert (G : Py.dict_get Z.eqb (Py.Counter earlier) x = None).
  { apply (dict_get_not_keys Z.eqb Z.eqb_eq). now rewrite Counter_keys_In. }
  rewrite G.
  destruct (Counter_from_keys later
              (Py.dict_set Z.eqb (Py.Counter earlier) x 1%nat)) as [ext E].
  rewrite E, (dict_keys_set Z.eqb), G, <- app_assoc. now exists ext.
Qed.

Lemma first_occurrence (x : Z) (l : list Z) :
  In x l -> exists a b, l = a ++ x :: b /\ ~ In x a.
Proof.
  induction l as [| y l IH]; [intros [] |].
  destruct (Z.eq_dec y x) as [-> | N].
  - intros _. exists [], l. split; [reflexivity | intros []].
  - intros [H | H]; [congruence |].
    destruct (IH H) as [a [b [-> Ha]]]. exists (y :: a), b.
    split; [reflexivity |]. intros [E | E]; [congruence | contradiction].
Qed.

Lemma NoDup_split_unique {A} (x : A) (a1 b1 a2 b2 : list A) :
  NoDup (a1 ++ x :: b1) -> a1 ++ x :: b1 = a2 ++ x :: b2 -> a1 = a2.
Proof.
  revert a2. induction a1 as [| y a1 IH]; intros a2 Hnd E.
  - destruct a2 as [| z a2]; [reflexivity |].
    injection E as -> E. exfalso. cbn in Hnd. inversion Hnd as [| ? ? Hn _].
    apply Hn. rewrite E. apply in_or_app. right. now left.
  - destruct a2 as [| z a2].
    + injection E as -> E. exfalso. cbn in Hnd. inversion Hnd as [| ? ? Hn _].
      apply Hn. apply in_or_app. right. now left.
    + injection E as -> E. f_equal. apply IH; [| exact E].
      cbn in Hnd. now inversion Hnd.
Qed.

(** The most common of a non-empty list of votes has the most votes,
    and more than every label met before it. *)
Lemma most_common_first (votes : list Z) :
  votes <> [] ->
  exists top,
    Py.item (Py.most_common_1 (Py.Counter votes)) 0 = Py.Ok top
    /\ majority (fst top) votes
    /\ first_among_equals (fst top) votes.
Proof.
  intros Hne.
  destruct (most_common_majority Hne) as [top [Htop Hmaj]].
  exists top. split; [exact Htop |]. split; [exact Hmaj |].
  destruct (Py.Counter votes) as [| e r] eqn:C; [discriminate |].
  cbn in Htop. injection Htop as <-.
  destruct (max_by_count_first r e) as [a [b [E F]]].
  set (top := Py.max_by_count e r) in *.
  destruct Hmaj as [Hin _].
  destruct (@first_occurrence _ _ Hin) as [earlier [later [Hv Hfirst]]].
  exists earlier, later. split; [exact Hv |]. split; [exact Hfirst |].
  intros other Ho.
  destruct (@Counter_keys_first earlier later _ Hfirst) as [ext K].
  rewrite <- Hv, C, E in K.
  unfold Py.dict_keys in K at 1. rewrite map_app in K. cbn [map] in K.
  assert (Hnd : NoDup (Py.dict_keys (Py.Counter votes)))
    by (apply Counter_from_keys_NoDup; constructor).
  rewrite C, E in Hnd. unfold Py.dict_keys in Hnd.
  rewrite map_app in Hnd. cbn [map] in Hnd.
  apply (@NoDup_split_unique _ _ _ _ _ _ Hnd) in K.
  assert (Hk : In other (map fst a)).
  { rewrite K. fold (Py.dict_keys (Py.Counter earlier)).
    now apply Counter_keys_In. }
  apply in_map_iff in Hk. destruct Hk as [entry [<- Hentry]].
  rewrite Forall_forall in F. specialize (F entry Hentry).
  assert (He : In entry (Py.Counter votes))
    by (rewrite C, E; apply in_or_app; now left).
  assert (Ht : In top (Py.Counter votes))
    by (rewrite C, E; apply in_or_app; right; now left).
  destruct (@Counter_entry _ _ He) as [Ce _].
  destruct (@Counter_entry _ _ Ht) as [Ct _].
  rewrite Ce, Ct. exact F.
Qed.

(** With the index and the embedding model returning what they are to
    return, a tie between the labels with the most votes goes to the
    label met first among the neighbours, in the order in which the
    index returned them: every label met before the first occurrence of
    the label that [infer] returns has fewer votes than it. *)
Theorem infer_tie_goes_to_first_label (m : machine)
  (texts_arg : list Py.str) (top_k : Z) (index : Index) (labels : list Z) :
  1 <= top_k ->
  faiss_index (self m) = Some index ->
  cluster_labels (self m) = Some labels ->
  length (encode (Some texts_arg)) = length texts_arg ->
  returns_documents (index_search index (encode (Some texts_arg)) top_k)
    (length texts_arg) top_k (length labels) ->
  exists inferred,
    snd (infer texts_arg top_k m)
    = Py.Ok (inferred, encode (Some texts_arg))
    /\ forall i, (i < length texts_arg)%nat ->
         exists row label,
           nth_error (index_search index (encode (Some texts_arg)) top_k) i
           = Some row
           /\ nth_error inferred i = Some label
           /\ first_among_equals label (labels_of labels row).
Proof.
  intros Hk Hindex Hlabels Henc [Hrows Hdocs].
  set (neighbours := index_search index (encode (Some texts_arg)) top_k) in *.
  destruct (map_r_Forall2
              (fun i =>
                 let? row := Py.item neighbours i in
                 let? ls :=
                   Py.map_r
                     (fun doc =>
                        match cluster_labels (self m) with
                        | None => Py.Raise Py.TypeError
                        | Some cl => Py.index cl doc
                        end) row in
                 let? top := Py.item (Py.most_common_1 (Py.Counter ls)) 0 in
                 Py.Ok (fst top))
              (fun i label =>
                 exists row,
                   nth_error neighbours i = Some row
                   /\ first_among_equals label (labels_of labels row))
              (seq 0 (length (encode (Some texts_arg)))))
    as [inferred [Hmap Hall]].
  { intros i Hi. apply in_seq in Hi. rewrite Henc, <- Hrows in Hi.
    destruct (nth_error neighbours i) as [row |] eqn:Hrow;
      [| apply nth_error_None in Hrow; lia].
    rewrite Forall_forall in Hdocs.
    destruct (Hdocs row (nth_error_In _ _ Hrow)) as [Hlen Hrange].
    unfold Py.item at 1. rewrite Hrow. cbn [Py.rbind]. rewrite Hlabels.
    rewrite (labels_of_row labels Hrange). cbn [Py.rbind].
    destruct (most_common_first (votes := labels_of labels row))
      as [top [Htop [_ Hfirst]]].
    { unfold labels_of. destruct row; [cbn in Hlen; lia | discriminate]. }
    rewrite Htop. cbn [Py.rbind]. exists (fst top). split; [reflexivity |].
    exists row. now split. }
  exists inferred.
  apply Forall2_seq_nth in Hall. destruct Hall as [Hlen Hnth].
  split.
  - unfold infer, embed, bind, call, ret, read, lift. cbn. rewrite Hindex.
    cbn. fold neighbours. rewrite Hmap. reflexivity.
  - intros i Hi. rewrite Henc in Hnth.
    destruct (Hnth i Hi) as [label [Hl [row [Hr Hm]]]].
    exists row, label. split; [exact Hr | split; assumption].
Qed.

(** ** What [save] writes and what [load] leaves alone *)

Lemma same_settings_refl (s : ClusterClassifier) : same_settings s s.
Proof. unfold same_settings. repeat split. Qed.

Lemma index_clusters_settings (m : machine) :
  let m' := fst (index_clusters m) in
  same_settings (self m) (self m')
  /\ mapper (self m') = mapper (self m)
  /\ calls m' = calls m
  /\ drawn m' = drawn m.
Proof.
  cbn zeta. unfold index_clusters. rewrite bind_run. cbn [read].
  destruct (cluster_labels (self m)) as [labels |];
    [| cbn; split; [apply same_settings_refl | repeat split]].
  unfold bind, assign, lift. cbn [self calls drawn fst].
  unfold same_settings. cbn. repeat split.
Qed.

(** [load] changes none of the settings of the classifier it is called
    on, nor its mapper, and calls no collaborator, whether it returns
    or raises; for a folder that does not exist it raises [ValueError]
    and changes nothing at all. *)
Theorem load_keeps_settings (fs : filesystem) (folder : Py.str)
  (m : machine) :
  let m' := fst (load fs folder m) in
  same_settings (self m) (self m')
  /\ mapper (self m') = mapper (self m)
  /\ calls m' = calls m
  /\ drawn m' = drawn m
  /\ (fs folder = None ->
      snd (load fs folder m) = Py.Raise Py.ValueError /\ m' = m).
Proof.
  cbn zeta. destruct (load fs folder m) as [m' r] eqn:L. cbn [fst snd].
  unfold load in L. destruct (fs folder) as [dir |].
  2:{ injection L as <- <-. split; [apply same_settings_refl | repeat split]. }
  rewrite bind_run in L. unfold lift at 1 in L.
  destruct (np_load (embeddings_npy dir)) as [e | x].
  2:{ injection L as <- <-. split; [apply same_settings_refl |].
      repeat split; congruence. }
  rewrite bind_run in L. cbn [assign] in L. rewrite bind_run in L.
  destruct (faiss_index_file dir) as [index |]; cbn [assign raise] in L.
  2:{ injection L as <- <-. unfold same_settings. cbn.
      repeat split; congruence. }
  rewrite bind_run in L. unfold lift at 1 in L. cbn [self calls drawn] in L.
  destruct (np_load (projections_npy dir)) as [p | x].
  2:{ injection L as <- <-. unfold same_settings. cbn.
      repeat split; congruence. }
  rewrite bind_run in L. cbn [assign] in L. rewrite bind_run in L.
  unfold lift at 1 in L. cbn [self calls drawn] in L.
  destruct (np_load (cluster_labels_npy dir)) as [l | x].
  2:{ injection L as <- <-. unfold same_settings. cbn.
      repeat split; congruence. }
  rewrite bind_run in L. cbn [assign] in L. rewrite bind_run in L.
  cbn [self calls drawn] in L.
  destruct (texts_json dir) as [t |]; cbn [assign raise] in L.
  2:{ injection L as <- <-. unfold same_settings. cbn.
      repeat split; congruence. }
  rewrite bind_run in L. cbn [self calls drawn] in L.
  assert (Hend : forall m1 : machine,
            same_settings (self m) (self m1) ->
            mapper (self m1) = mapper (self m) ->
            calls m1 = calls m -> drawn m1 = drawn m ->
            index_clusters m1 = (m', r) ->
            same_settings (self m) (self m')
            /\ mapper (self m') = mapper (self m)
            /\ calls m' = calls m
            /\ drawn m' = drawn m
            /\ (Some dir = None -> r = Py.Raise Py.ValueError /\ m' = m)).
  { intros m1 S1 M1 C1 D1 E.
    destruct (index_clusters_settings m1) as [S [Mp [C Dr]]].
    cbn zeta in S, Mp, C, Dr. rewrite E in S, Mp, C, Dr. cbn [fst] in *.
    split; [| repeat split; congruence].
    unfold same_settings in *.
    repeat match goal with
           | H : _ /\ _ |- _ => destruct H
           end.
    repeat split; congruence. }
  destruct (cluster_summaries_json dir) as [pairs |].
  - cbv zeta in L. rewrite bind_run in L. cbn [assign] in L.
    unfold lift in L.
    destruct (rekey_loop _ _) as [d [[] | x]]; cbn [fst snd self calls drawn] in L.
    2:{ injection L as <- <-. unfold same_settings. cbn.
        repeat split; congruence. }
    apply Hend in L; [exact L | | reflexivity | reflexivity | reflexivity].
    unfold same_settings. cbn. repeat split.
  - cbn [ret] in L.
    apply Hend in L; [exact L | | reflexivity | reflexivity | reflexivity].
    unfold same_settings. cbn. repeat split.
Qed.

(** [save] writes the artifacts and nothing of the settings: two
    classifiers with the same artifacts leave the same files, whatever
    their settings; and the prompt file holds the default instruction,
    whatever the instruction of the classifier. *)
Theorem save_writes_artifacts_only (s s' : ClusterClassifier)
  (fs : filesystem) (folder : Py.str) :
  same_artifacts s s' ->
  save folder s fs = save folder s' fs
  /\ (snd (save folder s fs) = Py.Ok tt ->
      exists dir,
        fst (save folder s fs) folder = Some dir
        /\ mistral_prompt_txt dir = Some DEFAULT_INSTRUCTION).
Proof.
  intros [He [Hi [Hp [Hl [Ht Hs]]]]]. split.
  - unfold save. now rewrite He, Hi, Hp, Hl, Ht, Hs.
  - unfold save. destruct (faiss_index s); [| discriminate].
    destruct (cluster_summaries s); cbn [fst snd]; [discriminate | |];
      intros _; rewrite write_folder_same; eexists; split; reflexivity.
Qed.

(** A classifier fitted without summaries, saved into a folder that
    holds the summaries file of an earlier save: [save] leaves that
    file, and [load] then gives the loading classifier the summaries of
    the earlier save. *)
Theorem save_keeps_stale_summaries (s : ClusterClassifier) (fs : filesystem)
  (folder : Py.str) (m : machine) (dir : folder_files)
  (stale : list (Py.key * Py.str)) :
  fitted s ->
  cluster_summaries s = Py.PyNone ->
  fs folder = Some dir ->
  cluster_summaries_json dir
  = Some (map (fun kv => (json_key (fst kv), snd kv)) stale) ->
  int_keyed stale ->
  let saved := save folder s fs in
  let loaded := load (fst saved) folder m in
  snd saved = Py.Ok tt
  /\ snd loaded = Py.Ok tt
  /\ cluster_summaries (self (fst loaded)) = Py.Val stale.
Proof.
  intros [e [index [p [labels [centers
            [He [Hi [Hp [Hl [Hid [Hld [Hloop [Hc _]]]]]]]]]]]]]
    Hnone Hdir Hfile Hstale.
  unfold save. rewrite Hi, Hnone, Hdir. cbn zeta. cbn [fst snd].
  split; [reflexivity |].
  match goal with
  | |- context [load (write_folder fs folder ?files) folder m] =>
      destruct (@load_files (write_folder fs folder files) folder m files
                  e p index labels (texts s)
                  (write_folder_same fs folder files)
                  (f_equal Some He) eq_refl (f_equal Some Hp)
                  (f_equal Some Hl) eq_refl)
        as [_ Hload]
  end.
  rewrite (Hload _ stale Hfile (summaries_roundtrip Hstale)).
  match goal with
  | |- context [index_clusters ?m1] =>
      destruct (@index_clusters_state m1 labels eq_refl) as [S [_ [_ R]]]
  end.
  cbn zeta in S, R. cbn [self projections set_texts set_cluster_labels
                           set_projections set_cluster_summaries] in S, R.
  rewrite R, S, Hloop. split; reflexivity.
Qed.

(** ** The course of a call of [fit] *)

Lemma or_str_same (a : Py.str) : or_str (Some a) a = a.
Proof. destruct a; reflexivity. Qed.

Lemma same_settings_trans (s1 s2 s3 : ClusterClassifier) :
  same_settings s1 s2 -> same_settings s2 s3 -> same_settings s1 s3.
Proof.
  unfold same_settings. intros H1 H2.
  repeat match goal with
         | H : _ /\ _ |- _ => destruct H
         end.
  repeat split; congruence.
Qed.

(** What [cluster] changes, whether it returns or raises: the labels
    and the bookkeeping made of them. *)
Lemma cluster_effect (p : list (list Float)) (algorithm : Py.str)
  (args : Args) (m m' : machine) (r : Py.result unit) :
  cluster p algorithm args m = (m', r) ->
  (exists l i d c,
     self m'
     = set_cluster_centers c
         (set_label2docs d (set_id2cluster i (set_cluster_labels l (self m)))))
  /\ (exists clu : bool,
        calls m' = calls m ++ (if clu then [Cluster algorithm] else []))
  /\ drawn m' = drawn m.
Proof.
  assert (Hstore : forall labels m1,
            self m1 = self m -> drawn m1 = drawn m ->
            calls m1 = calls m ++ [Cluster algorithm] ->
            store_cluster_info labels m1 = (m', r) ->
            (exists l i d c,
               self m'
               = set_cluster_centers c
                   (set_label2docs d
                      (set_id2cluster i (set_cluster_labels l (self m)))))
            /\ (exists clu : bool,
                  calls m' = calls m ++ (if clu then [Cluster algorithm] else []))
            /\ drawn m' = drawn m).
  { intros labels m1 S1 D1 C1 H. unfold store_cluster_info, bind, assign in H.
    match type of H with
    | index_clusters ?m2 = _ =>
        destruct (@index_clusters_state m2 labels eq_refl) as [S [C [D _]]]
    end.
    rewrite H in S, C, D. cbn [fst self calls drawn] in S, C, D.
    split; [| split].
    - rewrite S1 in S. eauto.
    - exists true. now rewrite C.
    - congruence. }
  unfold cluster. destruct (Py.str_eqb algorithm (Py.lit "dbscan")) eqn:D.
  - apply str_eqb_eq in D. subst algorithm.
    change (Py.str_eqb (Py.lit "dbscan") (Py.lit "hdbscan")) with false.
    change (Py.str_eqb (Py.lit "dbscan") (Py.lit "kmeans")) with false.
    change (Py.str_eqb (Py.lit "dbscan") (Py.lit "optics")) with false.
    unfold bind, call, ret; cbn [self calls drawn]. intros H.
    eapply Hstore; [| | | exact H]; reflexivity.
  - destruct (Py.str_eqb algorithm (Py.lit "hdbscan"));
      [| destruct (Py.str_eqb algorithm (Py.lit "kmeans"));
         [| destruct (Py.str_eqb algorithm (Py.lit "optics"))]];
      unfold bind, call, ret, raise; cbn [self calls drawn]; intros H.
    4:{ injection H as <- <-. split; [| split].
        - exists (cluster_labels (self m)), (id2cluster (self m)),
            (label2docs (self m)), (cluster_centers (self m)).
          now destruct (self m).
        - exists false. now rewrite app_nil_r.
        - reflexivity. }
    all: eapply Hstore; [| | | exact H]; reflexivity.
Qed.

(** What [summarize] changes, whether it returns or raises: lists of
    [label2docs], and the calls are its requests. *)
Lemma summarize_effect (texts_arg : option (list Py.str))
  (labels : option (list Z)) (m m' : machine)
  (r : Py.result (list (Py.key * Py.str))) :
  summarize texts_arg labels m = (m', r) ->
  (exists d, self m' = set_label2docs d (self m))
  /\ exists requests, calls m' = calls m ++ map Generate requests.
Proof.
  unfold summarize. destruct labels as [ls |].
  - intros H. apply summarize_loop_spec in H.
    destruct H as [[F _] [requests [C _]]]. split; [exact F |].
    now exists requests.
  - intros [= <- <-]. split.
    + exists (label2docs (self m)). now destruct (self m).
    + exists []. cbn. now rewrite app_nil_r.
Qed.

Lemma cluster_unknown (p : list (list Float)) (algorithm : Py.str)
  (args : Args) (m : machine) :
  ~ In algorithm clustering_algorithms ->
  cluster p algorithm args m = (m, Py.Raise Py.UnboundLocalError).
Proof.
  intros H. destruct (unknown_clustering H) as [D [Hd [K O]]].
  unfold cluster, bind, ret, raise. now rewrite D, Hd, K, O.
Qed.

(** A run of [fit], whether it returns or raises: the arguments are
    stored, the calls follow the pipeline, each stage is run only for
    want of its result, and a name that is not the name of an algorithm
    makes its stage fail. *)
Lemma fit_trace (m m' : machine) texts_arg b pa pargs ca cargs r :
  fit texts_arg b pa pargs ca cargs m = (m', r) ->
  let changed :=
    match b with
    | Some bz => negb (bz =? batch_size (self m))
    | None => false
    end in
  let palg := or_str pa (projection_algorithm (self m)) in
  let calg := or_str ca (clustering_algorithm (self m)) in
  arguments_stored texts_arg b pa pargs ca cargs (self m) (self m')
  /\ exists enc idx prj clu gen,
       calls m' = calls m ++ fit_calls enc idx prj clu texts_arg palg calg gen
       /\ (enc = true -> embeddings (self m) = None \/ changed = true)
       /\ (idx = true -> faiss_index (self m) = None)
       /\ (prj = true -> projections (self m) = None \/ changed = true)
       /\ (gen <> [] -> summary_create (self m) = true)
       /\ (faiss_index (self m) <> None ->
           faiss_index (self m') = faiss_index (self m))
       /\ (forall bz, b = Some bz -> bz <= 1 ->
           embeddings (self m) = None \/ changed = true ->
           enc = true /\ embeddings (self m') = Some (encode texts_arg))
       /\ (forall res, r = Py.Ok res -> summary_create (self m) = false ->
           cluster_summaries (self m') = Py.PyNone)
       /\ (forall res, r = Py.Ok res ->
           res = (embeddings (self m'), cluster_labels (self m'),
                  cluster_summaries (self m')))
       /\ (forall bz, b = Some bz -> bz <= 1 ->
           projections (self m) = None \/ changed = true ->
           ~ In palg projection_algorithms ->
           r = Py.Raise Py.TypeError
           /\ prj = false /\ clu = false /\ gen = []
           /\ projections (self m') = None)
       /\ (forall bz, b = Some bz -> bz <= 1 ->
           ~ In calg clustering_algorithms ->
           (projections (self m) = None \/ changed = true ->
            In palg projection_algorithms) ->
           r = Py.Raise Py.UnboundLocalError /\ clu = false /\ gen = []).
Proof.
  intros F. cbn zeta.
  set (changed := match b with
                  | Some bz => negb (bz =? batch_size (self m))
                  | None => false
                  end).
  set (palg := or_str pa (projection_algorithm (self m))).
  set (calg := or_str ca (clustering_algorithm (self m))).
  unfold fit in F.
  rewrite bind_run in F. change (read m) with (m, Py.Ok (self m)) in F.
  cbv iota beta in F. fold changed in F. rewrite bind_run in F.
  assert (Hreset :
            exists m0,
              when changed
                (bind (assign (set_embeddings None))
                   (fun _ => assign (set_projections None))) m
              = (m0, Py.Ok tt)
              /\ same_settings (self m) (self m0)
              /\ texts (self m0) = texts (self m)
              /\ faiss_index (self m0) = faiss_index (self m)
              /\ calls m0 = calls m
              /\ (embeddings (self m0) = None ->
                  embeddings (self m) = None \/ changed = true)
              /\ (projections (self m0) = None ->
                  projections (self m) = None \/ changed = true)
              /\ (embeddings (self m) = None \/ changed = true ->
                  embeddings (self m0) = None)
              /\ (projections (self m) = None \/ changed = true ->
                  projections (self m0) = None)).
  { destruct changed; eexists; (split; [reflexivity |]);
      cbn [self calls]; unfold same_settings; cbn;
      repeat split; auto; intros [H | H]; congruence. }
  destruct Hreset as [m0 [R0 [S0 [T0 [I0 [C0 [E0 [P0 [E0' P0']]]]]]]]].
  rewrite R0 in F. clear R0.
  do 6 (rewrite bind_run in F; cbn [ret assign self calls drawn] in F).
  match type of F with
  | context [bind _ _ ?mk] =>
      assert (A1 : arguments_stored texts_arg b pa pargs ca cargs (self m)
                     (self mk));
      [| assert (I1 : faiss_index (self mk) = faiss_index (self m))
           by exact I0;
         assert (C1 : calls mk = calls m) by exact C0;
         assert (E1 : embeddings (self mk) = embeddings (self m0))
           by reflexivity;
         assert (P1 : projections (self mk) = projections (self m0))
           by reflexivity;
         generalize dependent mk]
  end.
  { unfold arguments_stored, same_settings in *. cbn.
    repeat match goal with
           | H : _ /\ _ |- _ => destruct H
           end.
    repeat split; congruence. }
  intros m1 F A1 I1 C1 E1 P1.
  (* how a run ends *)
  assert (Hexit : forall (mk : machine) (enc idx prj clu : bool)
                    (gen : list Py.str),
            same_settings (self m1) (self mk) ->
            texts (self mk) = texts (self m1) ->
            calls mk = calls m ++ fit_calls enc idx prj clu texts_arg palg calg gen ->
            (enc = true -> embeddings (self m1) = None) ->
            (idx = true -> faiss_index (self m) = None) ->
            (prj = true -> projections (self m1) = None) ->
            (gen <> [] -> summary_create (self m) = true) ->
            (faiss_index (self m) <> None ->
             faiss_index (self mk) = faiss_index (self m)) ->
            (forall bz, b = Some bz -> bz <= 1 ->
             embeddings (self m1) = None ->
             enc = true /\ embeddings (self mk) = Some (encode texts_arg)) ->
            (forall res, r = Py.Ok res -> summary_create (self m) = false ->
             cluster_summaries (self mk) = Py.PyNone) ->
            (forall res, r = Py.Ok res ->
             res = (embeddings (self mk), cluster_labels (self mk),
                    cluster_summaries (self mk))) ->
            (forall bz, b = Some bz -> bz <= 1 ->
             projections (self m1) = None ->
             ~ In palg projection_algorithms ->
             r = Py.Raise Py.TypeError
             /\ prj = false /\ clu = false /\ gen = []
             /\ projections (self mk) = None) ->
            (forall bz, b = Some bz -> bz <= 1 ->
             ~ In calg clustering_algorithms ->
             (projections (self m1) = None ->
              In palg projection_algorithms) ->
             r = Py.Raise Py.UnboundLocalError /\ clu = false /\ gen = []) ->
            arguments_stored texts_arg b pa pargs ca cargs (self m) (self mk)
            /\ exists enc idx prj clu gen,
                 calls mk = calls m ++ fit_calls enc idx prj clu texts_arg palg calg gen
                 /\ (enc = true -> embeddings (self m) = None \/ changed = true)
                 /\ (idx = true -> faiss_index (self m) = None)
                 /\ (prj = true -> projections (self m) = None \/ changed = true)
                 /\ (gen <> [] -> summary_create (self m) = true)
                 /\ (faiss_index (self m) <> None ->
                     faiss_index (self mk) = faiss_index (self m))
                 /\ (forall bz, b = Some bz -> bz <= 1 ->
                     embeddings (self m) = None \/ changed = true ->
                     enc = true /\ embeddings (self mk) = Some (encode texts_arg))
                 /\ (forall res, r = Py.Ok res ->
                     summary_create (self m) = false ->
                     cluster_summaries (self mk) = Py.PyNone)
                 /\ (forall res, r = Py.Ok res ->
                     res = (embeddings (self mk), cluster_labels (self mk),
                            cluster_summaries (self mk)))
                 /\ (forall bz, b = Some bz -> bz <= 1 ->
                     projections (self m) = None \/ changed = true ->
                     ~ In palg projection_algorithms ->
                     r = Py.Raise Py.TypeError
                     /\ prj = false /\ clu = false /\ gen = []
                     /\ projections (self mk) = None)
                 /\ (forall bz, b = Some bz -> bz <= 1 ->
                     ~ In calg clustering_algorithms ->
                     (projections (self m) = None \/ changed = true ->
                      In palg projection_algorithms) ->
                     r = Py.Raise Py.UnboundLocalError
                     /\ clu = false /\ gen = [])).
  { intros mk enc idx prj clu gen Sk Tk Ck He Hi Hp Hg Hf Hb Hs Hr Hxp Hxc.
    split.
    - destruct A1 as [A1 A1']. split.
      + exact (same_settings_trans A1 Sk).
      + congruence.
    - exists enc, idx, prj, clu, gen.
      split; [exact Ck |].
      split; [intros H; apply E0; rewrite <- E1; now apply He |].
      split; [exact Hi |].
      split; [intros H; apply P0; rewrite <- P1; now apply Hp |].
      split; [exact Hg |]. split; [exact Hf |].
      split; [| split; [exact Hs | split; [exact Hr | split]]].
      + intros bz Hbz Hle H. apply (Hb bz Hbz Hle).
        rewrite E1. now apply E0'.
      + intros bz Hbz Hle H. apply (Hxp bz Hbz Hle).
        rewrite P1. now apply P0'.
      + intros bz Hbz Hle Hc H. apply (Hxc bz Hbz Hle Hc).
        intros Hn. apply H. apply P0. now rewrite <- P1. }
  assert (PA1 : projection_algorithm (self m1) = palg)
    by (destruct A1 as [[_ [H _]] _]; exact H).
  assert (CA1 : clustering_algorithm (self m1) = calg)
    by (destruct A1 as [[_ [_ [_ [H _]]]] _]; exact H).
  assert (SC1 : summary_create (self m1) = summary_create (self m))
    by (destruct A1 as [[_ [_ [_ [_ [_ [H _]]]]]] _]; exact H).
  rewrite bind_run in F.
  destruct b as [bz |].
  2:{ cbn [raise] in F. injection F as <- <-.
      apply (Hexit m1 false false false false []);
        try (intros; congruence);
        try apply same_settings_refl;
        try (cbn; now rewrite app_nil_r). }
  destruct (1 <? bz) eqn:B.
  { cbn [when] in F. rewrite bind_run in F. cbn [read] in F.
    rewrite bind_run in F. unfold lift in F.
    rewrite batch_and_join_bound_method in F. injection F as <- <-.
    apply Z.ltb_lt in B.
    apply (Hexit m1 false false false false []);
      try (intros; congruence);
      try apply same_settings_refl;
      try (cbn; now rewrite app_nil_r);
      try (intros bz0 [= <-] Hle; lia). }
  apply Z.ltb_ge in B.
  cbn [when ret] in F. rewrite bind_run in F. cbn [read] in F.
  rewrite bind_run in F.
  (* the embeddings *)
  assert (Hembed :
            exists m2 (enc : bool),
              match embeddings (self m1) with
              | Some _ => ret tt
              | None =>
                  bind (embed texts_arg)
                    (fun e0 => assign (set_embeddings (Some e0)))
              end m1 = (m2, Py.Ok tt)
              /\ same_settings (self m1) (self m2)
              /\ texts (self m2) = texts (self m1)
              /\ faiss_index (self m2) = faiss_index (self m1)
              /\ projections (self m2) = projections (self m1)
              /\ calls m2
                 = calls m1 ++ (if enc then [Encode texts_arg] else [])
              /\ (enc = true -> embeddings (self m1) = None)
              /\ (embeddings (self m1) = None ->
                  enc = true
                  /\ embeddings (self m2) = Some (encode texts_arg))
              /\ exists e, embeddings (self m2) = Some e).
  { destruct (embeddings (self m1)) as [e |] eqn:E.
    - exists m1, false. split; [reflexivity |].
      split; [apply same_settings_refl |].
      rewrite app_nil_r. repeat split; try congruence; eauto.
    - eexists. exists true. split; [reflexivity |].
      cbn [self calls]. unfold same_settings. cbn.
      repeat split; eauto. }
  destruct Hembed
    as [m2 [enc [R2 [S2 [T2 [I2 [P2 [C2 [En2 [En2' [e E2]]]]]]]]]]].
  rewrite R2 in F. clear R2.
  rewrite bind_run in F. cbn [read] in F. rewrite bind_run in F.
  (* the index *)
  assert (Hindex :
            exists m3 (idx : bool),
              match faiss_index (self m2) with
              | Some _ => ret tt
              | None =>
                  bind (the (embeddings (self m2)))
                    (fun e0 =>
                       bind (build_faiss_index e0)
                         (fun index => assign (set_faiss_index (Some index))))
              end m2 = (m3, Py.Ok tt)
              /\ same_settings (self m2) (self m3)
              /\ texts (self m3) = texts (self m2)
              /\ embeddings (self m3) = embeddings (self m2)
              /\ projections (self m3) = projections (self m2)
              /\ calls m3 = calls m2 ++ (if idx then [BuildIndex] else [])
              /\ (idx = true -> faiss_index (self m2) = None)
              /\ (faiss_index (self m2) <> None ->
                  faiss_index (self m3) = faiss_index (self m2))).
  { destruct (faiss_index (self m2)) as [index |] eqn:I.
    - exists m2, false. split; [reflexivity |].
      split; [apply same_settings_refl |].
      rewrite app_nil_r. repeat split; try congruence; eauto.
    - rewrite E2. eexists. exists true. split; [reflexivity |].
      cbn [self calls]. unfold same_settings. cbn.
      repeat split; eauto. intros H. now elim H. }
  destruct Hindex
    as [m3 [idx [R3 [S3 [T3 [E3 [P3 [C3 [Ix3 Ix3']]]]]]]]].
  rewrite R3 in F. clear R3.
  rewrite bind_run in F. cbn [read] in F. rewrite bind_run in F.
  (* the projections *)
  match type of F with
  | match ?c m3 with _ => _ end = _ =>
      assert (Hproject :
                exists m4 r4 (prj : bool),
                  c m3 = (m4, r4)
                  /\ same_settings (self m3) (self m4)
                  /\ texts (self m4) = texts (self m3)
                  /\ embeddings (self m4) = embeddings (self m3)
                  /\ faiss_index (self m4) = faiss_index (self m3)
                  /\ calls m4
                     = calls m3
                       ++ (if prj
                           then [Project (projection_algorithm (self m3))]
                           else [])
                  /\ (prj = true -> projections (self m3) = None)
                  /\ (r4 = Py.Ok tt ->
                      (exists p, projections (self m4) = Some p)
                      /\ (projections (self m3) = None ->
                          In (projection_algorithm (self m3))
                            projection_algorithms))
                  /\ (forall e4, r4 = Py.Raise e4 ->
                      e4 = Py.TypeError /\ prj = false
                      /\ projections (self m4) = None
                      /\ projections (self m3) = None
                      /\ ~ In (projection_algorithm (self m3))
                             projection_algorithms))
  end.
  { destruct (projections (self m3)) as [p |] eqn:P.
    - exists m3, (Py.Ok tt), false. split; [reflexivity |].
      split; [apply same_settings_refl |].
      rewrite app_nil_r. repeat split; try congruence; eauto.
    - rewrite E3, E2. unfold the, project, bind, read, assign, ret.
      cbn [self calls drawn]. rewrite or_str_same.
      destruct (Py.str_eqb _ (Py.lit "pca")) eqn:Q1;
        [| destruct (Py.str_eqb _ (Py.lit "umap")) eqn:Q2;
           [| destruct (Py.str_eqb _ (Py.lit "tsvd")) eqn:Q3]];
        unfold call, raise; cbn [self calls drawn].
      4:{ eexists. exists (Py.Raise Py.TypeError), false.
          split; [reflexivity |]. cbn [self calls].
          unfold same_settings. cbn. rewrite app_nil_r.
          repeat split; try congruence.
          apply str_eqb_neq in Q1, Q2, Q3.
          intros [G | [G | [G | []]]];
            [apply Q1 | apply Q3 | apply Q2]; symmetry; exact G. }
      all: eexists; exists (Py.Ok tt), true; (split; [reflexivity |]);
        cbn [self calls]; unfold same_settings; cbn;
        repeat split; eauto; try congruence.
      + apply str_eqb_eq in Q1. rewrite Q1. cbn. tauto.
      + apply str_eqb_eq in Q2. rewrite Q2. cbn. tauto.
      + apply str_eqb_eq in Q3. rewrite Q3. cbn. tauto. }
  destruct Hproject
    as [m4 [r4 [prj [R4 [S4 [T4 [E4 [I4 [C4 [Pj4 [Pj4' Pj4'']]]]]]]]]]].
  rewrite R4 in F. clear R4.
  (* the state after the three stages *)
  assert (S14 : same_settings (self m1) (self m4))
    by exact (same_settings_trans (same_settings_trans S2 S3) S4).
  assert (T14 : texts (self m4) = texts (self m1)) by congruence.
  assert (PA3 : projection_algorithm (self m3) = palg).
  { rewrite <- PA1.
    destruct (same_settings_trans S2 S3) as [_ [H _]]. exact H. }
  assert (CA4 : clustering_algorithm (self m4) = calg).
  { rewrite <- CA1. destruct S14 as [_ [_ [_ [H _]]]]. exact H. }
  assert (SC4 : summary_create (self m4) = summary_create (self m)).
  { rewrite <- SC1. destruct S14 as [_ [_ [_ [_ [_ [H _]]]]]]. exact H. }
  assert (C14 : calls m4
                = calls m ++ fit_calls enc idx prj false texts_arg palg calg []).
  { rewrite C4, C3, C2, C1, PA3. unfold fit_calls. cbn [map].
    repeat rewrite app_nil_r. repeat rewrite <- app_assoc. reflexivity. }
  assert (I14 : faiss_index (self m) <> None ->
                faiss_index (self m4) = faiss_index (self m)).
  { intros H. rewrite I4, Ix3' by congruence. congruence. }
  assert (Ix : idx = true -> faiss_index (self m) = None).
  { intros H. rewrite <- I1, <- I2. now apply Ix3. }
  assert (En14 : forall bz0, Some bz = Some bz0 -> bz0 <= 1 ->
                 embeddings (self m1) = None ->
                 enc = true /\ embeddings (self m4) = Some (encode texts_arg)).
  { intros bz0 _ _ H. destruct (En2' H) as [H1 H2].
    split; [exact H1 | congruence]. }
  assert (Pj : prj = true -> projections (self m1) = None).
  { intros H. rewrite <- P2, <- P3. now apply Pj4. }
  assert (P13 : projections (self m3) = projections (self m1))
    by congruence.
  destruct r4 as [[] | e4].
  2:{ injection F as <- <-.
      destruct (Pj4'' e4 eq_refl) as [-> [-> [Q4 [Q3 Q]]]].
      rewrite PA3 in Q.
      apply (Hexit m4 enc idx false false []); try assumption;
        try (intros; congruence).
      - intros bz0 _ _ _ _. repeat split; reflexivity || assumption.
      - intros bz0 _ _ _ H. elim Q. apply H. congruence. }
  destruct (Pj4' eq_refl) as [[p P4] Q4]. clear Pj4' Pj4''.
  rewrite PA3 in Q4.
  assert (Hxp : forall bz0, Some bz = Some bz0 -> bz0 <= 1 ->
                projections (self m1) = None ->
                ~ In palg projection_algorithms -> False).
  { intros bz0 _ _ H Hn. apply Hn, Q4. congruence. }
  (* the clusters *)
  rewrite bind_run in F. cbn [read] in F. rewrite bind_run in F.
  rewrite P4 in F. unfold the at 1 in F. cbn [ret] in F.
  rewrite bind_run in F.
  destruct (cluster p (clustering_algorithm (self m4))
              (clustering_args (self m4)) m4) as [m5 r5] eqn:CL.
  pose proof CL as CL'. apply cluster_effect in CL.
  destruct CL as [[l5 [i5 [d5 [c5 S5]]]] [[clu C5] _]].
  assert (S15 : same_settings (self m1) (self m5)).
  { apply (same_settings_trans S14). rewrite S5.
    unfold same_settings. cbn. repeat split. }
  assert (T15 : texts (self m5) = texts (self m1))
    by (rewrite S5; exact T14).
  assert (C15 : calls m5
                = calls m ++ fit_calls enc idx prj clu texts_arg palg calg []).
  { rewrite C5, C14, CA4. unfold fit_calls. cbn [map].
    repeat rewrite app_nil_r. repeat rewrite <- app_assoc. reflexivity. }
  assert (I15 : faiss_index (self m) <> None ->
                faiss_index (self m5) = faiss_index (self m))
    by (rewrite S5; exact I14).
  assert (En15 : forall bz0, Some bz = Some bz0 -> bz0 <= 1 ->
                 embeddings (self m1) = None ->
                 enc = true /\ embeddings (self m5) = Some (encode texts_arg))
    by (rewrite S5; exact En14).
  assert (SC5 : summary_create (self m5) = summary_create (self m))
    by (rewrite S5; exact SC4).
  assert (Hxc : ~ In calg clustering_algorithms ->
                r5 = Py.Raise Py.UnboundLocalError /\ clu = false).
  { intros H. rewrite <- CA4 in H.
    rewrite (cluster_unknown p (clustering_args (self m4)) m4 H) in CL'.
    injection CL' as <- <-. split; [reflexivity |].
    destruct clu; [| reflexivity].
    apply (f_equal (@length _)) in C5. rewrite length_app in C5.
    cbn in C5. lia. }
  destruct r5 as [[] | e5].
  2:{ injection F as <- <-.
      apply (Hexit m5 enc idx prj clu []); try assumption;
        try (intros; congruence).
      - intros bz0 H1 H2 H3 H4. elim (Hxp bz0 H1 H2 H3 H4).
      - intros bz0 _ _ H _. destruct (Hxc H) as [H5 ->].
        repeat split; congruence. }
  assert (Hxc' : ~ In calg clustering_algorithms -> False)
    by (intros H; destruct (Hxc H); discriminate).
  (* the summaries *)
  rewrite bind_run in F. cbn [read] in F. rewrite bind_run in F.
  destruct (summary_create (self m5)) eqn:SC.
  - rewrite bind_run in F.
    destruct (summarize (texts (self m5)) (cluster_labels (self m5)) m5)
      as [m6 r6] eqn:SU.
    apply summarize_effect in SU. destruct SU as [[d6 S6] [requests C6]].
    assert (S16 : same_settings (self m1) (self m6)).
    { apply (same_settings_trans S15). rewrite S6.
      unfold same_settings. cbn. repeat split. }
    assert (C16 : calls m6
                  = calls m
                    ++ fit_calls enc idx prj clu texts_arg palg calg requests).
    { rewrite C6, C15. unfold fit_calls. cbn [map].
      repeat rewrite app_nil_r. repeat rewrite <- app_assoc. reflexivity. }
    destruct r6 as [summaries | e6].
    + unfold bind, assign, read, ret in F. injection F as <- <-.
      apply (Hexit _ enc idx prj clu requests); cbn [self calls];
        try assumption.
      * rewrite S6. exact T15.
      * intros _. congruence.
      * intros H. rewrite S6. exact (I15 H).
      * intros bz0 H1 H2 H3. rewrite S6. exact (En15 bz0 H1 H2 H3).
      * intros res _ H. congruence.
      * intros res [= <-]. reflexivity.
      * intros bz0 H1 H2 H3 H4. elim (Hxp bz0 H1 H2 H3 H4).
      * intros bz0 _ _ H _. elim (Hxc' H).
    + injection F as <- <-.
      apply (Hexit m6 enc idx prj clu requests); try assumption;
        try (intros; congruence).
      * rewrite S6. exact T15.
      * intros H. rewrite S6. exact (I15 H).
      * intros bz0 H1 H2 H3. rewrite S6. exact (En15 bz0 H1 H2 H3).
      * intros bz0 H1 H2 H3 H4. elim (Hxp bz0 H1 H2 H3 H4).
      * intros bz0 _ _ H _. elim (Hxc' H).
  - unfold bind, assign, read, ret in F. injection F as <- <-.
    apply (Hexit _ enc idx prj clu []); cbn [self calls]; try assumption;
      try (intros; congruence).
    + intros res _ _. reflexivity.
    + intros res [= <-]. reflexivity.
    + intros bz0 H1 H2 H3 H4. elim (Hxp bz0 H1 H2 H3 H4).
    + intros bz0 _ _ H _. elim (Hxc' H).
Qed.

(** The calls of [fit] follow the pipeline, whether it returns or
    raises: the texts are embedded, the index is built, the embeddings
    are projected and the projections clustered at most once each and in
    that order, before any request for a summary; the embeddings and the
    projections are computed only when there are none or the batch size
    has changed, the index is built only when there is none, and
    requests are made only with [summary_create] on. *)
Theorem fit_calls_follow_pipeline (m : machine) texts_arg b pa pargs ca cargs :
  let changed :=
    match b with
    | Some bz => negb (bz =? batch_size (self m))
    | None => false
    end in
  exists enc idx prj clu requests,
    calls (fst (fit texts_arg b pa pargs ca cargs m))
    = calls m
      ++ fit_calls enc idx prj clu texts_arg
           (or_str pa (projection_algorithm (self m)))
           (or_str ca (clustering_algorithm (self m))) requests
    /\ (enc = true -> embeddings (self m) = None \/ changed = true)
    /\ (idx = true -> faiss_index (self m) = None)
    /\ (prj = true -> projections (self m) = None \/ changed = true)
    /\ (requests <> [] -> summary_create (self m) = true).
Proof.
  cbn zeta. destruct (fit texts_arg b pa pargs ca cargs m) as [m' r] eqn:F.
  apply fit_trace in F. cbn zeta in F.
  destruct F as [_ [enc [idx [prj [clu [gen [C [He [Hi [Hp [Hg _]]]]]]]]]]].
  exists enc, idx, prj, clu, gen. cbn [fst].
  split; [exact C |]. split; [exact He |]. split; [exact Hi |].
  split; [exact Hp | exact Hg].
Qed.

(** Whatever happens in it, [fit] stores its arguments first: the batch
    size, the texts, the algorithms and their arguments of the
    classifier are the arguments of the call, or what they were where an
    argument is left out, or is 0 or empty; the other settings are as
    they were.  A call that raises has changed them all the same. *)
Theorem fit_stores_its_arguments (m : machine) texts_arg b pa pargs ca cargs :
  let s := self m in
  let s' := self (fst (fit texts_arg b pa pargs ca cargs m)) in
  batch_size s' = or_int b (batch_size s)
  /\ texts s' = or_texts texts_arg (texts s)
  /\ projection_algorithm s' = or_str pa (projection_algorithm s)
  /\ projection_args s' = or_args pargs (projection_args s)
  /\ clustering_algorithm s' = or_str ca (clustering_algorithm s)
  /\ clustering_args s' = or_args cargs (clustering_args s)
  /\ summary_create s' = summary_create s
  /\ topic_mode s' = topic_mode s
  /\ summary_n_examples s' = summary_n_examples s
  /\ summary_chunk_size s' = summary_chunk_size s
  /\ summary_template s' = summary_template s
  /\ summary_instruction s' = summary_instruction s.
Proof.
  cbn zeta. destruct (fit texts_arg b pa pargs ca cargs m) as [m' r] eqn:F.
  apply fit_trace in F. cbn zeta in F. destruct F as [[S T] _].
  cbn [fst]. unfold same_settings in S. cbn in S.
  repeat match goal with
         | H : _ /\ _ |- _ => destruct H
         end.
  repeat split; assumption.
Qed.

Lemma fit_calls_no_index (enc prj clu : bool)
  (texts_arg : option (list Py.str)) (projection clustering : Py.str)
  (requests : list Py.str) :
  ~ In BuildIndex
      (fit_calls enc false prj clu texts_arg projection clustering requests).
Proof.
  unfold fit_calls. rewrite !in_app_iff.
  intros [H | [H | [H | [H | H]]]].
  - destruct enc; [destruct H as [H | []]; discriminate | destruct H].
  - destruct H.
  - destruct prj; [destruct H as [H | []]; discriminate | destruct H].
  - destruct clu; [destruct H as [H | []]; discriminate | destruct H].
  - apply in_map_iff in H. destruct H as [rq [H _]]. discriminate.
Qed.

(** A classifier that has an index keeps it through [fit], whatever the
    arguments and whether [fit] returns or raises: the index is not
    built again, not even when the batch size has changed and the
    embeddings are computed anew. *)
Theorem fit_keeps_existing_index (m : machine) texts_arg b pa pargs ca cargs
  (index : Index) :
  faiss_index (self m) = Some index ->
  let m' := fst (fit texts_arg b pa pargs ca cargs m) in
  faiss_index (self m') = Some index
  /\ (exists new, calls m' = calls m ++ new /\ ~ In BuildIndex new)
  /\ (forall bz, b = Some bz -> bz <= 1 -> bz <> batch_size (self m) ->
      embeddings (self m') = Some (encode texts_arg)).
Proof.
  intros Hindex. cbn zeta.
  destruct (fit texts_arg b pa pargs ca cargs m) as [m' r] eqn:F.
  apply fit_trace in F. cbn zeta in F.
  destruct F as [_ [enc [idx [prj [clu [gen
                   [C [_ [Hi [_ [_ [Hf [Hb _]]]]]]]]]]]]].
  cbn [fst]. split; [| split].
  - rewrite Hf; [exact Hindex | congruence].
  - destruct idx; [specialize (Hi eq_refl); congruence |].
    eexists. split; [exact C | apply fit_calls_no_index].
  - intros bz -> Hle Hne. apply (Hb bz eq_refl Hle). right.
    apply Z.eqb_neq in Hne. now rewrite Hne.
Qed.

(** When [fit] computes the embeddings (there are none, or the batch
    size has changed, and the batch size is not above 1), the embedding
    model is given the texts passed to this call, [None] when they are
    left out, and not the texts of the classifier, which are the ones
    stored before when none or an empty list is passed. *)
Theorem fit_embeds_the_texts_argument (m : machine) texts_arg bz
  pa pargs ca cargs :
  bz <= 1 ->
  embeddings (self m) = None \/ bz <> batch_size (self m) ->
  let m' := fst (fit texts_arg (Some bz) pa pargs ca cargs m) in
  embeddings (self m') = Some (encode texts_arg)
  /\ texts (self m') = or_texts texts_arg (texts (self m))
  /\ exists rest, calls m' = calls m ++ Encode texts_arg :: rest.
Proof.
  intros Hle Hnone. cbn zeta.
  destruct (fit texts_arg (Some bz) pa pargs ca cargs m) as [m' r] eqn:F.
  apply fit_trace in F. cbn zeta in F.
  destruct F as [[_ T] [enc [idx [prj [clu [gen
                   [C [_ [_ [_ [_ [_ [Hb _]]]]]]]]]]]]].
  cbn [fst]. destruct (Hb bz eq_refl Hle) as [-> E].
  { destruct Hnone as [H | H]; [now left | right].
    apply Z.eqb_neq in H. now rewrite H. }
  split; [exact E |]. split; [exact T |].
  eexists. rewrite C. unfold fit_calls. reflexivity.
Qed.

(** With [summary_create] off, [fit] makes no request to the
    text-generation service, whether it returns or raises, and when it
    returns the summaries of the classifier, and of the result, are
    [None]. *)
Theorem fit_without_summaries_requests_nothing (m : machine) texts_arg b
  pa pargs ca cargs :
  summary_create (self m) = false ->
  let m' := fst (fit texts_arg b pa pargs ca cargs m) in
  (exists new,
     calls m' = calls m ++ new /\ forall request, ~ In (Generate request) new)
  /\ forall res,
       snd (fit texts_arg b pa pargs ca cargs m) = Py.Ok res ->
       cluster_summaries (self m') = Py.PyNone /\ snd res = Py.PyNone.
Proof.
  intros Hoff. cbn zeta.
  destruct (fit texts_arg b pa pargs ca cargs m) as [m' r] eqn:F.
  apply fit_trace in F. cbn zeta in F.
  destruct F as [_ [enc [idx [prj [clu [gen
                   [C [_ [_ [_ [Hg [_ [_ [Hs [Hr _]]]]]]]]]]]]]]].
  cbn [fst snd]. split.
  - destruct gen as [| rq gen];
      [| assert (summary_create (self m) = true)
           by (apply Hg; discriminate); congruence].
    eexists. split; [exact C |].
    intros request. unfold fit_calls. rewrite !in_app_iff.
    intros [H | [H | [H | [H | H]]]].
    + destruct enc; [destruct H as [H | []]; discriminate | destruct H].
    + destruct idx; [destruct H as [H | []]; discriminate | destruct H].
    + destruct prj; [destruct H as [H | []]; discriminate | destruct H].
    + destruct clu; [destruct H as [H | []]; discriminate | destruct H].
    + destruct H.
  - intros res Hres. pose proof (Hs res Hres Hoff) as Hnone.
    split; [exact Hnone |]. rewrite (Hr res Hres). exact Hnone.
Qed.

(** [fit] does not check the name of the projection algorithm as
    [__init__] does.  With a name that is none of pca, tsvd, umap, and
    projections to compute, it raises [TypeError] only once the texts
    are embedded and the index is built, as far as they were missing;
    nothing is projected or clustered, and the name stays the
    projection algorithm of the classifier. *)
Theorem fit_unknown_projection_algorithm (m : machine) texts_arg bz
  pa pargs ca cargs :
  bz <= 1 ->
  projections (self m) = None \/ bz <> batch_size (self m) ->
  ~ In (or_str pa (projection_algorithm (self m))) projection_algorithms ->
  let m' := fst (fit texts_arg (Some bz) pa pargs ca cargs m) in
  snd (fit texts_arg (Some bz) pa pargs ca cargs m) = Py.Raise Py.TypeError
  /\ projection_algorithm (self m')
     = or_str pa (projection_algorithm (self m))
  /\ projections (self m') = None
  /\ exists enc idx,
       calls m'
       = calls m
         ++ fit_calls enc idx false false texts_arg
              (or_str pa (projection_algorithm (self m)))
              (or_str ca (clustering_algorithm (self m))) [].
Proof.
  intros Hle Hnone Hname. cbn zeta.
  destruct (fit texts_arg (Some bz) pa pargs ca cargs m) as [m' r] eqn:F.
  apply fit_trace in F. cbn zeta in F.
  destruct F as [[S _] [enc [idx [prj [clu [gen
                   [C [_ [_ [_ [_ [_ [_ [_ [_ [Hxp _]]]]]]]]]]]]]]]].
  cbn [fst snd].
  destruct (Hxp bz eq_refl Hle) as [-> [-> [-> [-> P]]]]; [| exact Hname |].
  { destruct Hnone as [H | H]; [now left | right].
    apply Z.eqb_neq in H. now rewrite H. }
  split; [reflexivity |].
  split; [destruct S as [_ [H _]]; exact H |].
  split; [exact P |]. now exists enc, idx.
Qed.

(** [fit] does not check the name of the clustering algorithm either.
    With a name that is none of dbscan, hdbscan, optics, kmeans it
    raises [UnboundLocalError] only once the texts are embedded, the
    index is built and the embeddings are projected, as far as they were
    missing; nothing is clustered, and the name stays the clustering
    algorithm of the classifier. *)
Theorem fit_unknown_clustering_algorithm (m : machine) texts_arg bz
  pa pargs ca cargs :
  bz <= 1 ->
  In (or_str pa (projection_algorithm (self m))) projection_algorithms ->
  ~ In (or_str ca (clustering_algorithm (self m))) clustering_algorithms ->
  let m' := fst (fit texts_arg (Some bz) pa pargs ca cargs m) in
  snd (fit texts_arg (Some bz) pa pargs ca cargs m)
  = Py.Raise Py.UnboundLocalError
  /\ clustering_algorithm (self m')
     = or_str ca (clustering_algorithm (self m))
  /\ exists enc idx prj,
       calls m'
       = calls m
         ++ fit_calls enc idx prj false texts_arg
              (or_str pa (projection_algorithm (self m)))
              (or_str ca (clustering_algorithm (self m))) [].
Proof.
  intros Hle Hp Hname. cbn zeta.
  destruct (fit texts_arg (Some bz) pa pargs ca cargs m) as [m' r] eqn:F.
  apply fit_trace in F. cbn zeta in F.
  destruct F as [[S _] [enc [idx [prj [clu [gen
                   [C [_ [_ [_ [_ [_ [_ [_ [_ [_ Hxc]]]]]]]]]]]]]]]].
  cbn [fst snd].
  destruct (Hxc bz eq_refl Hle Hname (fun _ => Hp)) as [-> [-> ->]].
  split; [reflexivity |].
  split; [destruct S as [_ [_ [_ [H _]]]]; exact H |].
  now exists enc, idx, prj.
Qed.

(** A [fit] that returns leaves a fitted classifier and returns its
    embeddings, labels and summaries: the embeddings, the index, the
    projections and the labels are there, the documents are indexed by
    label and by position, every label has its center, and the summaries
    are [None] or a dictionary keyed by labels.  With [summary_create]
    on, this needs examples to be asked for: then a label without a
    document makes [summarize] raise, so a [fit] that returns has filed
    nothing new. *)
Theorem fit_leaves_fitted_classifier (m m' : machine) texts_arg b
  pa pargs ca cargs
  (res : option (list (list Float)) * option (list Z)
         * Py.attr (list (Py.key * Py.str))) :
  fit texts_arg b pa pargs ca cargs m = (m', Py.Ok res) ->
  (summary_create (self m) = true -> 0 < summary_n_examples (self m)) ->
  fitted (self m')
  /\ fst (fst res) = embeddings (self m')
  /\ snd (fst res) = cluster_labels (self m')
  /\ snd res = cluster_summaries (self m').
Proof.
  intros F Hn.
  pose proof F as T. apply fit_trace in T. cbn zeta in T.
  destruct T as [[S _] [_ [_ [_ [_ [_ [_ [_ [_ [_ [_ [_ [_ [_ [Hr _]]]]]]]]]]]]]]].
  assert (SC : summary_create (self m') = summary_create (self m))
    by (destruct S as [_ [_ [_ [_ [_ [H _]]]]]]; exact H).
  assert (NE : summary_n_examples (self m') = summary_n_examples (self m))
    by (destruct S as [_ [_ [_ [_ [_ [_ [_ [H _]]]]]]]]; exact H).
  clear S. rewrite <- SC, <- NE in Hn. clear SC NE.
  split.
  2:{ pose proof (Hr res eq_refl) as Q. destruct res as [[r1 r2] r3].
      injection Q as Q1 Q2 Q3. cbn [fst snd]. repeat split; assumption. }
  clear Hr. unfold fit in F.
  rewrite bind_run in F. change (read m) with (m, Py.Ok (self m)) in F.
  cbv iota beta in F. rewrite bind_run in F.
  assert (Hreset :
            exists m0,
              when
                match b with
                | Some b0 => negb (b0 =? batch_size (self m))
                | None => false
                end
                (bind (assign (set_embeddings None))
                   (fun _ => assign (set_projections None))) m
              = (m0, Py.Ok tt)).
  { destruct (match b with Some _ => _ | None => _ end); eexists;
      reflexivity. }
  destruct Hreset as [m0 R0]. rewrite R0 in F. clear R0.
  do 6 (rewrite bind_run in F; cbn [ret assign self calls drawn] in F).
  match type of F with
  | context [bind _ _ ?m1] => generalize dependent m1
  end.
  intros m1 F. rewrite bind_run in F.
  destruct b as [b |]; [| discriminate].
  destruct (1 <? b).
  { cbn [when] in F. rewrite bind_run in F. cbn [read] in F.
    rewrite bind_run in F. unfold lift in F.
    rewrite batch_and_join_bound_method in F. discriminate. }
  cbn [when ret] in F. rewrite bind_run in F. cbn [read] in F.
  rewrite bind_run in F.
  assert (Hembed :
            exists m2 e,
              embeddings (self m2) = Some e
              /\ match embeddings (self m1) with
                 | Some _ => ret tt
                 | None =>
                     bind (embed texts_arg)
                       (fun e0 => assign (set_embeddings (Some e0)))
                 end m1 = (m2, Py.Ok tt)).
  { destruct (embeddings (self m1)) eqn:E.
    - exists m1. eexists. split; [exact E | reflexivity].
    - eexists. eexists. split; [| reflexivity]. reflexivity. }
  destruct Hembed as [m2 [e [E2 R2]]]. rewrite R2 in F. clear R2.
  rewrite bind_run in F. cbn [read] in F. rewrite bind_run in F.
  assert (Hindex :
            exists m3 index,
              embeddings (self m3) = Some e
              /\ faiss_index (self m3) = Some index
              /\ match faiss_index (self m2) with
                 | Some _ => ret tt
                 | None =>
                     bind (the (embeddings (self m2)))
                       (fun e0 =>
                          bind (build_faiss_index e0)
                            (fun index => assign (set_faiss_index (Some index))))
                 end m2 = (m3, Py.Ok tt)).
  { destruct (faiss_index (self m2)) eqn:I.
    - exists m2. eexists. split; [exact E2 |]. split; [exact I | reflexivity].
    - rewrite E2. eexists. eexists.
      split; [| split; [| reflexivity]]; [exact E2 | reflexivity]. }
  destruct Hindex as [m3 [index [E3 [I3 R3]]]]. rewrite R3 in F. clear R3.
  rewrite bind_run in F. cbn [read] in F. rewrite bind_run in F.
  match type of F with
  | match ?c m3 with _ => _ end = _ =>
      assert (Hproject :
                exists m4 r4,
                  c m3 = (m4, r4)
                  /\ (r4 = Py.Ok tt ->
                      exists p,
                        embeddings (self m4) = Some e
                        /\ faiss_index (self m4) = Some index
                        /\ projections (self m4) = Some p))
  end.
  { destruct (projections (self m3)) eqn:P.
    - exists m3, (Py.Ok tt). split; [reflexivity |]. intros _.
      eexists. repeat split; eassumption.
    - rewrite E3. unfold the, project, bind, read, assign.
      cbn [self calls drawn].
      destruct (Py.str_eqb _ (Py.lit "pca"));
        [| destruct (Py.str_eqb _ (Py.lit "umap"));
           [| destruct (Py.str_eqb _ (Py.lit "tsvd"))]];
        unfold call, ret, raise; cbn [self calls drawn];
        eexists; eexists; (split; [reflexivity |]);
        intros Hr; try discriminate;
        eexists; repeat split; cbn; eassumption. }
  destruct Hproject as [m4 [r4 [R4 H4]]]. rewrite R4 in F. clear R4.
  destruct r4 as [[] | e4]; [| discriminate].
  destruct (H4 eq_refl) as [p [E4 [I4 P4]]]. clear H4.
  rewrite bind_run in F. cbn [read] in F. rewrite bind_run in F.
  rewrite P4 in F. unfold the at 1 in F. cbn [ret] in F.
  rewrite bind_run in F.
  destruct (cluster p (clustering_algorithm (self m4))
              (clustering_args (self m4)) m4) as [m5 [[] | e5]] eqn:CL;
    [| discriminate].
  apply cluster_done in CL. destruct CL as [labels [centers [S5 L5]]].
  rewrite P4 in L5.
  rewrite bind_run in F. cbn [read] in F. rewrite bind_run in F.
  destruct (summary_create (self m5)) eqn:SC5.
  - rewrite bind_run in F.
    destruct (summarize (texts (self m5)) (cluster_labels (self m5)) m5)
      as [m6 [d | e6]] eqn:SU; [| discriminate].
    pose proof SU as SU'. apply summarize_effect in SU'.
    destruct SU' as [[d6 S6'] _].
    unfold bind, assign, read, ret in F. injection F as <- _.
    cbn [self] in *.
    assert (N5 : 0 < summary_n_examples (self m5)).
    { rewrite S6' in Hn. cbn in Hn. apply Hn. exact SC5. }
    assert (Hl : cluster_labels (self m5) = Some labels)
      by (rewrite S5; reflexivity).
    assert (Hd : label2docs (self m5) = Some (group_docs labels))
      by (rewrite S5; reflexivity).
    rewrite Hl in SU. unfold summarize in SU.
    assert (S6 : self m6 = self m5).
    { eapply summarize_loop_self; [exact Hd | | exact SU].
      intros label Hin.
      pose proof (@summarize_loop_documents _ _ _ _ _ _ N5 SU label Hin)
        as Hdocs.
      unfold docs_at in Hdocs. rewrite Hd in Hdocs. unfold docs_of in Hdocs.
      apply (dict_get_keys Z.eqb Z.eqb_eq).
      destruct (Py.dict_get Z.eqb (group_docs labels) label);
        [discriminate | now elim Hdocs]. }
    assert (Hk : int_keyed d).
    { eapply summarize_loop_int_keyed; [| exact SU].
      split; [repeat constructor; intros [] |].
      repeat constructor. now exists noise_label. }
    rewrite S6, S5. exists e, index, p, labels, centers. cbn.
    repeat (split; [first [assumption | reflexivity] |]). exact Hk.
  - unfold bind, assign, read, ret in F. injection F as <- _.
    cbn [self]. rewrite S5. exists e, index, p, labels, centers. cbn.
    repeat (split; [first [assumption | reflexivity] |]). exact I.
Qed.

(** ** Positions that are not those of a labelled document *)

Lemma index_negative {A} (l : list A) (i : Z) (dflt : A) :
  - Z.of_nat (length l) <= i < 0 ->
  Py.index l i = Py.Ok (nth (Z.to_nat (Z.of_nat (length l) + i)) l dflt).
Proof.
  intros H. unfold Py.index, Py.item.
  destruct (0 <=? i) eqn:E1; [apply Z.leb_le in E1; lia |].
  destruct (- Z.of_nat (length l) <=? i) eqn:E2;
    [| apply Z.leb_gt in E2; lia].
  destruct (i <? 0) eqn:E3; [| apply Z.ltb_ge in E3; lia].
  cbn. destruct (nth_error l (Z.to_nat (Z.of_nat (length l) + i)))
    as [a |] eqn:E.
  - f_equal. symmetry. now apply nth_error_nth.
  - apply nth_error_None in E. lia.
Qed.

Lemma index_out_of_range {A} (l : list A) (i : Z) :
  i < - Z.of_nat (length l) \/ Z.of_nat (length l) <= i ->
  Py.index l i = Py.Raise Py.IndexError.
Proof.
  intros H. unfold Py.index.
  destruct (0 <=? i) eqn:E1, (i <? Z.of_nat (length l)) eqn:E2,
    (- Z.of_nat (length l) <=? i) eqn:E3, (i <? 0) eqn:E4;
    cbn; try reflexivity;
    repeat match goal with
           | E : (_ <=? _) = true |- _ => apply Z.leb_le in E
           | E : (_ <=? _) = false |- _ => apply Z.leb_gt in E
           | E : (_ <? _) = true |- _ => apply Z.ltb_lt in E
           | E : (_ <? _) = false |- _ => apply Z.ltb_ge in E
           end; lia.
Qed.

Lemma item_ok_or_IndexError {A} (l : list A) (i : nat) :
  (exists a, Py.item l i = Py.Ok a) \/ Py.item l i = Py.Raise Py.IndexError.
Proof.
  unfold Py.item.
  destruct (nth_error l i); [left; eexists; reflexivity | now right].
Qed.

Lemma index_ok_or_IndexError {A} (l : list A) (i : Z) :
  (exists a, Py.index l i = Py.Ok a) \/ Py.index l i = Py.Raise Py.IndexError.
Proof.
  unfold Py.index, Py.item.
  destruct (_ && _);
    [destruct (nth_error _ _); [left; eexists; reflexivity | now right] |].
  destruct (_ && _);
    [destruct (nth_error _ _); [left; eexists; reflexivity | now right] |].
  now right.
Qed.

Lemma label_at_row (labels row : list Z) :
  Forall (fun doc =>
            - Z.of_nat (length labels) <= doc < Z.of_nat (length labels)) row ->
  Py.map_r (fun doc => Py.index labels doc) row
  = Py.Ok (map (label_at labels) row).
Proof.
  induction 1 as [| doc row Hd _ IH]; cbn; [reflexivity |].
  unfold label_at at 1. destruct (doc <? 0) eqn:E.
  - apply Z.ltb_lt in E.
    rewrite (@index_negative _ labels doc 0) by lia. cbn. rewrite IH.
    reflexivity.
  - apply Z.ltb_ge in E.
    rewrite (@index_in_range _ labels doc 0) by lia. cbn. rewrite IH.
    reflexivity.
Qed.

Lemma map_r_ok_or {A B} (f : A -> Py.result B) (e : Py.exn) (l : list A) :
  (forall a, In a l -> (exists b, f a = Py.Ok b) \/ f a = Py.Raise e) ->
  (exists bs, Py.map_r f l = Py.Ok bs) \/ Py.map_r f l = Py.Raise e.
Proof.
  induction l as [| a l IH]; intros H; cbn.
  - left. now exists [].
  - destruct (H a (or_introl eq_refl)) as [[b ->] | ->]; [| now right].
    cbn. destruct IH as [[bs ->] | ->].
    + intros x Hx. apply H. now right.
    + left. eexists. reflexivity.
    + now right.
Qed.

Lemma map_r_raises {A B} (f : A -> Py.result B) (e : Py.exn) (l : list A) :
  (forall a, In a l -> (exists b, f a = Py.Ok b) \/ f a = Py.Raise e) ->
  (exists a, In a l /\ f a = Py.Raise e) ->
  Py.map_r f l = Py.Raise e.
Proof.
  induction l as [| a l IH]; intros H [x [Hx Ex]]; [destruct Hx |]. cbn.
  destruct (H a (or_introl eq_refl)) as [[b Eb] | ->]; [| reflexivity].
  rewrite Eb. cbn. rewrite IH; [reflexivity | |].
  - intros y Hy. apply H. now right.
  - destruct Hx as [<- | Hx]; [congruence |]. now exists x.
Qed.

(** [infer] reads a negative position among the neighbours from the end
    of the labels, as Python does: with an index that fills the places
    it cannot serve with -1, each missing neighbour votes with the label
    of the last document.  For rows that are not empty, of positions
    from minus the number of labels up to it, [infer] returns, and each
    label is one with the most votes among the labels read so. *)
Theorem infer_negative_positions_count_from_end (m : machine)
  (texts_arg : list Py.str) (top_k : Z) (index : Index) (labels : list Z) :
  faiss_index (self m) = Some index ->
  cluster_labels (self m) = Some labels ->
  let neighbours := index_search index (encode (Some texts_arg)) top_k in
  length neighbours = length (encode (Some texts_arg)) ->
  Forall (fun row =>
            row <> []
            /\ Forall (fun doc =>
                         - Z.of_nat (length labels) <= doc
                         < Z.of_nat (length labels)) row)
    neighbours ->
  exists inferred,
    snd (infer texts_arg top_k m)
    = Py.Ok (inferred, encode (Some texts_arg))
    /\ length inferred = length neighbours
    /\ forall i row,
         nth_error neighbours i = Some row ->
         exists label,
           nth_error inferred i = Some label
           /\ majority label (map (label_at labels) row).
Proof.
  intros Hindex Hlabels neighbours Hrows Hdocs.
  destruct (map_r_Forall2
              (fun i =>
                 let? row := Py.item neighbours i in
                 let? ls :=
                   Py.map_r
                     (fun doc =>
                        match cluster_labels (self m) with
                        | None => Py.Raise Py.TypeError
                        | Some cl => Py.index cl doc
                        end) row in
                 let? top := Py.item (Py.most_common_1 (Py.Counter ls)) 0 in
                 Py.Ok (fst top))
              (fun i label =>
                 exists row,
                   nth_error neighbours i = Some row
                   /\ majority label (map (label_at labels) row))
              (seq 0 (length (encode (Some texts_arg)))))
    as [inferred [Hmap Hall]].
  { intros i Hi. apply in_seq in Hi. rewrite <- Hrows in Hi.
    destruct (nth_error neighbours i) as [row |] eqn:Hrow;
      [| apply nth_error_None in Hrow; lia].
    rewrite Forall_forall in Hdocs.
    destruct (Hdocs row (nth_error_In _ _ Hrow)) as [Hne Hrange].
    unfold Py.item at 1. rewrite Hrow. cbn [Py.rbind]. rewrite Hlabels.
    rewrite (label_at_row labels Hrange). cbn [Py.rbind].
    destruct (most_common_majority (votes := map (label_at labels) row))
      as [top [Htop Hmaj]].
    { destruct row; [congruence | discriminate]. }
    rewrite Htop. cbn [Py.rbind]. exists (fst top). split; [reflexivity |].
    exists row. now split. }
  exists inferred.
  apply Forall2_seq_nth in Hall. destruct Hall as [Hlen Hnth].
  split; [| split].
  - unfold infer, embed, bind, call, ret, read, lift. cbn. rewrite Hindex.
    cbn. fold neighbours. rewrite Hmap. reflexivity.
  - now rewrite Hlen, Hrows.
  - intros i row Hrow.
    assert (Hi : (i < length neighbours)%nat)
      by (apply nth_error_Some; congruence).
    destruct (Hnth i) as [label [Hl [row' [Hr Hm]]]]; [lia |].
    cbn [Nat.add] in Hr, Hm. exists label. split; [exact Hl |]. congruence.
Qed.

(** A position among the neighbours of a query that is not a position of
    the labels, from either end, makes [infer] raise [IndexError]: so it
    is with an index that holds more documents than there are labels. *)
Theorem infer_position_out_of_range (m : machine)
  (texts_arg : list Py.str) (top_k : Z) (index : Index) (labels : list Z)
  (i : nat) (row : list Z) (doc : Z) :
  faiss_index (self m) = Some index ->
  cluster_labels (self m) = Some labels ->
  (i < length (encode (Some texts_arg)))%nat ->
  nth_error (index_search index (encode (Some texts_arg)) top_k) i
  = Some row ->
  In doc row ->
  doc < - Z.of_nat (length labels) \/ Z.of_nat (length labels) <= doc ->
  snd (infer texts_arg top_k m) = Py.Raise Py.IndexError.
Proof.
  intros Hindex Hlabels Hi Hrow Hdoc Hout.
  set (neighbours := index_search index (encode (Some texts_arg)) top_k) in *.
  unfold infer, embed, bind, call, ret, read, lift. cbn. rewrite Hindex.
  cbn. fold neighbours. rewrite Hlabels.
  rewrite (@map_r_raises _ _ _ Py.IndexError); [reflexivity | |].
  - intros j _.
    destruct (item_ok_or_IndexError neighbours j) as [[r ->] | ->];
      [| right; reflexivity].
    cbn [Py.rbind].
    destruct (@map_r_ok_or _ _ (fun d => Py.index labels d) Py.IndexError r)
      as [[ls ->] | ->]; [| | right; reflexivity].
    { intros d _. apply index_ok_or_IndexError. }
    cbn [Py.rbind].
    destruct (item_ok_or_IndexError (Py.most_common_1 (Py.Counter ls)) 0)
      as [[top ->] | ->]; [left; eexists; reflexivity | right; reflexivity].
  - exists i. split; [apply in_seq; lia |].
    unfold Py.item at 1. rewrite Hrow. cbn [Py.rbind].
    rewrite (@map_r_raises _ _ _ Py.IndexError); [reflexivity | |].
    + intros d _. apply index_ok_or_IndexError.
    + exists doc. split; [exact Hdoc | now apply index_out_of_range].
Qed.

(** ** One prompt for each label that [summarize] goes through *)









End Properties.

(** * The properties at the small instance *)

Lemma postprocess_response_spec_witness :
  _postprocess_response
    (new_classifier (Toy.settings "dbscan" "multiple_topics" 3 4 true))
    (Py.lit " Tree, Cat,, Fireman. (three words)")
  = Py.Ok (Py.lit "Tree, Cat, Fireman")
  /\ _postprocess_response
       (new_classifier (Toy.settings "dbscan" "keywords" 3 4 true))
       (Py.lit " Tree, Cat,, Fireman. (three words)")
     = Py.Raise Py.ValueError.
Proof.
  split.
  - apply (proj1 (postprocess_response_spec (X := Toy.externals)
                    (new_classifier
                       (Toy.settings "dbscan" "multiple_topics" 3 4 true))
                    (Py.lit " Tree, Cat,, Fireman. (three words)"))).
    reflexivity.
  - apply (proj2 (postprocess_response_spec (X := Toy.externals)
                    (new_classifier
                       (Toy.settings "dbscan" "keywords" 3 4 true))
                    (Py.lit " Tree, Cat,, Fireman. (three words)"))).
    + apply str_eqb_neq. reflexivity.
    + apply str_eqb_neq. reflexivity.
Defined.

Lemma fit_batched_raises_witness :
  1 < 2
  /\ snd (fit (Some Toy.corpus) (Some 2) None None None None
            Toy.fitted_machine) = Py.Raise Py.TypeError
  /\ calls (fst (fit (Some Toy.corpus) (Some 2) None None None None
                   Toy.fitted_machine)) = calls Toy.fitted_machine
  /\ forall n, batch_and_join VClassifier n = Py.Raise Py.TypeError.
Proof.
  split; [lia |].
  apply (fit_batched_raises (X := Toy.externals) Toy.fitted_machine
           (Some Toy.corpus) None None None None (b := 2)).
  lia.
Defined.

Lemma refit_changed_batch_size_not_recomputed_witness :
  embeddings (self Toy.fitted_machine) <> None
  /\ projections (self Toy.fitted_machine) <> None
  /\ batch_size (self Toy.fitted_machine) = 1
  /\ let m' := fst (fit (Some Toy.corpus) (Some 2) None None None None
                      Toy.fitted_machine) in
     snd (fit (Some Toy.corpus) (Some 2) None None None None
            Toy.fitted_machine) = Py.Raise Py.TypeError
     /\ embeddings (self m') = None
     /\ projections (self m') = None
     /\ calls m' = calls Toy.fitted_machine.
Proof.
  split; [vm_compute; discriminate |].
  split; [vm_compute; discriminate |].
  split; [vm_compute; reflexivity |].
  apply (refit_changed_batch_size_not_recomputed (X := Toy.externals)
           Toy.fitted_machine (Some Toy.corpus) None None None None (b := 2)).
  - lia.
  - vm_compute. discriminate.
Defined.

Lemma infer_majority_vote_witness :
  exists inferred,
    snd (infer [Py.lit "tre"; Py.lit "fire alarms"] 3 Toy.fitted_machine)
    = Py.Ok (inferred, [[3; 116]; [11; 102]])
    /\ length inferred = 2%nat
    /\ forall i, (i < 2)%nat ->
         exists row label,
           nth_error [[1; 2; 3]; [3; 4; 0]] i = Some row
           /\ nth_error inferred i = Some label
           /\ majority label (labels_of [-1; 0; 0; 1; 1] row).
Proof.
  apply (infer_majority_vote (X := Toy.externals) Toy.fitted_machine
           [Py.lit "tre"; Py.lit "fire alarms"] (top_k := 3)
           (index := [[1; 97]; [4; 116]; [5; 116]; [11; 102]; [12; 102]])
           (labels := [-1; 0; 0; 1; 1])).
  - lia.
  - vm_compute. reflexivity.
  - vm_compute. reflexivity.
  - reflexivity.
  - change (index_search (Externals := Toy.externals)
              [[1; 97]; [4; 116]; [5; 116]; [11; 102]; [12; 102]]
              (encode (Some [Py.lit "tre"; Py.lit "fire alarms"])) 3)
      with [[1; 2; 3]; [3; 4; 0]].
    split; [reflexivity |].
    repeat (constructor;
            [split; [reflexivity | repeat (constructor; [cbn; lia |])];
             constructor |]).
    constructor.
Defined.

Lemma summarize_misses_label_without_noise_witness :
  exists label,
    In label [0; 0; 0; 1; 1]
    /\ label <> noise_label
    /\ Py.dict_get Py.key_eqb Toy.kmeans_summaries (Py.KInt label) = None.
Proof.
  apply (summarize_misses_label_without_noise (X := Toy.externals)
           Toy.kmeans_machine (texts (self Toy.kmeans_machine))
           (labels := [0; 0; 0; 1; 1]) (d := Toy.kmeans_summaries)).
  - discriminate.
  - intros H. repeat (destruct H as [H | H]; [discriminate |]). exact H.
  - vm_compute. reflexivity.
Defined.

(** The run of [fit] with kmeans on the corpus: two clusters, 0 and 1,
    and a summary for the first alone. *)
Example fit_kmeans_summaries :
  let m :=
    Toy.after (fit (Some Toy.corpus) (Some 1) None None None None)
      (Toy.fresh (Toy.settings "kmeans" "multiple_topics" 3 4 true)) in
  cluster_labels (self m) = Some [0; 0; 0; 1; 1]
  /\ cluster_summaries (self m)
     = Py.Val [(Py.KInt (-1), Py.lit "None");
               (Py.KInt 0, Py.lit "Tree, Cat, Fireman")].
Proof. split; vm_compute; reflexivity. Qed.

Lemma fitted_dbscan_machine : fitted (self Toy.dbscan_machine).
Proof.
  unfold fitted. do 5 eexists.
  do 8 (split; [vm_compute; reflexivity |]).
  vm_compute. exact I.
Qed.

Lemma fitted_fitted_machine : fitted (self Toy.fitted_machine).
Proof.
  unfold fitted. do 5 eexists.
  do 8 (split; [vm_compute; reflexivity |]).
  change (int_keyed
            [(Py.KInt (-1), Py.lit "None");
             (Py.KInt 0, Py.lit "Tree, Cat, Fireman");
             (Py.KInt 1, Py.lit "Tree, Cat, Fireman")]).
  split.
  - cbn. repeat constructor; cbn; intuition discriminate.
  - repeat constructor; eexists; reflexivity.
Qed.

(** C6 as stated fails for a classifier fitted without summaries: [save]
    writes no summaries file and [load] leaves the summaries of a new
    classifier unset, where the saved classifier had [None]. *)
Lemma load_after_save_loses_None_summaries :
  fitted (self Toy.dbscan_machine)
  /\ ~ restored (self Toy.dbscan_machine)
         (cluster_summaries (self Toy.dbscan_machine))
         (self
            (fst
               (load
                  (fst (save (Py.lit "saved") (self Toy.dbscan_machine)
                          Toy.no_files))
                  (Py.lit "saved")
                  (Toy.fresh
                     (Toy.settings "dbscan" "multiple_topics" 3 4 false))))).
Proof.
  split; [exact fitted_dbscan_machine |].
  intros [_ [_ [_ [_ [_ [H _]]]]]]. vm_compute in H. discriminate H.
Qed.

Lemma load_after_save_restores_witness :
  (let saved :=
     save (Py.lit "saved") (self Toy.fitted_machine) Toy.no_files in
   let loaded :=
     load (fst saved) (Py.lit "saved")
       (Toy.fresh (Toy.settings "dbscan" "multiple_topics" 3 4 true)) in
   snd saved = Py.Ok tt
   /\ snd loaded = Py.Ok tt
   /\ restored (self Toy.fitted_machine)
        (Py.Val
           [(Py.KInt (-1), Py.lit "None");
            (Py.KInt 0, Py.lit "Tree, Cat, Fireman");
            (Py.KInt 1, Py.lit "Tree, Cat, Fireman")])
        (self (fst loaded)))
  /\ (let saved :=
        save (Py.lit "saved") (self Toy.dbscan_machine) Toy.no_files in
      let loaded :=
        load (fst saved) (Py.lit "saved") Toy.fitted_machine in
      snd saved = Py.Ok tt
      /\ snd loaded = Py.Ok tt
      /\ restored (self Toy.dbscan_machine)
           (cluster_summaries (self Toy.fitted_machine))
           (self (fst loaded))).
Proof.
  split.
  - apply (load_after_save_restores (X := Toy.externals)
             (s := self Toy.fitted_machine) Toy.no_files (Py.lit "saved")
             (Toy.fresh (Toy.settings "dbscan" "multiple_topics" 3 4 true))).
    + exact fitted_fitted_machine.
    + intros H. vm_compute in H. discriminate H.
  - apply (load_after_save_restores (X := Toy.externals)
             (s := self Toy.dbscan_machine) Toy.no_files (Py.lit "saved")
             Toy.fitted_machine).
    + exact fitted_dbscan_machine.
    + intros _. exact I.
Defined.

(** * The further properties at the small instance *)

Lemma batch_and_join_keeps_all_text_witness :
  0 < 2
  /\ exists bs,
       batch_and_join (VList Toy.corpus) (VInt 2) = Py.Ok bs
       /\ Py.join [Py.nl] bs = Py.join [Py.nl] Toy.corpus.
Proof.
  split; [lia |].
  apply (batch_and_join_keeps_all_text Toy.corpus (n := 2)). lia.
Defined.

Lemma batch_and_join_batches_witness :
  0 < 2
  /\ exists bs,
       batch_and_join (VList Toy.corpus) (VInt 2) = Py.Ok bs
       /\ length bs = ((length Toy.corpus + Z.to_nat 2 - 1) / Z.to_nat 2)%nat
       /\ forall i, (i < length bs)%nat ->
            nth_error bs i
            = Some (Py.join [Py.nl]
                      (firstn (Z.to_nat 2) (skipn (i * Z.to_nat 2) Toy.corpus))).
Proof.
  split; [lia |].
  apply (batch_and_join_batches Toy.corpus (n := 2)). lia.
Defined.

(** The batches of the corpus, two texts in each. *)
Example batch_and_join_corpus :
  batch_and_join (VList Toy.corpus) (VInt 2)
  = Py.Ok [Py.lit "a" ++ [Py.nl] ++ Py.lit "tree";
           Py.lit "trees" ++ [Py.nl] ++ Py.lit "fire engine";
           Py.lit "fire brigade"].
Proof. vm_compute. reflexivity. Qed.

Lemma postprocess_multiple_topics_clean_witness :
  exists summary,
    _postprocess_response
      (new_classifier (Toy.settings "dbscan" "multiple_topics" 3 4 true))
      (Py.lit " Tree, Cat,, Fireman. (three words)")
    = Py.Ok summary
    /\ ~ In Py.nl summary
    /\ ~ In "."%char summary
    /\ ~ In "("%char summary
    /\ (summary = []
        \/ Forall (fun topic => topic <> [])
             (Py.split (Py.lit ",") summary)).
Proof.
  apply (postprocess_multiple_topics_clean (X := Toy.externals)
           (new_classifier (Toy.settings "dbscan" "multiple_topics" 3 4 true))
           (Py.lit " Tree, Cat,, Fireman. (three words)")).
  reflexivity.
Defined.

Lemma postprocess_single_topic_total_witness :
  _postprocess_response
    (new_classifier (Toy.settings "dbscan" "single_topic" 3 4 true))
    (Py.lit "Topic: Trees (oaks), parks. Educational value rating: 3. Fine")
  = Py.Ok (Py.lit "Trees. Educational score: 3").
Proof.
  destruct (postprocess_single_topic_total (X := Toy.externals)
              (new_classifier (Toy.settings "dbscan" "single_topic" 3 4 true))
              (Py.lit "Topic: Trees (oaks), parks. Educational value rating: 3. Fine")
              eq_refl)
    as [line [topic [score [_ [R [_ [_ [_ [_ [_ [L [T S]]]]]]]]]]]].
  rewrite R. subst line.
  rewrite (T (Py.lit " Trees (oaks), parks. Educational value rating: 3. Fine")),
    (S (Py.lit " 3. Fine")).
  - reflexivity.
  - exists (Py.lit "Topic: Trees (oaks), parks. "), (Py.lit " 3. Fine").
    split.
    + apply (first_cut_check (Py.lit "Educational value rating:")
               (Py.lit "Topic: Trees (oaks), parks. ") (Py.lit " 3. Fine")).
      reflexivity.
    + left. split; [apply absent_check; reflexivity | reflexivity].
  - exists [],
      (Py.lit " Trees (oaks), parks. Educational value rating: 3. Fine").
    split.
    + apply (first_cut_check (Py.lit "Topic:") []
               (Py.lit " Trees (oaks), parks. Educational value rating: 3. Fine")).
      reflexivity.
    + left. split; [apply absent_check; reflexivity | reflexivity].
Defined.

(** The two modes on responses with and without the markers. *)
Example postprocess_single_topic_responses :
  _postprocess_response
    (new_classifier (Toy.settings "dbscan" "single_topic" 3 4 true))
    (Py.lit "Topic: Trees (oaks), parks. Educational value rating: 3. Fine")
  = Py.Ok (Py.lit "Trees. Educational score: 3")
  /\ _postprocess_response
       (new_classifier (Toy.settings "dbscan" "single_topic" 3 4 true))
       (Py.lit "Trees and parks")
     = Py.Ok (Py.lit "None. Educational score: None").
Proof. split; vm_compute; reflexivity. Qed.

Lemma project_unknown_algorithm_witness :
  let m := Toy.fresh (Toy.settings "dbscan" "multiple_topics" 3 4 true) in
  let m' := fst (project [] (Py.lit "isomap") [] m) in
  snd (project [] (Py.lit "isomap") [] m) = Py.Ok None
  /\ calls m' = calls m
  /\ projection_algorithm (self m') = Py.lit "isomap".
Proof.
  apply (project_unknown_algorithm (X := Toy.externals) []
           (algorithm := Py.lit "isomap") []
           (Toy.fresh (Toy.settings "dbscan" "multiple_topics" 3 4 true))).
  intros H. repeat (destruct H as [H | H]; [discriminate |]). exact H.
Defined.

Lemma store_cluster_info_centers_witness :
  let labels := [-1; 0; 0; 1; 1] in
  let p : list (list (@Float Toy.externals)) :=
    [[1; 97]; [4; 116]; [5; 116]; [11; 102]; [12; 102]] in
  let m' := fst (store_cluster_info labels Toy.dbscan_machine) in
  snd (store_cluster_info labels Toy.dbscan_machine) = Py.Ok tt
  /\ exists centers,
       cluster_centers (self m') = Some centers
       /\ Py.dict_keys centers = Py.dict_keys (group_docs labels)
       /\ forall label, In label labels ->
            exists xs ys : list (@Float Toy.externals),
              Forall2
                (fun doc x =>
                   exists row,
                     nth_error p doc = Some row /\ nth_error row 0 = Some x)
                (docs_of (group_docs labels) label) xs
              /\ Forall2
                   (fun doc y =>
                      exists row,
                        nth_error p doc = Some row
                        /\ nth_error row 1 = Some y)
                   (docs_of (group_docs labels) label) ys
              /\ Py.dict_get Z.eqb centers label
                 = Some (np_mean xs, np_mean ys).
Proof.
  apply (store_cluster_info_centers (X := Toy.externals) [-1; 0; 0; 1; 1]
           Toy.dbscan_machine
           (p := [[1; 97]; [4; 116]; [5; 116]; [11; 102]; [12; 102]])).
  - vm_compute. reflexivity.
  - cbn. lia.
  - repeat (constructor; [cbn; lia |]). constructor.
Defined.

(** The centers of the three groups of the corpus: the noise, the short
    texts and the long ones. *)
Example store_cluster_info_corpus :
  cluster_centers (self Toy.dbscan_machine)
  = Some [(-1, (1, 97)); (0, (4, 116)); (1, (11, 102))].
Proof. vm_compute. reflexivity. Qed.

Lemma summarize_needs_documents_witness :
  docs_at (self Toy.kmeans_machine) 0 <> [].
Proof.
  apply (@summarize_needs_documents Toy.externals Toy.kmeans_machine
           (texts (self Toy.kmeans_machine)) [0; 0; 0; 1; 1]
           Toy.kmeans_summaries).
  - vm_compute. reflexivity.
  - vm_compute. reflexivity.
  - vm_compute. split; [discriminate | reflexivity].
Defined.

Lemma summarize_files_label_without_documents_witness :
  let m := Toy.after (store_cluster_info [1; 1; 2; 2; 2]) Toy.dbscan_machine in
  let m' := fst (summarize (Some Toy.corpus) (Some [1; 1; 2; 2; 2]) m) in
  snd (summarize (Some Toy.corpus) (Some [1; 1; 2; 2; 2]) m)
  = Py.Raise Py.ValueError
  /\ calls m' = calls m
  /\ label2docs (self m')
     = Some ([(1, [0; 1]%nat); (2, [2; 3; 4]%nat)] ++ [(0, [])]).
Proof.
  apply (@summarize_files_label_without_documents Toy.externals
           (Toy.after (store_cluster_info [1; 1; 2; 2; 2]) Toy.dbscan_machine)
           (Some Toy.corpus) [1; 1; 2; 2; 2]
           [(1, [0; 1]%nat); (2, [2; 3; 4]%nat)]).
  - vm_compute. reflexivity.
  - reflexivity.
  - vm_compute. lia.
  - vm_compute. reflexivity.
Defined.

Lemma summarize_keys_and_requests_witness :
  Py.dict_keys Toy.kmeans_summaries
  = map Py.KInt
      (noise_label :: Py.range (Z.of_nat (Py.len_set [0; 0; 0; 1; 1]) - 1))
  /\ exists requests,
       calls (fst (summarize (texts (self Toy.kmeans_machine))
                     (Some [0; 0; 0; 1; 1]) Toy.kmeans_machine))
       = calls Toy.kmeans_machine ++ map Generate requests
       /\ length requests
          = Z.to_nat (Z.of_nat (Py.len_set [0; 0; 0; 1; 1]) - 1).
Proof.
  apply (@summarize_keys_and_requests Toy.externals Toy.kmeans_machine
           (texts (self Toy.kmeans_machine)) [0; 0; 0; 1; 1]
           Toy.kmeans_summaries).
  vm_compute. reflexivity.
Defined.

Lemma infer_depends_on_index_and_labels_witness :
  snd (infer [Py.lit "tre"; Py.lit "fire alarms"] 3 Toy.fitted_machine)
  = snd (infer [Py.lit "tre"; Py.lit "fire alarms"] 3 Toy.dbscan_machine).
Proof.
  apply (@infer_depends_on_index_and_labels Toy.externals Toy.fitted_machine
           Toy.dbscan_machine [Py.lit "tre"; Py.lit "fire alarms"] 3).
  - vm_compute. reflexivity.
  - vm_compute. reflexivity.
Defined.

Lemma infer_tie_goes_to_first_label_witness :
  exists inferred,
    snd (infer [Py.lit "tre"; Py.lit "fire alarms"] 2 Toy.fitted_machine)
    = Py.Ok (inferred, [[3; 116]; [11; 102]])
    /\ forall i, (i < 2)%nat ->
         exists row label,
           nth_error [[1; 2]; [3; 4]] i = Some row
           /\ nth_error inferred i = Some label
           /\ first_among_equals label (labels_of [-1; 0; 0; 1; 1] row).
Proof.
  apply (@infer_tie_goes_to_first_label Toy.externals Toy.fitted_machine
           [Py.lit "tre"; Py.lit "fire alarms"] 2
           [[1; 97]; [4; 116]; [5; 116]; [11; 102]; [12; 102]]
           [-1; 0; 0; 1; 1]).
  - lia.
  - vm_compute. reflexivity.
  - vm_compute. reflexivity.
  - reflexivity.
  - change (index_search (Externals := Toy.externals)
              [[1; 97]; [4; 116]; [5; 116]; [11; 102]; [12; 102]]
              (encode (Some [Py.lit "tre"; Py.lit "fire alarms"])) 2)
      with [[1; 2]; [3; 4]].
    split; [reflexivity |].
    repeat (constructor;
            [split; [reflexivity | repeat (constructor; [cbn; lia |])];
             constructor |]).
    constructor.
Defined.

(** A tie between a noise point and a clustered one: the label of the
    nearer document is returned. *)
Example infer_tie_corpus :
  snd (infer [Py.lit "ab"] 2 Toy.fitted_machine) = Py.Ok ([-1], [[2; 97]]).
Proof. vm_compute. reflexivity. Qed.

Lemma save_writes_artifacts_only_witness :
  let s := self Toy.dbscan_machine in
  let s' := set_clustering_algorithm (Py.lit "kmeans") (set_batch_size 7 s) in
  save (Py.lit "saved") s Toy.no_files = save (Py.lit "saved") s' Toy.no_files
  /\ (snd (save (Py.lit "saved") s Toy.no_files) = Py.Ok tt ->
      exists dir,
        fst (save (Py.lit "saved") s Toy.no_files) (Py.lit "saved") = Some dir
        /\ mistral_prompt_txt dir = Some DEFAULT_INSTRUCTION).
Proof.
  apply (@save_writes_artifacts_only Toy.externals (self Toy.dbscan_machine)
           (set_clustering_algorithm (Py.lit "kmeans")
              (set_batch_size 7 (self Toy.dbscan_machine)))
           Toy.no_files (Py.lit "saved")).
  unfold same_artifacts.
  do 5 (split; [vm_compute; reflexivity |]). vm_compute. reflexivity.
Defined.

Lemma save_keeps_stale_summaries_witness :
  let stale :=
    [(Py.KInt (-1), Py.lit "None");
     (Py.KInt 0, Py.lit "Tree, Cat, Fireman");
     (Py.KInt 1, Py.lit "Tree, Cat, Fireman")] in
  let fs := fst (save (Py.lit "saved") (self Toy.fitted_machine) Toy.no_files) in
  let saved := save (Py.lit "saved") (self Toy.dbscan_machine) fs in
  let loaded :=
    load (fst saved) (Py.lit "saved")
      (Toy.fresh (Toy.settings "dbscan" "multiple_topics" 3 4 false)) in
  snd saved = Py.Ok tt
  /\ snd loaded = Py.Ok tt
  /\ cluster_summaries (self (fst loaded)) = Py.Val stale.
Proof.
  apply (@save_keeps_stale_summaries Toy.externals (self Toy.dbscan_machine)
           (fst (save (Py.lit "saved") (self Toy.fitted_machine) Toy.no_files))
           (Py.lit "saved")
           (Toy.fresh (Toy.settings "dbscan" "multiple_topics" 3 4 false))
           (match
              fst (save (Py.lit "saved") (self Toy.fitted_machine) Toy.no_files)
                (Py.lit "saved")
            with
            | Some dir => dir
            | None => empty_folder
            end)
           [(Py.KInt (-1), Py.lit "None");
            (Py.KInt 0, Py.lit "Tree, Cat, Fireman");
            (Py.KInt 1, Py.lit "Tree, Cat, Fireman")]).
  - exact fitted_dbscan_machine.
  - vm_compute. reflexivity.
  - vm_compute. reflexivity.
  - vm_compute. reflexivity.
  - split.
    + cbn. repeat constructor; cbn; intuition discriminate.
    + repeat constructor; eexists; reflexivity.
Defined.

Lemma fit_keeps_existing_index_witness :
  let index : @Index Toy.externals :=
    [[1; 97]; [4; 116]; [5; 116]; [11; 102]; [12; 102]] in
  let m' :=
    fst (fit (Some [Py.lit "oak"; Py.lit "fire alarms"]) (Some 0)
           None None None None Toy.fitted_machine) in
  faiss_index (self m') = Some index
  /\ (exists new,
        calls m' = calls Toy.fitted_machine ++ new /\ ~ In BuildIndex new)
  /\ (forall bz, Some 0 = Some bz -> bz <= 1 ->
      bz <> batch_size (self Toy.fitted_machine) ->
      embeddings (self m')
      = Some (encode (Some [Py.lit "oak"; Py.lit "fire alarms"]))).
Proof.
  apply (@fit_keeps_existing_index Toy.externals Toy.fitted_machine
           (Some [Py.lit "oak"; Py.lit "fire alarms"]) (Some 0)
           None None None None
           [[1; 97]; [4; 116]; [5; 116]; [11; 102]; [12; 102]]).
  vm_compute. reflexivity.
Defined.

(** The run behind the witness above: the classifier is fitted again
    on two texts with another batch size; its embeddings are those of
    the two texts, its index still that of the five. *)
Example fit_stale_index :
  let m' :=
    fst (fit (Some [Py.lit "oak"; Py.lit "fire alarms"]) (Some 0)
           None None None None Toy.fitted_machine) in
  embeddings (self m') = Some [[3; 111]; [11; 102]]
  /\ faiss_index (self m')
     = Some [[1; 97]; [4; 116]; [5; 116]; [11; 102]; [12; 102]].
Proof. split; vm_compute; reflexivity. Qed.

Lemma fit_embeds_the_texts_argument_witness :
  let m' := fst (fit None (Some 0) None None None None Toy.fitted_machine) in
  embeddings (self m') = Some (encode None)
  /\ texts (self m') = or_texts None (texts (self Toy.fitted_machine))
  /\ exists rest, calls m' = calls Toy.fitted_machine ++ Encode None :: rest.
Proof.
  apply (@fit_embeds_the_texts_argument Toy.externals Toy.fitted_machine
           None 0 None None None None).
  - lia.
  - right. vm_compute. discriminate.
Defined.

Lemma fit_without_summaries_requests_nothing_witness :
  let m' :=
    fst (fit (Some Toy.corpus) (Some 1) None None None None
           Toy.dbscan_machine) in
  (exists new,
     calls m' = calls Toy.dbscan_machine ++ new
     /\ forall request, ~ In (Generate request) new)
  /\ forall res,
       snd (fit (Some Toy.corpus) (Some 1) None None None None
              Toy.dbscan_machine) = Py.Ok res ->
       cluster_summaries (self m') = Py.PyNone /\ snd res = Py.PyNone.
Proof.
  apply (@fit_without_summaries_requests_nothing Toy.externals
           Toy.dbscan_machine (Some Toy.corpus) (Some 1) None None None None).
  vm_compute. reflexivity.
Defined.

Lemma fit_unknown_projection_algorithm_witness :
  let m := Toy.fresh (Toy.settings "dbscan" "multiple_topics" 3 4 true) in
  let m' :=
    fst (fit (Some Toy.corpus) (Some 1) (Some (Py.lit "isomap")) None None
           None m) in
  snd (fit (Some Toy.corpus) (Some 1) (Some (Py.lit "isomap")) None None
         None m) = Py.Raise Py.TypeError
  /\ projection_algorithm (self m') = Py.lit "isomap"
  /\ projections (self m') = None
  /\ exists enc idx,
       calls m'
       = calls m
         ++ fit_calls enc idx false false (Some Toy.corpus)
              (Py.lit "isomap") (Py.lit "dbscan") [].
Proof.
  apply (@fit_unknown_projection_algorithm Toy.externals
           (Toy.fresh (Toy.settings "dbscan" "multiple_topics" 3 4 true))
           (Some Toy.corpus) 1 (Some (Py.lit "isomap")) None None None).
  - lia.
  - left. reflexivity.
  - intros H. repeat (destruct H as [H | H]; [discriminate |]). exact H.
Defined.

Lemma fit_unknown_clustering_algorithm_witness :
  let m := Toy.fresh (Toy.settings "dbscan" "multiple_topics" 3 4 true) in
  let m' :=
    fst (fit (Some Toy.corpus) (Some 1) None None (Some (Py.lit "birch"))
           None m) in
  snd (fit (Some Toy.corpus) (Some 1) None None (Some (Py.lit "birch"))
         None m) = Py.Raise Py.UnboundLocalError
  /\ clustering_algorithm (self m') = Py.lit "birch"
  /\ exists enc idx prj,
       calls m'
       = calls m
         ++ fit_calls enc idx prj false (Some Toy.corpus)
              (Py.lit "umap") (Py.lit "birch") [].
Proof.
  apply (@fit_unknown_clustering_algorithm Toy.externals
           (Toy.fresh (Toy.settings "dbscan" "multiple_topics" 3 4 true))
           (Some Toy.corpus) 1 None None (Some (Py.lit "birch")) None).
  - lia.
  - cbn. tauto.
  - intros H. repeat (destruct H as [H | H]; [discriminate |]). exact H.
Defined.

(** The calls of the run behind the witness above: the texts are
    embedded, the index is built and the embeddings are projected before
    the name is found to be none. *)
Example fit_unknown_clustering_calls :
  calls
    (fst (fit (Some Toy.corpus) (Some 1) None None (Some (Py.lit "birch"))
            None
            (Toy.fresh (Toy.settings "dbscan" "multiple_topics" 3 4 true))))
  = [Encode (Some Toy.corpus); BuildIndex; Project (Py.lit "umap")].
Proof. vm_compute. reflexivity. Qed.

Lemma fit_leaves_fitted_classifier_witness :
  let m := Toy.fresh (Toy.settings "kmeans" "multiple_topics" 3 4 true) in
  let m' := fst (fit (Some Toy.corpus) (Some 1) None None None None m) in
  let res :=
    (embeddings (self m'), cluster_labels (self m'),
     cluster_summaries (self m')) in
  fitted (self m')
  /\ fst (fst res) = embeddings (self m')
  /\ snd (fst res) = cluster_labels (self m')
  /\ snd res = cluster_summaries (self m').
Proof.
  apply (@fit_leaves_fitted_classifier Toy.externals
           (Toy.fresh (Toy.settings "kmeans" "multiple_topics" 3 4 true))
           (fst (fit (Some Toy.corpus) (Some 1) None None None None
                   (Toy.fresh
                      (Toy.settings "kmeans" "multiple_topics" 3 4 true))))
           (Some Toy.corpus) (Some 1) None None None None).
  - vm_compute. reflexivity.
  - intros _. vm_compute. reflexivity.
Defined.

Lemma infer_negative_positions_count_from_end_witness :
  let labels := [-1; 0; 0; 1; 1] in
  let neighbours :=
    @index_search Toy.externals
      [[1; 97]; [4; 116]; [5; 116]; [11; 102]; [12; 102]]
      (encode (Some [Py.lit "tre"])) 7 in
  exists inferred,
    snd (infer [Py.lit "tre"] 7 Toy.fitted_machine)
    = Py.Ok (inferred, encode (Some [Py.lit "tre"]))
    /\ length inferred = length neighbours
    /\ forall i row,
         nth_error neighbours i = Some row ->
         exists label,
           nth_error inferred i = Some label
           /\ majority label (map (label_at labels) row).
Proof.
  apply (@infer_negative_positions_count_from_end Toy.externals
           Toy.fitted_machine [Py.lit "tre"] 7
           [[1; 97]; [4; 116]; [5; 116]; [11; 102]; [12; 102]]
           [-1; 0; 0; 1; 1]).
  - vm_compute. reflexivity.
  - vm_compute. reflexivity.
  - vm_compute. reflexivity.
  - vm_compute. repeat constructor; (discriminate || (intros [=])).
Defined.

(** The run behind the witness above: the index holds five documents
    and seven neighbours are asked for, so the row ends with two -1,
    which vote with the label of the last document; the text is given
    label 1, and with one neighbour label 0. *)
Example infer_missing_neighbours :
  @index_search Toy.externals
    [[1; 97]; [4; 116]; [5; 116]; [11; 102]; [12; 102]]
    (encode (Some [Py.lit "tre"])) 7
  = [[1; 2; 3; 4; 0; -1; -1]]
  /\ map (label_at [-1; 0; 0; 1; 1]) [1; 2; 3; 4; 0; -1; -1]
     = [0; 0; 1; 1; -1; 1; 1]
  /\ snd (infer [Py.lit "tre"] 7 Toy.fitted_machine)
     = Py.Ok ([1], [[3; 116]])
  /\ snd (infer [Py.lit "tre"] 1 Toy.fitted_machine)
     = Py.Ok ([0], [[3; 116]]).
Proof. repeat split; vm_compute; reflexivity. Qed.

Lemma infer_position_out_of_range_witness :
  let m :=
    fst (fit (Some [Py.lit "oak"; Py.lit "fire alarms"]) (Some 0)
           None None None None Toy.fitted_machine) in
  cluster_labels (self m) = Some [0; 1]
  /\ snd (infer [Py.lit "fire engine"] 1 m) = Py.Raise Py.IndexError.
Proof.
  split; [vm_compute; reflexivity |].
  apply (@infer_position_out_of_range Toy.externals
           (fst (fit (Some [Py.lit "oak"; Py.lit "fire alarms"]) (Some 0)
                   None None None None Toy.fitted_machine))
           [Py.lit "fire engine"] 1
           [[1; 97]; [4; 116]; [5; 116]; [11; 102]; [12; 102]]
           [0; 1] 0%nat [3] 3).
  - vm_compute. reflexivity.
  - vm_compute. reflexivity.
  - vm_compute. reflexivity.
  - vm_compute. reflexivity.
  - left. reflexivity.
  - right. vm_compute. discriminate.
Defined.

(** * The claims that needed a correction, at the small instance *)

(** C2 as it is stated fails when more neighbours are asked for than the
    index holds documents: of three documents labelled 0, 0 and 1, six
    neighbours are the three documents and three times -1, which [infer]
    reads as the last document; it returns label 1, which is not a label
    with the most votes among the documents returned. *)
Lemma infer_majority_vote_beyond_documents :
  let m :=
    fst (fit (Some [Py.lit "tree"; Py.lit "trees"; Py.lit "fire engine"])
           (Some 1) None None None None
           (Toy.fresh (Toy.settings "kmeans" "multiple_topics" 3 4 false))) in
  faiss_index (self m) = Some [[4; 116]; [5; 116]; [11; 102]]
  /\ cluster_labels (self m) = Some [0; 0; 1]
  /\ @index_search Toy.externals [[4; 116]; [5; 116]; [11; 102]]
       (encode (Some [Py.lit "tre"])) 6
     = [[0; 1; 2; -1; -1; -1]]
  /\ snd (infer [Py.lit "tre"] 6 m)
     = Py.Ok ([1], encode (Some [Py.lit "tre"]))
  /\ ~ majority 1 (labels_of [0; 0; 1] [0; 1; 2]).
Proof.
  cbn zeta. do 4 (split; [vm_compute; reflexivity |]).
  intros [_ H]. specialize (H 0). vm_compute in H.
  repeat match goal with
         | Q : (S _ <= _)%nat |- _ => inversion Q; clear Q; subst
         end.
Qed.


(** The run behind the witness above: two requests are sent, within the
    budget of 225 characters. *)
Example fit_dbscan_requests :
  length (calls (fst (summarize (Some Toy.corpus) (Some [-1; 0; 0; 1; 1])
                        Toy.dbscan_machine)))
  = (length (calls Toy.dbscan_machine) + 2)%nat
  /\ prompt_budget (self Toy.dbscan_machine) = 225%nat.
Proof. split; vm_compute; reflexivity. Qed.

